(** * Session lifecycle of the hotspot login page (main.js)

    A shallow embedding of the login page's script: the formatting helpers
    ([toArabicTime], [toArabicBytes], [hideHalfCard], [toArabicError]), the
    transport callbacks of [getRequest], the five action handlers, the login
    and logout actions and the status poller, followed by the properties of
    the session state machine.

    Conventions of the embedding.
    - A JavaScript string is a [string]; its characters are the 8-bit
      characters of the script's text, so lengths, case folding and white
      space are those of ASCII text (user names, ticket codes and RouterOS
      messages); the Arabic labels are carried as opaque byte sequences.
      The statements that depend on [toLowerCase], [trim] or the length of
      a text the user or the router supplies are stated for ASCII text
      ([ascii_text]).
    - A value of a JSON envelope is a [jvalue], a scalar; an envelope is a
      finite map from property names to values.
    - A number is evaluated only when it is an integer that a double holds
      exactly; [Number] answers [NOther] for every other numeric literal,
      and [String_] prints a number as the script does only within that
      range.  The statements about the wording of a value of the envelope
      are stated for values within these limits ([printable]).
    - A request that fails without a response (no connection, or the timer
      of the request expired) reaches [onreadystatechange] at ready state 4
      with status 0 before the event of the failure itself is dispatched,
      as XMLHttpRequest does.
    - The module variables of the script, the part of the page it reads and
      writes, and the browser facilities it calls (requests, timers) are the
      fields of one [State] record which every function threads explicitly.
    - The page is taken to hold the login form with its inputs, the error
      display and the two sections the script fetches at start-up; each
      status field may be missing.
    - Cosmetic class toggles on buttons, focus changes, console output and
      the optional sections with their buttons are not represented. *)

From Stdlib Require Import ZArith String Ascii List Lia Bool DecimalString.
From stdpp Require Import base strings gmap.
Import ListNotations.

Open Scope string_scope.

(** ** JavaScript values and string primitives *)

Module Js.

Inductive jvalue : Type :=
| JUndefined
| JNull
| JBool (b : bool)
| JNum (z : Z)
| JStr (s : string).

(** Result of the [Number(...)] conversion. *)
Inductive jsnum : Type :=
| NInt (z : Z)      (* an integer held exactly by a double *)
| NaN
| NOther.           (* a number this embedding does not evaluate *)

Definition jvalue_eqb (a b : jvalue) : bool :=
  match a, b with
  | JUndefined, JUndefined => true
  | JNull, JNull => true
  | JBool x, JBool y => Bool.eqb x y
  | JNum x, JNum y => Z.eqb x y
  | JStr x, JStr y => String.eqb x y
  | _, _ => false
  end.

(** ToBoolean. *)
Definition truthy (v : jvalue) : bool :=
  match v with
  | JUndefined | JNull => false
  | JBool b => b
  | JNum z => negb (Z.eqb z 0)
  | JStr s => negb (String.eqb s "")
  end.

Definition string_of_Z (z : Z) : string := NilZero.string_of_int (Z.to_int z).

(** [String(value)]; for a number, the decimal digits of the integer, which
    is what the script prints for the integers a double holds exactly (see
    [printable]). *)
Definition String_ (v : jvalue) : string :=
  match v with
  | JUndefined => "undefined"
  | JNull => "null"
  | JBool true => "true"
  | JBool false => "false"
  | JNum z => string_of_Z z
  | JStr s => s
  end.

Definition is_upper (c : ascii) : bool :=
  let n := nat_of_ascii c in (65 <=? n)%nat && (n <=? 90)%nat.

Definition lower_char (c : ascii) : ascii :=
  if is_upper c then ascii_of_nat (nat_of_ascii c + 32) else c.

(** [s.toLowerCase()] on ASCII text: the letters A to Z are folded, every
    other character is kept. *)
Fixpoint toLowerCase (s : string) : string :=
  match s with
  | EmptyString => EmptyString
  | String c r => String (lower_char c) (toLowerCase r)
  end.

(** [s.includes(sub)]. *)
Fixpoint includes (s sub : string) : bool :=
  String.prefix sub s ||
  match s with
  | EmptyString => false
  | String _ r => includes r sub
  end.

(** [c.repeat(n)] for a one-character string. *)
Fixpoint repeat_char (c : ascii) (n : nat) : string :=
  match n with
  | O => EmptyString
  | S k => String c (repeat_char c k)
  end.

(** [s.split(sep)] for a one-character separator. *)
Fixpoint split (sep : ascii) (s : string) : list string :=
  match s with
  | EmptyString => [EmptyString]
  | String c r =>
      if Ascii.eqb c sep then EmptyString :: split sep r
      else match split sep r with
           | [] => [String c EmptyString]
           | p :: ps => String c p :: ps
           end
  end.

(** [parts.join(sep)]. *)
Fixpoint join (sep : string) (parts : list string) : string :=
  match parts with
  | [] => EmptyString
  | [p] => p
  | p :: ps => p ++ sep ++ join sep ps
  end.

(** [s.split(sep)] for a separator of any positive length; [fuel] bounds
    the scan by the length of the text. *)
Fixpoint split_str_aux (fuel : nat) (sep s acc : string) : list string :=
  match fuel with
  | O => [acc ++ s]
  | S k =>
      match s with
      | EmptyString => [acc]
      | String c r =>
          if String.prefix sep s
          then acc :: split_str_aux k sep
                        (substring (String.length sep)
                                   (String.length s - String.length sep) s)
                        EmptyString
          else split_str_aux k sep r (acc ++ String c EmptyString)
      end
  end.

Definition split_str (sep s : string) : list string :=
  split_str_aux (S (String.length s)) sep s EmptyString.

Definition is_space (c : ascii) : bool :=
  let n := nat_of_ascii c in
  (n =? 32)%nat || ((9 <=? n)%nat && (n <=? 13)%nat).

Fixpoint trimStart (s : string) : string :=
  match s with
  | EmptyString => EmptyString
  | String c r => if is_space c then trimStart r else s
  end.

Fixpoint trimEnd (s : string) : string :=
  match s with
  | EmptyString => EmptyString
  | String c r =>
      match trimEnd r with
      | EmptyString => if is_space c then EmptyString else String c EmptyString
      | t => String c t
      end
  end.

(** [s.trim()] on ASCII text: the white space of ASCII is stripped. *)
Definition trim (s : string) : string := trimEnd (trimStart s).

(** Text within ASCII, on which [toLowerCase], [trim] and [String.length]
    are those of the script. *)
Fixpoint ascii_text (s : string) : bool :=
  match s with
  | EmptyString => true
  | String c r => (nat_of_ascii c <? 128)%nat && ascii_text r
  end.

Definition is_digit (c : ascii) : bool :=
  let n := nat_of_ascii c in (48 <=? n)%nat && (n <=? 57)%nat.

Fixpoint all_digits (s : string) : bool :=
  match s with
  | EmptyString => true
  | String c r => is_digit c && all_digits r
  end.

Fixpoint digits_value (acc : Z) (s : string) : Z :=
  match s with
  | EmptyString => acc
  | String c r => digits_value (10 * acc + Z.of_nat (nat_of_ascii c - 48)) r
  end.

(** Characters that occur in some numeric string literal (digits, sign,
    point, exponent and radix marks, hexadecimal digits, the letters of
    Infinity), blanks, and every character beyond ASCII. *)
Definition numeric_char (c : ascii) : bool :=
  is_digit c || is_space c || (128 <=? nat_of_ascii c)%nat ||
  includes "+-.eExXoObBabcdfACDFInity" (String c EmptyString).

Fixpoint all_numeric_chars (s : string) : bool :=
  match s with
  | EmptyString => true
  | String c r => numeric_char c && all_numeric_chars r
  end.

(** Integers that a double represents exactly. *)
Definition safe (z : Z) : bool := (Z.abs z <=? 2 ^ 53)%Z.

Definition int_result (z : Z) : jsnum := if safe z then NInt z else NOther.


(** [Number(text)]: blank text is 0, an optionally signed run of decimal
    digits is its value, text holding a character foreign to every numeric
    literal is NaN. *)
Definition Number_of_string (s : string) : jsnum :=
  let t := trim s in
  if negb (all_numeric_chars t) then NaN
  else match t with
       | EmptyString => NInt 0
       | String c r =>
           if all_digits t then int_result (digits_value 0 t)
           else if (Ascii.eqb c "-" || Ascii.eqb c "+") && all_digits r
                   && negb (String.eqb r "")
           then int_result (if Ascii.eqb c "-" then - digits_value 0 r
                            else digits_value 0 r)
           else NOther
       end.

(** [Number(value)]. *)
Definition Number (v : jvalue) : jsnum :=
  match v with
  | JUndefined => NaN
  | JNull => NInt 0
  | JBool b => NInt (if b then 1 else 0)
  | JNum z => int_result z
  | JStr s => Number_of_string s
  end.

End Js.

(** ** Data formatting helpers *)

Module Format.
Import Js.

(** First two components of [s.split(sep)], as the destructuring
    [[a, b] = s.split(sep)] binds them. *)
Definition split2 (sep : ascii) (s : string) : string * string :=
  let parts := split sep s in
  (nth 0 parts EmptyString, nth 1 parts EmptyString).

Definition toArabicTime (timeStr : string) : string :=
  if String.eqb timeStr "" then ""
  else
    let remaining := timeStr in
    let '(days, remaining) :=
      if includes remaining "d" then split2 "d" remaining else ("", remaining) in
    let '(hours, remaining) :=
      if includes remaining "h" then split2 "h" remaining else ("", remaining) in
    let '(minutes, remaining) :=
      if includes remaining "m" then split2 "m" remaining else ("", remaining) in
    let seconds :=
      if includes remaining "s" then fst (split2 "s" remaining) else "" in
    let result := "" in
    let result :=
      if negb (String.eqb (trim days) "") then result ++ days ++ " يوم " else result in
    let result :=
      if negb (String.eqb (trim hours) "") then result ++ hours ++ " ساعة " else result in
    let result :=
      if negb (String.eqb (trim minutes) "") then result ++ minutes ++ " دقيقة " else result in
    let result :=
      if negb (String.eqb (trim seconds) "") then result ++ seconds ++ " ثانية" else result in
    if String.eqb (trim result) "" then timeStr else trim result.

(** [Math.round(n / d)] for an integer [n] and a positive power of two
    [d]: the quotient is exact in a double and halves go up. *)
Definition round_div (n d : Z) : Z := ((2 * n + d) / (2 * d))%Z.

Definition two_digits (z : Z) : string :=
  if (z <? 10)%Z then "0" ++ string_of_Z z else string_of_Z z.

(** [(n / d).toFixed(2)] for [0 <= n]: the nearest number of hundredths,
    the larger one on a tie. *)
Definition toFixed2_div (n d : Z) : string :=
  let h := round_div (100 * n) d in
  string_of_Z (h / 100) ++ "." ++ two_digits (h mod 100).

Definition KB : Z := 1024.
Definition MB : Z := 1048576.
Definition GB : Z := 1073741824.

(** The function returns its argument when it is not a number and a text
    otherwise; [None] when [Number] does not evaluate the argument. *)
Definition toArabicBytes (bytes : jvalue) : option jvalue :=
  match Number bytes with
  | NOther => None
  | NaN => Some bytes
  | NInt numBytes =>
      Some (JStr (
        if (numBytes <? 1024)%Z then string_of_Z numBytes ++ " بايت"
        else if (numBytes <? 1048576)%Z
             then string_of_Z (round_div numBytes 1024) ++ " كيلوبايت"
        else if (numBytes <? 1073741824)%Z
             then string_of_Z (round_div numBytes 1048576) ++ " ميغابايت"
        else toFixed2_div numBytes 1073741824 ++ " جيجابايت"))
  end.

Definition default_label : string := "اشتراك".
Definition trial_label : string := "تجربة مجانية".

Definition hideHalfCard (username : jvalue) : string :=
  match username with
  | JStr username =>
      if String.eqb username "" then default_label
      else
        let username := toLowerCase username in
        if includes username "t-" then trial_label
        else
          let length := String.length username in
          if (length <? 2)%nat then username
          else
            let half := Nat.div2 (length + 1) in
            let firstPart := substring 0 (length - half) username in
            firstPart ++ repeat_char "*" half
  | _ => default_label
  end.

Definition unknown_error : string := "حدث خطأ غير معروف.".
Definition msg_not_responding : string :=
  "هذا الحساب غير موجود, يرجى التأكد والمحاولة مرة اخرى.".
Definition msg_retry_card : string := "يرجى محاولة ادخال الكرت مرة اخرى.".
Definition msg_password : string := "تأكد من كتابة كلمة المرور بشكل صحيح.".
Definition msg_time_over : string := "عذراً لقد انتهى الوقت المتاح لك.".
Definition msg_in_use : string := "المعذرة، هذا الكرت مستخدم حالياً في جهاز آخر.".
Definition msg_balance_over : string := "لقد انتهى رصيد هذا الحساب.".
Definition msg_bad_login : string :=
  "اسم المستخدم أو كلمة المرور غير صحيحة، الرجاء المحاولة مرة اخرى.".

(** The table, in the order of its declaration (the order in which
    [for ... in] visits its keys). *)
Definition errorMap : list (string * string) :=
  [ ("user not found", "هذا الحساب غير موجود أو قد انتهت صلاحيته، حاول مرة اخرى.");
    ("simultaneous session limit reached", msg_in_use);
    ("no more sessions are allowed", msg_in_use);
    ("invalid password", msg_password);
    ("uptime limit reached", msg_time_over);
    ("no more online time", msg_time_over);
    ("uptime limit", msg_time_over);
    ("traffic limit reached", msg_balance_over);
    ("transfer limit reached", msg_balance_over);
    ("invalid username or password", msg_bad_login);
    ("not found", msg_bad_login);
    ("no valid profile found", "لقد انتهت صلاحية هذا الكرت.");
    ("invalid calling-station-id", "هذا الحساب مقترن بجهاز آخر!");
    ("server&is¬&responding", msg_not_responding);
    ("web&browser&did¬&send", msg_retry_card);
    ("allowed to log in from this mac",
     "لا يحق لك استخدام هذا الكرت, الكرت محجوز لمستخدم اخر!") ].

Definition fallback_prefix : string := "حصل خطأ: ".

Fixpoint existsb_str (f : string -> bool) (l : list string) : bool :=
  match l with
  | [] => false
  | x :: r => f x || existsb_str f r
  end.

(** The loop over the table: the first key that decides returns. *)
Fixpoint scan_errorMap (lowerError : string) (table : list (string * string))
  : option string :=
  match table with
  | [] => None
  | (key, text) :: rest =>
      if includes key "&" then scan_errorMap lowerError rest
      else if includes key "|" then
        if existsb_str (fun part => includes lowerError (trim part)) (split "|" key)
        then Some text
        else scan_errorMap lowerError rest
      else if includes lowerError key then Some text
      else scan_errorMap lowerError rest
  end.

Definition toArabicError (errorMsg : jvalue) : string :=
  match errorMsg with
  | JStr errorMsg =>
      if String.eqb errorMsg "" then unknown_error
      else
        let lowerError := toLowerCase errorMsg in
        if includes lowerError "server" && includes lowerError "is"
           && includes lowerError "responding"
        then msg_not_responding
        else if includes lowerError "web" && includes lowerError "browser"
                && includes lowerError "did" && includes lowerError "send"
        then msg_retry_card
        else match scan_errorMap lowerError errorMap with
             | Some text => text
             | None => fallback_prefix ++ errorMsg
             end
  | _ => unknown_error
  end.

End Format.

(** ** The page, the browser and the module state *)

Module Portal.
Import Js Format.

(** A JSON envelope: property name to value. *)
Abbreviation Envelope := (gmap string jvalue).

(** [data[key]] *)
Definition prop (data : Envelope) (key : string) : jvalue :=
  match data !! key with
  | Some v => v
  | None => JUndefined
  end.

(** [key] is an own property of the envelope. *)
Definition owns (data : Envelope) (key : string) : bool :=
  match data !! key with
  | Some _ => true
  | None => false
  end.

(** [data.hasOwnProperty(key)].  The method is looked up on the envelope
    before [Object.prototype]; a JSON document holds no function, so an
    envelope with a property of that name makes the call raise a
    [TypeError]: [None]. *)
Definition hasOwnProperty (data : Envelope) (key : string) : option bool :=
  if owns data "hasOwnProperty" then None else Some (owns data key).

(** What the script last wrote into an element. *)
Inductive content : Type :=
| Text (s : string)            (* through innerText *)
| Html (s : string)            (* through innerHTML, or the static markup *)
| BytesText (v : jvalue).      (* toArabicBytes(v) for a [v] that [Number]
                                  does not evaluate *)

Record Element : Type := {
  tagName : string;
  elemId : string;
  inner : content;
  display : string             (* style.display *)
}.

Definition set_inner (c : content) (e : Element) : Element :=
  {| tagName := tagName e; elemId := elemId e; inner := c; display := display e |}.

Definition set_display (d : string) (e : Element) : Element :=
  {| tagName := tagName e; elemId := elemId e; inner := inner e; display := d |}.

(** The two sections the script switches between. *)
Record Sections : Type := {
  loginDisplay : string;       (* loginSection.style.display *)
  loginInactive : bool;        (* loginSection has class inactive *)
  statusDisplay : string;      (* statusSectionContainer.style.display *)
  statusCardActive : bool      (* statusCard has class active *)
}.

(** The error display. *)
Record ErrorView : Type := {
  errorText : string;          (* jsErrorParagraph.innerText *)
  errorDisplay : string;       (* jsErrorDisplay.style.display *)
  mikrotikErrorDisplay : string;
  mikrotikInfoDisplay : string;
  popupActive : bool           (* errorContainer has class active *)
}.

(** The login form. *)
Record Form : Type := {
  usernameValue : string;
  passwordValue : string;
  rememberChecked : bool
}.

(** The error callback a caller hands to [getRequest]. *)
Inductive ErrCallback : Type :=
| NoCallback                   (* status polls and the initial probe *)
| LoginFailed                  (* the closure of doUserLogin *)
| LogoutFailed.                (* the closure of doUserLogout *)

Record Request : Type := {
  url : string;
  callbackError : ErrCallback
}.

(** Pending [setTimeout] callbacks that touch the represented state. *)
Inductive Delayed : Type :=
| FocusLogin                   (* showLoginSection, 50 ms *)
| StatusShown                  (* showStatusSection, TRANSITION_DURATION *)
| HidePopup                    (* hideErrorPopup, 300 ms *)
| LogoutFallback               (* doUserLogout, TRANSITION_DURATION * 2 *)
| RunLogout (eraseCookie : bool). (* the logout button, 100 ms *)

(** Calls into the helper scripts of the page. *)
Inductive ExtCall : Type :=
| CookieLogin                  (* HotCookie.login() *)
| Remember                     (* remember() *)
| ResetCounter                 (* resetCounter() *)
| IncrementCounter             (* incrementCounter(data) *)
| CheckFailsCount              (* checkFailsCount(data, failCount) *)
| ClearCookies.                (* clearCookies() *)

(** What does not change while the page lives. *)
Record Page : Type := {
  fileProtocol : bool;         (* window.location.protocol === "file:" *)
  hasHotCookie : bool;         (* the HotCookie script, with its login *)
  hasRemember : bool;          (* typeof remember === 'function' *)
  hasResetCounter : bool;      (* typeof resetCounter === 'function' *)
  blockerEnabled : bool;       (* hotspotConfig["enable-hot-blocker"] === 1 *)
  hasBlockerFns : bool;        (* incrementCounter and checkFailsCount *)
  hasClearCookies : bool;      (* typeof clearCookies === 'function' *)
  formDefaults : Form          (* what loginForm.reset() restores *)
}.

Record State : Type := {
  (* module variables *)
  isAnimating : bool;
  isLoggedIn : bool;
  statusPollInterval : option nat;
  hotspotApiData : option Envelope;
  (* the page *)
  sections : Sections;
  errorView : ErrorView;
  statusFields : list (string * option Element);
  form : Form;
  (* the browser *)
  requests : list Request;       (* every request sent, oldest first *)
  completed : list nat;          (* positions in [requests] already answered *)
  timeouts : list Delayed;       (* pending setTimeout callbacks *)
  intervals : list (nat * nat);  (* live setInterval timers: handle, period *)
  nextTimerId : nat;
  calls : list ExtCall           (* helper-script calls, oldest first *)
}.

Definition set_isAnimating (v : bool) (st : State) : State :=
  let 'Build_State _ b c d e f g h i j k l m n := st in Build_State v b c d e f g h i j k l m n.
Definition set_isLoggedIn (v : bool) (st : State) : State :=
  let 'Build_State a _ c d e f g h i j k l m n := st in Build_State a v c d e f g h i j k l m n.
Definition set_statusPollInterval (v : option nat) (st : State) : State :=
  let 'Build_State a b _ d e f g h i j k l m n := st in Build_State a b v d e f g h i j k l m n.
Definition set_hotspotApiData (v : option Envelope) (st : State) : State :=
  let 'Build_State a b c _ e f g h i j k l m n := st in Build_State a b c v e f g h i j k l m n.
Definition set_sections (v : Sections) (st : State) : State :=
  let 'Build_State a b c d _ f g h i j k l m n := st in Build_State a b c d v f g h i j k l m n.
Definition set_errorView (v : ErrorView) (st : State) : State :=
  let 'Build_State a b c d e _ g h i j k l m n := st in Build_State a b c d e v g h i j k l m n.
Definition set_statusFields (v : list (string * option Element)) (st : State) : State :=
  let 'Build_State a b c d e f _ h i j k l m n := st in Build_State a b c d e f v h i j k l m n.
Definition set_form (v : Form) (st : State) : State :=
  let 'Build_State a b c d e f g _ i j k l m n := st in Build_State a b c d e f g v i j k l m n.
Definition set_requests (v : list Request) (st : State) : State :=
  let 'Build_State a b c d e f g h _ j k l m n := st in Build_State a b c d e f g h v j k l m n.
Definition set_completed (v : list nat) (st : State) : State :=
  let 'Build_State a b c d e f g h i _ k l m n := st in Build_State a b c d e f g h i v k l m n.
Definition set_timeouts (v : list Delayed) (st : State) : State :=
  let 'Build_State a b c d e f g h i j _ l m n := st in Build_State a b c d e f g h i j v l m n.
Definition set_intervals (v : list (nat * nat)) (st : State) : State :=
  let 'Build_State a b c d e f g h i j k _ m n := st in Build_State a b c d e f g h i j k v m n.
Definition set_nextTimerId (v : nat) (st : State) : State :=
  let 'Build_State a b c d e f g h i j k l _ n := st in Build_State a b c d e f g h i j k l v n.
Definition set_calls (v : list ExtCall) (st : State) : State :=
  let 'Build_State a b c d e f g h i j k l m _ := st in Build_State a b c d e f g h i j k l m v.

(** Browser facilities. *)
Definition setTimeout (t : Delayed) (st : State) : State :=
  set_timeouts (timeouts st ++ [t]) st.

Definition setInterval (period : nat) (st : State) : nat * State :=
  let h := nextTimerId st in
  (h, set_nextTimerId (S h) (set_intervals (intervals st ++ [(h, period)]) st)).

Definition clearInterval (h : nat) (st : State) : State :=
  set_intervals (List.filter (fun p => negb (Nat.eqb (fst p) h)) (intervals st)) st.

Definition xhr_send (r : Request) (st : State) : State :=
  set_requests (requests st ++ [r]) st.

Definition call (c : ExtCall) (st : State) : State :=
  set_calls (calls st ++ [c]) st.

(** Sequencing of statements. *)
Notation "st |> f" := (f st) (at level 45, left associativity, only parsing).

(** ** The script *)

Definition TRANSITION_DURATION : nat := 500.
Definition STATUS_POLL_INTERVAL : nat := 1500.

Definition LOGIN_STATUS : string := "/login?var=callBack".
Definition DO_LOGIN : string := "/login?var=callBack".
Definition STATUS : string := "/status?var=callBack".
Definition LOGOUT : string := "/logout?var=callBack".
Definition LOGOUT_ERASE : string := "/logout?erase-cookie=yes&var=callBack".

(** The keys of [statusFields] with the ids they are fetched by, in the
    order of the declaration. *)
Definition statusFieldIds : list (string * string) :=
  [ ("username", "username"); ("ip", "ip"); ("uptime", "uptime");
    ("session_time_left", "session_time_left"); ("bytes_out", "bytes_out");
    ("bytes_in", "bytes_in"); ("remain_bytes_total", "remain_bytes_total");
    ("session_time_left_item", "status-time-left-item");
    ("remain_bytes_total_item", "status-remain-item");
    ("status_title", "status-title"); ("status_mac", "status-mac") ].

(** [statusFields[key]] *)
Fixpoint field (fields : list (string * option Element)) (key : string)
  : option Element :=
  match fields with
  | [] => None
  | (k, e) :: rest => if String.eqb k key then e else field rest key
  end.

(** Update of the element held under [key], when there is one. *)
Fixpoint update_field (key : string) (f : Element -> Element)
    (fields : list (string * option Element)) : list (string * option Element) :=
  match fields with
  | [] => []
  | (k, e) :: rest =>
      if String.eqb k key then (k, option_map f e) :: rest
      else (k, e) :: update_field key f rest
  end.

(* --- UI management ---------------------------------------------------- *)

Definition hideAllSections (st : State) : State :=
  set_sections {| loginDisplay := "none"; loginInactive := true;
                  statusDisplay := "none"; statusCardActive := false |} st.

Definition showLoginSection (st : State) : State :=
  let st := hideAllSections st in
  let s := sections st in
  st |> set_sections {| loginDisplay := "block"; loginInactive := loginInactive s;
                        statusDisplay := statusDisplay s;
                        statusCardActive := statusCardActive s |}
     |> setTimeout FocusLogin.

Definition showStatusSection (st : State) : State :=
  let st := hideAllSections st in
  let s := sections st in
  st |> set_sections {| loginDisplay := loginDisplay s; loginInactive := loginInactive s;
                        statusDisplay := "block"; statusCardActive := true |}
     |> setTimeout StatusShown.

(* --- Error display ---------------------------------------------------- *)

Definition hideErrorPopup (st : State) : State :=
  if negb (popupActive (errorView st)) then st
  else setTimeout HidePopup st.

Definition clearErrors (st : State) : State :=
  st |> set_errorView {| errorText := ""; errorDisplay := "none";
                         mikrotikErrorDisplay := "none"; mikrotikInfoDisplay := "none";
                         popupActive := popupActive (errorView st) |}
     |> hideErrorPopup.

Definition showErrorPopup (st : State) : State :=
  let v := errorView st in
  set_errorView {| errorText := errorText v; errorDisplay := errorDisplay v;
                   mikrotikErrorDisplay := mikrotikErrorDisplay v;
                   mikrotikInfoDisplay := mikrotikInfoDisplay v;
                   popupActive := true |} st.

Definition displayJsError (message : string) (st : State) : State :=
  let v := errorView st in
  st |> set_errorView {| errorText := message; errorDisplay := "block";
                         mikrotikErrorDisplay := mikrotikErrorDisplay v;
                         mikrotikInfoDisplay := mikrotikInfoDisplay v;
                         popupActive := popupActive v |}
     |> showErrorPopup.

(* --- Status polling: stop --------------------------------------------- *)

Definition stopStatusPolling (st : State) : State :=
  match statusPollInterval st with
  | Some h => st |> clearInterval h |> set_statusPollInterval None
  | None => st
  end.

(* --- onLoggedOut ------------------------------------------------------ *)

Definition dq : string := String (ascii_of_nat 34) EmptyString.

Definition title_html (en ar : string) : string :=
  "<span class=" ++ dq ++ "en" ++ dq ++ ">" ++ en ++ "</span>" ++
  "<span class=" ++ dq ++ "ar" ++ dq ++ ">" ++ ar ++ "</span>".

(** The body of the [forEach] over the status fields at logout. *)
Definition clearField (f : option Element) : option Element :=
  match f with
  | None => None
  | Some e =>
      if negb (String.eqb (tagName e) "DIV") && negb (String.eqb (tagName e) "SPAN")
         && negb (String.eqb (elemId e) "status-title")
      then Some (set_inner (Text "N/A") e)
      else if String.eqb (elemId e) "status-time-left-item"
              || String.eqb (elemId e) "status-remain-item"
      then Some (set_display "none" e)
      else Some e
  end.

Definition handleLoggedOut (st : State) : State :=
  st |> set_isLoggedIn false
     |> stopStatusPolling
     |> clearErrors
     |> hideErrorPopup
     |> (fun st =>
           let s := sections st in
           set_sections {| loginDisplay := loginDisplay s;
                           loginInactive := loginInactive s;
                           statusDisplay := statusDisplay s;
                           statusCardActive := false |} st)
     |> showLoginSection
     |> (fun st =>
           set_statusFields
             (List.map (fun kf => (fst kf, clearField (snd kf))) (statusFields st)) st)
     |> (fun st =>
           set_statusFields
             (update_field "status_title"
                (set_inner (Html (title_html "Connection Status" "حالة الاتصال")))
                (statusFields st)) st).

Section Script.

Variable pg : Page.

(* --- AJAX communication: sending -------------------------------------- *)

(** [getRequest(url, null, callbackError)] up to [xhr.send()]; the three
    callbacks it attaches are [onreadystatechange], [onerror] and
    [ontimeout] below. *)
Definition getRequest (url : string) (callbackError : ErrCallback) (st : State)
  : State :=
  if fileProtocol pg then
    st |> handleLoggedOut
       |> showLoginSection
       |> (fun st => if hasHotCookie pg then call CookieLogin st else st)
  else
    xhr_send {| url := url; callbackError := callbackError |} st.

(* --- Status polling: start -------------------------------------------- *)

Definition startStatusPolling (st : State) : State :=
  match statusPollInterval st with
  | Some _ => st
  | None =>
      if negb (isLoggedIn st) then st
      else
        let st := getRequest STATUS NoCallback st in
        let '(h, st) := setInterval STATUS_POLL_INTERVAL st in
        set_statusPollInterval (Some h) st
  end.

(** The callback handed to [setInterval]. *)
Definition pollTick (st : State) : State :=
  if isLoggedIn st then getRequest STATUS NoCallback st
  else stopStatusPolling st.

(* --- How a handler ends ------------------------------------------------ *)

(** How a handler ends: normally, or by raising (a [TypeError]); either
    way with the state it has reached. *)
Inductive Completion : Type :=
| Normal (st : State)
| Thrown (st : State).

Definition stateOf (c : Completion) : State :=
  match c with
  | Normal st => st
  | Thrown st => st
  end.

(** The statements that follow a call: skipped when the call raises. *)
Definition andThen (c : Completion) (f : State -> State) : Completion :=
  match c with
  | Normal st => Normal (f st)
  | Thrown st => Thrown st
  end.

(* --- onStatusQuery: the update of the fields -------------------------- *)

Definition blank (value : jvalue) : bool :=
  match value with
  | JNull | JUndefined => true
  | JStr s => String.eqb s ""
  | _ => false
  end.

Definition remaining_key (key : string) : bool :=
  String.eqb key "session_time_left" || String.eqb key "remain_bytes_total".

(** [value && value !== '0' && value !== '0s'] *)
Definition shows_item (value : jvalue) : bool :=
  truthy value && negb (jvalue_eqb value (JStr "0"))
  && negb (jvalue_eqb value (JStr "0s")).

(** The text a non-blank value is rendered to. *)
Definition fieldText (key : string) (value : jvalue) : content :=
  if String.eqb key "username" then Text (hideHalfCard (JStr (String_ value)))
  else if includes key "bytes" then
    match toArabicBytes value with
    | Some r => Text (String_ r)
    | None => BytesText value
    end
  else if includes key "time" || String.eqb key "uptime"
  then Text (toArabicTime (String_ value))
  else Text (String_ value).

(** What one round of the loop writes for a key the envelope holds. *)
Definition writeField (data : Envelope) (key : string)
    (fields : list (string * option Element)) : list (string * option Element) :=
  let value := prop data key in
  let fields :=
    if remaining_key key
    then update_field (key ++ "_item")
           (set_display (if shows_item value then "flex" else "none")) fields
    else fields in
  if blank value then
    let fields := update_field key (set_inner (Text "N/A")) fields in
    if remaining_key key
    then update_field (key ++ "_item") (set_display "none") fields
    else fields
  else update_field key (set_inner (fieldText key value)) fields.

(** One round of the loop over the keys of [statusFields]:
    [element && data.hasOwnProperty(key)] guards the body; [None] when the
    call raises. *)
Definition updateField (data : Envelope) (fields : list (string * option Element))
    (key : string) : option (list (string * option Element)) :=
  match field fields key with
  | None => Some fields
  | Some _ =>
      match hasOwnProperty data key with
      | None => None
      | Some true => Some (writeField data key fields)
      | Some false => Some fields
      end
  end.

(** The loop: it ends at the first round that raises, with the fields as
    the rounds before it left them ([false]), or runs through ([true]). *)
Fixpoint updateFields (data : Envelope) (keys : list string)
    (fields : list (string * option Element))
  : bool * list (string * option Element) :=
  match keys with
  | [] => (true, fields)
  | key :: rest =>
      match updateField data fields key with
      | None => (false, fields)
      | Some fields => updateFields data rest fields
      end
  end.

Definition title_bonus : string := "كرت مجاني من خدمة اجمع واربح!".
Definition title_free : string := "أنت الان تستخدم الانترنت المجاني".

(** The title chosen from the user name and the MAC address; [None] when
    no title applies or when the attempt raises inside its [try]. *)
Definition titleText (data : Envelope) : option string :=
  if truthy (prop data "username") && truthy (prop data "mac") then
    match prop data "mac", prop data "username" with
    | JStr mac, JStr username =>
        let macFormatted := join ":" (split_str "%3A" mac) in
        if includes username macFormatted then Some title_bonus
        else if includes (toLowerCase username) "t-" then Some title_free
        else None
    | _, _ => None
    end
  else None.

(** The last block of [handleStatusQuery], run while logged in: the loop,
    then the title inside its [try]. *)
Definition updateStatusFields (data : Envelope) (st : State) : Completion :=
  match updateFields data (List.map fst (statusFields st)) (statusFields st) with
  | (false, fields) => Thrown (set_statusFields fields st)
  | (true, fields) =>
      let fields :=
        match titleText data with
        | Some t => update_field "status_title" (set_inner (Html (title_html t t))) fields
        | None => fields
        end in
      Normal (set_statusFields fields st)
  end.

(* --- onLoggedIn and onStatusQuery ------------------------------------- *)

(** [handleLoggedIn], open in the [handleStatusQuery] it calls. *)
Definition handleLoggedInWith (statusQuery : Envelope -> State -> option Completion)
    (data : Envelope) (st : State) : option Completion :=
  let st :=
    st |> set_isLoggedIn true
       |> clearErrors
       |> hideErrorPopup
       |> set_form (formDefaults pg)
       |> (fun st => if rememberChecked (form st) && hasRemember pg
                     then call Remember st else st)
       |> (fun st => if hasResetCounter pg then call ResetCounter st else st) in
  match statusQuery data st with
  | None => None
  | Some c => Some (andThen c (fun st => st |> showStatusSection |> startStatusPolling))
  end.

(** [handleStatusQuery]; [fuel] bounds the depth of the calls between it
    and [handleLoggedIn]. *)
Fixpoint handleStatusQueryF (fuel : nat) (data : Envelope) (st : State)
  : option Completion :=
  match fuel with
  | O => None
  | S fuel =>
      if negb (isLoggedIn st) && truthy (prop data "logged_in") then
        handleLoggedInWith (handleStatusQueryF fuel) data (set_isLoggedIn true st)
      else if isLoggedIn st && negb (truthy (prop data "logged_in")) then
        Some (Normal (st |> handleLoggedOut |> showLoginSection))
      else if isLoggedIn st then Some (updateStatusFields data st)
      else Some (Normal st)
  end.

(** Two levels always suffice (see [handleStatusQueryF_enough]). *)
Definition handleStatusQuery (data : Envelope) (st : State) : Completion :=
  match handleStatusQueryF 2 data st with
  | Some c => c
  | None => Normal st
  end.

Definition handleLoggedIn (data : Envelope) (st : State) : Completion :=
  match handleLoggedInWith (handleStatusQueryF 1) data st with
  | Some c => c
  | None => Normal st
  end.

(* --- onLoginStart ------------------------------------------------------ *)

Definition handleLoginStart (data : Envelope) (st : State) : Completion :=
  let st := set_hotspotApiData (Some data) st in
  let st := set_isLoggedIn (jvalue_eqb (prop data "logged_in") (JBool true)) st in
  if isLoggedIn st then handleLoggedIn data st
  else
    Normal (
      st |> handleLoggedOut
         |> showLoginSection
         |> (fun st => if hasHotCookie pg then call CookieLogin st else st)).

(* --- onLoginError ------------------------------------------------------ *)

Definition retry_marker : string := "already authorizing, retry later".
Definition msg_retry : string :=
  "محاولة تسجيل الدخول متعارضة. يرجى الانتظار لحظة والمحاولة مرة أخرى.".

Definition handleLoginError (data : Envelope) (st : State) : Completion :=
  let st := st |> set_isLoggedIn false |> set_isAnimating false in
  let error := prop data "error" in
  if truthy error then
    match error with
    | JStr text =>
        if negb (includes (toLowerCase text) retry_marker) then
          let errorMessage := toArabicError error in
          Normal (
            st |> displayJsError errorMessage
               |> (fun st =>
                     if blockerEnabled pg then
                       if hasBlockerFns pg
                       then st |> call IncrementCounter |> call CheckFailsCount
                       else st
                     else st)
               |> (fun st => if hasClearCookies pg then call ClearCookies st else st))
        else Normal (displayJsError msg_retry st)
    | _ => Thrown st          (* error.toLowerCase is not a function *)
    end
  else Normal st.

(* --- The action table -------------------------------------------------- *)

Inductive Handler : Type :=
| OnLoginStart | OnLoginError | OnLoggedIn | OnLoggedOut | OnStatusQuery
| InheritedQuiet      (* a method of Object.prototype that returns *)
| InheritedKeyed      (* one that first turns its argument into a property key *)
| InheritedRaising.   (* one that raises for want of a second argument *)

(** [apiActionHandlers[action]] when it is a function. *)
Definition apiActionHandlers (action : jvalue) : option Handler :=
  let name := String_ action in
  if String.eqb name "onLoginStart" then Some OnLoginStart
  else if String.eqb name "onLoginError" then Some OnLoginError
  else if String.eqb name "onLoggedIn" then Some OnLoggedIn
  else if String.eqb name "onLoggedOut" then Some OnLoggedOut
  else if String.eqb name "onStatusQuery" then Some OnStatusQuery
  else if existsb (String.eqb name)
            [ "constructor"; "isPrototypeOf"; "toLocaleString"; "toString"; "valueOf" ]
  then Some InheritedQuiet
  else if existsb (String.eqb name)
            [ "hasOwnProperty"; "propertyIsEnumerable";
              "__lookupGetter__"; "__lookupSetter__" ]
  then Some InheritedKeyed
  else if existsb (String.eqb name) [ "__defineGetter__"; "__defineSetter__" ]
  then Some InheritedRaising
  else None.

(** The call [apiActionHandlers[action](responseData)].  An inherited
    method that takes a property key converts the envelope to a text through
    its [toString]; an envelope with a property of that name (never a
    function) has no primitive value, and the conversion raises. *)
Definition runHandler (h : Handler) (data : Envelope) (st : State) : Completion :=
  match h with
  | OnLoginStart => handleLoginStart data st
  | OnLoginError => handleLoginError data st
  | OnLoggedIn => handleLoggedIn data st
  | OnLoggedOut => Normal (handleLoggedOut st)
  | OnStatusQuery => handleStatusQuery data st
  | InheritedQuiet => Normal st
  | InheritedKeyed => if owns data "toString" then Thrown st else Normal st
  | InheritedRaising => Thrown st
  end.

(* --- The error callbacks of the callers -------------------------------- *)

(** The closure doUserLogin passes; [errorMsg] is never empty. *)
Definition loginFailed (errorMsg : string) (st : State) : State :=
  st |> set_isAnimating false
     |> (fun st => if String.eqb (errorText (errorView st)) ""
                   then displayJsError errorMsg st else st)
     |> showLoginSection.

(** The closure doUserLogout passes. *)
Definition logoutFailed (errorMsg : string) (st : State) : State :=
  st |> set_isAnimating false
     |> displayJsError "Logout failed. Please check connection or try again."
     |> handleLoggedOut
     |> showLoginSection.

Definition runCallbackError (cb : ErrCallback) (errorMsg : string) (st : State)
  : State :=
  match cb with
  | NoCallback => st
  | LoginFailed => loginFailed errorMsg st
  | LogoutFailed => logoutFailed errorMsg st
  end.

Definition hasCallback (cb : ErrCallback) : bool :=
  match cb with
  | NoCallback => false
  | _ => true
  end.

(* --- AJAX communication: the callbacks --------------------------------- *)

(** [xhr.responseText] as [JSON.parse] sees it. A document that is not an
    object has no [action] and behaves as the empty envelope. *)
Inductive Body : Type :=
| Json (responseData : Envelope)
| Malformed.

(** The [catch] of the success branch. *)
Definition parseFailed (r : Request) (st : State) : State :=
  if includes (url r) "/status" then st |> handleLoggedOut |> showLoginSection
  else if hasCallback (callbackError r)
  then runCallbackError (callbackError r) "Error reading server response." st
  else displayJsError "Error reading server response." st.

(** [xhr.onreadystatechange] at ready state 4. *)
Definition onreadystatechange (r : Request) (status : Z) (body : Body) (st : State)
  : State :=
  let st := set_isAnimating false st in
  if Z.eqb status 200 then
    match body with
    | Malformed => parseFailed r st
    | Json responseData =>
        let action := prop responseData "action" in
        match (if truthy action then apiActionHandlers action else None) with
        | Some h =>
            match runHandler h responseData st with
            | Normal st => st
            | Thrown st => parseFailed r st
            end
        | None =>
            st |> runCallbackError (callbackError r) "Invalid response from server"
               |> (fun st => if includes (url r) "/status"
                             then st |> handleLoggedOut |> showLoginSection
                             else st)
        end
    end
  else
    let errorMsg :=
      "Server error (" ++ string_of_Z status ++ "). Please try again later." in
    if hasCallback (callbackError r) then runCallbackError (callbackError r) errorMsg st
    else if includes (url r) "/status" then st |> handleLoggedOut |> showLoginSection
    else displayJsError errorMsg st.

(** [xhr.onerror] *)
Definition onerror (r : Request) (st : State) : State :=
  let st := set_isAnimating false st in
  let errorMsg := "Network error. Please check your connection." in
  if hasCallback (callbackError r) then runCallbackError (callbackError r) errorMsg st
  else if includes (url r) "/status" then st
  else displayJsError errorMsg st.

(** [xhr.ontimeout] *)
Definition ontimeout (r : Request) (st : State) : State :=
  let st := set_isAnimating false st in
  let errorMsg := "The server is not responding. Please try again later." in
  if hasCallback (callbackError r) then runCallbackError (callbackError r) errorMsg st
  else if includes (url r) "/status" then st |> handleLoggedOut |> showLoginSection
  else displayJsError errorMsg st.

(* --- Login and logout actions ------------------------------------------ *)

Definition hex_digit (n : nat) : ascii :=
  if (n <? 10)%nat then ascii_of_nat (48 + n) else ascii_of_nat (55 + n).

Definition unreserved (c : ascii) : bool :=
  let n := nat_of_ascii c in
  is_digit c || is_upper c || ((97 <=? n)%nat && (n <=? 122)%nat)
  || includes "-_.!~*'()" (String c EmptyString).

(** [encodeURIComponent] over the bytes of the text. *)
Fixpoint encodeURIComponent (s : string) : string :=
  match s with
  | EmptyString => EmptyString
  | String c r =>
      if unreserved c then String c (encodeURIComponent r)
      else
        let n := nat_of_ascii c in
        String "%" (String (hex_digit (n / 16)) (String (hex_digit (n mod 16))
                      (encodeURIComponent r)))
  end.

Definition doUserLogin (st : State) : State :=
  let username := trim (usernameValue (form st)) in
  let password := passwordValue (form st) in
  if (String.length username =? 0)%nat then
    st |> displayJsError "يرجى إدخال اسم المستخدم أو رقم التذكرة."
       |> set_isAnimating false
  else
    let st := st |> clearErrors |> set_isAnimating true in
    let loginUrl :=
      DO_LOGIN ++ "&username=" ++ encodeURIComponent username
               ++ "&password=" ++ encodeURIComponent password in
    getRequest loginUrl LoginFailed st.

Definition doUserLogout (eraseCookie : bool) (st : State) : State :=
  let st := set_isAnimating true st in
  let logoutUrl := if eraseCookie then LOGOUT_ERASE else LOGOUT in
  st |> getRequest logoutUrl LogoutFailed
     |> setTimeout LogoutFallback.

(* --- Event listeners --------------------------------------------------- *)

(** The listener of the form's [submit] event. *)
Definition onSubmit (st : State) : State :=
  if negb (isAnimating st) then doUserLogin st else st.

(** The listener of the logout button's [click] event. *)
Definition onLogoutClick (eraseCookie : bool) (st : State) : State :=
  if negb (isAnimating st) then setTimeout (RunLogout eraseCookie) st else st.

(** [init], on [DOMContentLoaded]. *)
Definition init (st : State) : State :=
  st |> getRequest LOGIN_STATUS NoCallback |> hideAllSections.

(* --- Timers ------------------------------------------------------------ *)

(** The callback of a pending [setTimeout]. *)
Definition runTimeout (t : Delayed) (st : State) : State :=
  match t with
  | FocusLogin =>
      let s := sections st in
      set_sections {| loginDisplay := loginDisplay s; loginInactive := false;
                      statusDisplay := statusDisplay s;
                      statusCardActive := statusCardActive s |} st
  | StatusShown => set_isAnimating false st
  | HidePopup =>
      let v := errorView st in
      set_errorView {| errorText := errorText v; errorDisplay := "none";
                       mikrotikErrorDisplay := mikrotikErrorDisplay v;
                       mikrotikInfoDisplay := mikrotikInfoDisplay v;
                       popupActive := false |} st
  | LogoutFallback => set_isAnimating false st
  | RunLogout eraseCookie => doUserLogout eraseCookie st
  end.

(* --- The event loop ---------------------------------------------------- *)

(** How the transport classifies the end of a request. *)
Inductive Outcome : Type :=
| Success (envelope : Envelope)
| ParseFailure
| HttpError (statusCode : Z)
| NetworkError
| TimedOut.

(** The callbacks an outcome runs, in the order XMLHttpRequest dispatches
    its events.  A response reaches [onreadystatechange] with its status.  A
    request that ends without a response is first set to ready state 4, with
    status 0, and [readystatechange] is fired; the event of the failure,
    [error] or [timeout], follows. *)
Definition deliver (r : Request) (o : Outcome) (st : State) : State :=
  match o with
  | Success envelope => onreadystatechange r 200 (Json envelope) st
  | ParseFailure => onreadystatechange r 200 Malformed st
  | HttpError statusCode => onreadystatechange r statusCode Malformed st
  | NetworkError => st |> onreadystatechange r 0 Malformed |> onerror r
  | TimedOut => st |> onreadystatechange r 0 Malformed |> ontimeout r
  end.

Inductive Event : Type :=
| Loaded                                (* DOMContentLoaded *)
| Edit (f : Form)                       (* the user fills the form *)
| Submit                                (* the form is submitted *)
| LogoutClick (eraseCookie : bool)
| Fire (i : nat)                        (* the i-th pending timeout runs *)
| Tick (h : nat)                        (* the interval timer h runs *)
| Response (i : nat) (o : Outcome).     (* the i-th request ends *)

Fixpoint remove_nth {A : Type} (i : nat) (l : list A) : list A :=
  match l, i with
  | [], _ => []
  | _ :: r, O => r
  | x :: r, S k => x :: remove_nth k r
  end.

Definition step (e : Event) (st : State) : State :=
  match e with
  | Loaded => init st
  | Edit f => set_form f st
  | Submit => onSubmit st
  | LogoutClick eraseCookie => onLogoutClick eraseCookie st
  | Fire i =>
      match nth_error (timeouts st) i with
      | Some t => runTimeout t (set_timeouts (remove_nth i (timeouts st)) st)
      | None => st
      end
  | Tick h =>
      if existsb (fun p => Nat.eqb (fst p) h) (intervals st) then pollTick st else st
  | Response i o =>
      match nth_error (requests st) i with
      | Some r =>
          if existsb (Nat.eqb i) (completed st) then st
          else deliver r o (set_completed (completed st ++ [i]) st)
      | None => st
      end
  end.

Definition run (events : list Event) (st : State) : State :=
  fold_left (fun st e => step e st) events st.

End Script.

(** The state in which the script starts: its variables as initialised,
    the page as its markup gives it, nothing sent and no timer. *)
Definition pageState (s : Sections) (v : ErrorView)
    (fields : list (string * option Element)) (f : Form) : State :=
  {| isAnimating := false; isLoggedIn := false; statusPollInterval := None;
     hotspotApiData := None;
     sections := s; errorView := v; statusFields := fields; form := f;
     requests := []; completed := []; timeouts := []; intervals := [];
     nextTimerId := 1; calls := [] |}.

(** States the page can be in. *)
Inductive reachable (pg : Page) : State -> Prop :=
| reach_start s v fields f : reachable pg (pageState s v fields f)
| reach_step e st : reachable pg st -> reachable pg (step pg e st).

(** The session part of the state the specification speaks of. *)
Definition attributes (st : State) : list (string * option content) :=
  List.map (fun kf => (fst kf, option_map inner (snd kf))) (statusFields st).

Definition session (st : State) : bool * list (string * option content) * option nat :=
  (isLoggedIn st, attributes st, statusPollInterval st).

(** A login request awaits its outcome. *)
Definition awaiting (st : State) (i : nat) (r : Request) : Prop :=
  nth_error (requests st) i = Some r /\ ~ In i (completed st).

Definition loginInFlight (st : State) : Prop :=
  exists i r, awaiting st i r /\ callbackError r = LoginFailed.

(** The invariant of the poller. *)
Definition pollerInvariant (st : State) : Prop :=
  statusPollInterval st <> None -> isLoggedIn st = true.

End Portal.

(** ** Auxiliary definitions used by the statements *)

Module Aux.
Import Js Format Portal.

(** What [handleLoggedOut] makes of the status fields: its [forEach]
    followed by the reset of the title. *)
Definition clearAll (fields : list (string * option Element))
  : list (string * option Element) :=
  update_field "status_title"
    (set_inner (Html (title_html "Connection Status" "حالة الاتصال")))
    (List.map (fun kf => (fst kf, clearField (snd kf))) fields).

(** The statements of [handleLoggedIn] that precede its call of
    [handleStatusQuery]. *)
Definition enterLoggedIn (pg : Page) (st : State) : State :=
  st |> set_isLoggedIn true
     |> clearErrors
     |> hideErrorPopup
     |> set_form (formDefaults pg)
     |> (fun st => if rememberChecked (form st) && hasRemember pg
                   then call Remember st else st)
     |> (fun st => if hasResetCounter pg then call ResetCounter st else st).

(** The request a status poll sends. *)
Definition pollRequest : Request := {| url := STATUS; callbackError := NoCallback |}.



(** [statusFields[key]] is an element. *)
Definition present (fields : list (string * option Element)) (key : string) : bool :=
  match field fields key with
  | Some _ => true
  | None => false
  end.

(** One round of the loop when the call of [hasOwnProperty] returns. *)
Definition plainRound (data : Envelope) (fields : list (string * option Element))
    (key : string) : list (string * option Element) :=
  if present fields key && owns data key then writeField data key fields else fields.



(** The poll timer is stopped: no handle is held and the timer that was
    held in [st] is no longer registered in [st']. *)
Definition pollingStopped (st st' : State) : Prop :=
  statusPollInterval st' = None /\
  forall h, statusPollInterval st = Some h -> ~ In h (List.map fst (intervals st')).

End Aux.

(** ** A sample page and sample sessions *)

Module Sample.
Import Js Format Portal Aux.

Definition blankForm : Form :=
  {| usernameValue := ""; passwordValue := ""; rememberChecked := false |}.

Definition page : Page :=
  {| fileProtocol := false; hasHotCookie := true; hasRemember := true;
     hasResetCounter := true; blockerEnabled := true; hasBlockerFns := true;
     hasClearCookies := true; formDefaults := blankForm |}.

Definition element (tag id : string) : option Element :=
  Some {| tagName := tag; elemId := id; inner := Html ""; display := "" |}.

(** Every status field present: the values in [B] elements, the two items
    in [LI] elements, the title in an [H2]. *)
Definition fields : list (string * option Element) :=
  List.map (fun ki =>
              (fst ki,
               element (if String.eqb (fst ki) "status_title" then "H2"
                        else if includes (fst ki) "_item" then "LI" else "B")
                       (snd ki)))
           statusFieldIds.

Definition start : State :=
  pageState
    {| loginDisplay := ""; loginInactive := false;
       statusDisplay := ""; statusCardActive := false |}
    {| errorText := ""; errorDisplay := "none"; mikrotikErrorDisplay := "";
       mikrotikInfoDisplay := ""; popupActive := false |}
    fields blankForm.

Definition envelope (l : list (string * jvalue)) : Envelope := list_to_map l.

Definition credentials : Form :=
  {| usernameValue := "ab12cd"; passwordValue := "pw"; rememberChecked := false |}.

Definition loginRequest : Request :=
  {| url := "/login?var=callBack&username=ab12cd&password=pw";
     callbackError := LoginFailed |}.

Definition probeAnswer : Envelope :=
  envelope [("action", JStr "onLoginStart"); ("logged_in", JBool false)].

Definition loginAnswer : Envelope :=
  envelope [("action", JStr "onLoggedIn"); ("logged_in", JBool true);
            ("username", JStr "ab12cd"); ("ip", JStr "10.0.0.7");
            ("uptime", JStr "1h2m"); ("bytes_in", JStr "2048")].

Definition statusAnswer (loggedIn : bool) : Envelope :=
  envelope [("action", JStr "onStatusQuery"); ("logged_in", JBool loggedIn);
            ("username", JStr "ab12cd"); ("bytes_out", JNum 5242880)].

Definition loggedInAnswerWithoutFlag : Envelope :=
  envelope [("action", JStr "onLoggedIn"); ("username", JStr "ab12cd")].

(** The page loads, the probe finds no session, the login section shows. *)
Definition toLoginPage : list Event := [Loaded; Response 0 (Success probeAnswer)].

(** ... the user logs in; the first status poll (request 2) is in flight. *)
Definition toLoggedIn : list Event :=
  toLoginPage ++ [Edit credentials; Submit; Response 1 (Success loginAnswer)].

(** ... the user logs out (request 3, answered) and submits the login form
    again (request 4, in flight) while the poll of the previous session
    (request 2) has not ended yet. *)
Definition toSecondLogin : list Event :=
  toLoggedIn ++ [LogoutClick false; Fire 3;
                 Response 3 (Success (envelope [("action", JStr "onLoggedOut")]));
                 Edit credentials; Submit].

Definition loggedIn : State := run page toLoggedIn start.
Definition loggedOut : State := run page toLoginPage start.
Definition secondLogin : State := run page toSecondLogin start.

(** The state in which [handleLoggedIn] reaches its call of
    [startStatusPolling] when the login page receives [loginAnswer]. *)
Definition beforePolling : State :=
  showStatusSection
    (stateOf (updateStatusFields loginAnswer (enterLoggedIn page loggedOut))).

End Sample.

(** ** The formatting rules as the specification words them *)

Module Rules.
Import Js Format Portal.






(** The single-keyword rows of the table, in table order. *)
Definition simple_rules : list (string * string) :=
  List.filter (fun kv => negb (includes (fst kv) "&")) errorMap.

Definition all_of (keywords : list string) (lower : string) : bool :=
  forallb (includes lower) keywords.

(** Error-text localization: the two multi-keyword checks first, then the
    first single-keyword row contained in the lower-cased text, else the
    generic fallback around the raw text. *)
Definition localized (raw : string) : string :=
  let lower := toLowerCase raw in
  if all_of ["server"; "is"; "responding"] lower then msg_not_responding
  else if all_of ["web"; "browser"; "did"; "send"] lower then msg_retry_card
  else match List.find (fun kv => includes lower (fst kv)) simple_rules with
       | Some kv => snd kv
       | None => fallback_prefix ++ raw
       end.






End Rules.


(** ** Duration tokens and further notions for the helpers *)

Module Tokens.
Import Js Format Portal.

(** The character [c] does not occur in the text. *)
Fixpoint free_of (c : ascii) (s : string) : bool :=
  match s with
  | EmptyString => true
  | String a r => negb (Ascii.eqb a c) && free_of c r
  end.

(** A count: a non-empty run of decimal digits. *)
Definition count (a : string) : Prop := a <> "" /\ all_digits a = true.

Definition counts (o : option string) : Prop :=
  match o with
  | Some a => count a
  | None => True
  end.

(** A segment [<n><unit>] of a duration token, when present. *)
Definition segment (o : option string) (unit_mark : string) : string :=
  match o with
  | Some a => a ++ unit_mark
  | None => ""
  end.

(** The token with its optional day, hour, minute and second segments. *)
Definition token (od oh om os : option string) : string :=
  segment od "d" ++ segment oh "h" ++ segment om "m" ++ segment os "s".

Definition word (o : option string) (label : string) : list string :=
  match o with
  | Some a => [a ++ " " ++ label]
  | None => []
  end.

(** The phrase: the words of the segments present, separated by blanks. *)
Definition phrase (od oh om os : option string) : string :=
  join " " (word od "يوم" ++ word oh "ساعة" ++ word om "دقيقة" ++ word os "ثانية").

(** One stage of [toArabicTime]: the text before the first unit mark [c]
    and the text after it, when the mark occurs. *)
Definition take (c : ascii) (remaining : string) : string * string :=
  if includes remaining (String c EmptyString) then split2 c remaining
  else ("", remaining).

(** The amount a stage reads for a segment. *)
Definition amount (o : option string) : string :=
  match o with
  | Some a => a
  | None => ""
  end.

(** The end of [toArabicTime]: the phrase built from the four amounts. *)
Definition assemble (days hours minutes seconds timeStr : string) : string :=
  let result := "" in
  let result :=
    if negb (String.eqb (trim days) "") then result ++ days ++ " يوم " else result in
  let result :=
    if negb (String.eqb (trim hours) "") then result ++ hours ++ " ساعة " else result in
  let result :=
    if negb (String.eqb (trim minutes) "") then result ++ minutes ++ " دقيقة " else result in
  let result :=
    if negb (String.eqb (trim seconds) "") then result ++ seconds ++ " ثانية" else result in
  if String.eqb (trim result) "" then timeStr else trim result.

(** Every character of the text passes the test. *)
Fixpoint all_chars (p : ascii -> bool) (s : string) : bool :=
  match s with
  | EmptyString => true
  | String a r => p a && all_chars p r
  end.

(** The characters [encodeURIComponent] lets through or produces. *)
Definition url_char (c : ascii) : bool := unreserved c || Ascii.eqb c "%".

(** The address [doUserLogin] builds for the credentials of the form. *)
Definition loginUrl (username password : string) : string :=
  DO_LOGIN ++ "&username=" ++ encodeURIComponent (trim username)
           ++ "&password=" ++ encodeURIComponent password.

End Tokens.


(** ** Further notions for the session machine *)

Module Session.
Import Js Format Portal Aux.

(** The request [init] sends. *)
Definition probeRequest : Request := {| url := LOGIN_STATUS; callbackError := NoCallback |}.

(** The request [doUserLogout] sends. *)
Definition logoutRequest (eraseCookie : bool) : Request :=
  {| url := if eraseCookie then LOGOUT_ERASE else LOGOUT; callbackError := LogoutFailed |}.

(** The envelope names a handler of the action table. *)
Definition recognized (data : Envelope) : bool :=
  truthy (prop data "action") &&
  match apiActionHandlers (prop data "action") with
  | Some _ => true
  | None => false
  end.

(** The outcomes that carry no handler call: any of the four failures, or
    an answer whose envelope names no handler. *)
Definition failed (o : Outcome) : Prop :=
  match o with
  | Success envelope => recognized envelope = false
  | ParseFailure => True
  | HttpError statusCode => statusCode <> 200%Z
  | NetworkError => True
  | TimedOut => True
  end.

(** The message [getRequest] words last for such an outcome. *)
Definition failureMessage (o : Outcome) : string :=
  match o with
  | Success _ => "Invalid response from server"
  | ParseFailure => "Error reading server response."
  | HttpError statusCode =>
      "Server error (" ++ string_of_Z statusCode ++ "). Please try again later."
  | NetworkError => "Network error. Please check your connection."
  | TimedOut => "The server is not responding. Please try again later."
  end.

(** The message [getRequest] words first: a connection failure and an
    expired timer reach [onreadystatechange] with status 0 before their own
    callbacks. *)
Definition firstMessage (o : Outcome) : string :=
  match o with
  | NetworkError | TimedOut => "Server error (0). Please try again later."
  | _ => failureMessage o
  end.

(** How a callback of [getRequest] reports the failure of a request that is
    no status poll: to the error callback of the caller when there is one,
    else on the error display. *)
Definition report (r : Request) (message : string) (st : State) : State :=
  let st := set_isAnimating false st in
  if hasCallback (callbackError r) then runCallbackError (callbackError r) message st
  else displayJsError message st.

(** The error display with a message put up by [displayJsError]. *)
Definition shown (message : string) (v : ErrorView) : ErrorView :=
  {| errorText := message; errorDisplay := "block";
     mikrotikErrorDisplay := mikrotikErrorDisplay v;
     mikrotikInfoDisplay := mikrotikInfoDisplay v;
     popupActive := true |}.

(** The error display as [clearErrors] leaves it. *)
Definition cleared (v : ErrorView) : ErrorView :=
  {| errorText := ""; errorDisplay := "none";
     mikrotikErrorDisplay := "none"; mikrotikInfoDisplay := "none";
     popupActive := popupActive v |}.

(** The sections with the login section up. *)
Definition loginUp : Sections :=
  {| loginDisplay := "block"; loginInactive := true;
     statusDisplay := "none"; statusCardActive := false |}.

(** The sections with the status panel up. *)
Definition statusUp : Sections :=
  {| loginDisplay := "none"; loginInactive := true;
     statusDisplay := "block"; statusCardActive := true |}.

(** The sections with nothing up. *)
Definition allHidden : Sections :=
  {| loginDisplay := "none"; loginInactive := true;
     statusDisplay := "none"; statusCardActive := false |}.

(** The calls of the login transition into the helper scripts. *)
Definition loginCalls (pg : Page) : list ExtCall :=
  (if rememberChecked (formDefaults pg) && hasRemember pg then [Remember] else [])
  ++ (if hasResetCounter pg then [ResetCounter] else []).

Definition cookieCalls (pg : Page) : list ExtCall :=
  if hasHotCookie pg then [CookieLogin] else [].

Definition msg_no_username : string := "يرجى إدخال اسم المستخدم أو رقم التذكرة.".

(** The calls of the login-error handler for a hard failure. *)
Definition failureCalls (pg : Page) : list ExtCall :=
  (if blockerEnabled pg && hasBlockerFns pg then [IncrementCounter; CheckFailsCount]
   else [])
  ++ (if hasClearCookies pg then [ClearCookies] else []).

Definition msg_logout_failed : string :=
  "Logout failed. Please check connection or try again.".

(** The live poll timers agree with the handle the script holds: none
    without a handle, exactly the held one, of period 1500 ms, with it. *)
Definition timersAgree (st : State) : Prop :=
  intervals st =
  match statusPollInterval st with
  | Some h => [(h, STATUS_POLL_INTERVAL)]
  | None => []
  end.


(** The requests the script sends: the probe, a status poll, a login with
    encoded credentials, a logout; each with the error callback of its
    caller. *)
Definition wellFormed (r : Request) : Prop :=
  r = probeRequest \/ r = pollRequest
  \/ (exists username password,
        r = {| url := Tokens.loginUrl username password; callbackError := LoginFailed |})
  \/ (exists eraseCookie, r = logoutRequest eraseCookie).

Definition onlyPolls (l : list Request) : Prop := Forall (fun r => r = pollRequest) l.

(** What every step of a callback respects: a lowered [isAnimating] stays
    lowered, no request is marked answered, only status polls are sent, and
    the timers keep agreeing with the held handle. *)
Definition tame (st st' : State) : Prop :=
  (isAnimating st = false -> isAnimating st' = false)
  /\ completed st' = completed st
  /\ (exists l, requests st' = (requests st ++ l)%list /\ onlyPolls l)
  /\ (timersAgree st -> timersAgree st').

(** The session part is the same in both states. *)
Definition sameSession (st st' : State) : Prop :=
  isLoggedIn st' = isLoggedIn st
  /\ statusPollInterval st' = statusPollInterval st
  /\ intervals st' = intervals st.

(** What every event respects. *)
Definition sound (st st' : State) : Prop :=
  (exists l, requests st' = (requests st ++ l)%list /\ Forall wellFormed l)
  /\ (timersAgree st -> timersAgree st').


End Session.


(** ** The display of the status fields *)

Module Fields.
Import Js Format Portal Aux.




End Fields.

(** * Properties of the script *)

Import Js Format Portal Aux.

(** ** Bookkeeping of the state record *)

Ltac unfold_setters :=
  unfold set_isAnimating, set_isLoggedIn, set_statusPollInterval, set_hotspotApiData,
    set_sections, set_errorView, set_statusFields, set_form, set_requests,
    set_completed, set_timeouts, set_intervals, set_nextTimerId, set_calls in *.

Ltac unfold_script :=
  unfold handleLoggedOut, showLoginSection, hideAllSections, clearErrors, hideErrorPopup,
    stopStatusPolling, clearInterval, setTimeout, displayJsError, showErrorPopup,
    showStatusSection, xhr_send, call, setInterval in *;
  unfold_setters.

(** Splits a state into its fields, with the two tests [handleLoggedOut]
    makes (the timer handle, the popup) decided. *)
Ltac split_state st :=
  let h := fresh "h" in let v := fresh "v" in let p := fresh "p" in
  destruct st as [? ? [h|] ? ? v ? ? ? ? ? ? ? ?];
  destruct v as [? ? ? ? p]; destruct p.

(** ** The fields of the status panel *)

Section Fields.

Lemma field_update_field key f fields k :
  field (update_field key f fields) k =
  if String.eqb key k then option_map f (field fields k) else field fields k.
Proof.
  induction fields as [|[k0 e] rest IH]; simpl.
  - destruct (String.eqb key k); reflexivity.
  - destruct (String.eqb k0 key) eqn:E0; simpl.
    + apply String.eqb_eq in E0; subst k0.
      destruct (String.eqb key k); reflexivity.
    + destruct (String.eqb k0 k) eqn:E1.
      * apply String.eqb_eq in E1; subst k0.
        rewrite String.eqb_sym in E0. rewrite E0. reflexivity.
      * exact IH.
Qed.

Lemma keys_update_field key f fields :
  List.map fst (update_field key f fields) = List.map fst fields.
Proof.
  induction fields as [|[k0 e] rest IH]; simpl; [reflexivity|].
  destruct (String.eqb k0 key); simpl; [reflexivity | now rewrite IH].
Qed.

Lemma clearField_idem f : clearField (clearField f) = clearField f.
Proof.
  destruct f as [[tag id c d]|]; [|reflexivity].
  unfold clearField; simpl.
  destruct (negb (String.eqb tag "DIV") && negb (String.eqb tag "SPAN")
            && negb (String.eqb id "status-title")) eqn:E1; simpl.
  - rewrite E1. reflexivity.
  - destruct (String.eqb id "status-time-left-item" || String.eqb id "status-remain-item")
      eqn:E2; simpl; rewrite E1, ?E2; reflexivity.
Qed.

Lemma clearField_title c f :
  option_map (set_inner c) (clearField (option_map (set_inner c) (clearField f)))
  = option_map (set_inner c) (clearField f).
Proof.
  destruct f as [[tag id c0 d]|]; [|reflexivity].
  unfold clearField; simpl.
  destruct (negb (String.eqb tag "DIV") && negb (String.eqb tag "SPAN")
            && negb (String.eqb id "status-title")) eqn:E1; simpl.
  - rewrite E1. reflexivity.
  - destruct (String.eqb id "status-time-left-item" || String.eqb id "status-remain-item")
      eqn:E2; simpl; rewrite E1, ?E2; reflexivity.
Qed.

Lemma clearAll_idem fields : clearAll (clearAll fields) = clearAll fields.
Proof.
  unfold clearAll.
  induction fields as [|[k f] rest IH]; [reflexivity|].
  cbn [List.map fst snd update_field].
  destruct (String.eqb k "status_title") eqn:E.
  - cbn [List.map fst snd update_field]. rewrite E.
    rewrite clearField_title. f_equal.
    rewrite List.map_map. apply List.map_ext. intros [k' f']; simpl.
    now rewrite clearField_idem.
  - cbn [List.map fst snd update_field]. rewrite E.
    rewrite clearField_idem. f_equal. exact IH.
Qed.

End Fields.

(** ** The logout transition *)

Section LoggedOut.

Lemma handleLoggedOut_fields st :
  statusFields (handleLoggedOut st) = clearAll (statusFields st).
Proof. split_state st; reflexivity. Qed.

Lemma handleLoggedOut_isLoggedIn st : isLoggedIn (handleLoggedOut st) = false.
Proof. split_state st; reflexivity. Qed.

Lemma handleLoggedOut_poll st : statusPollInterval (handleLoggedOut st) = None.
Proof. split_state st; reflexivity. Qed.

Lemma handleLoggedOut_intervals st :
  intervals (handleLoggedOut st) =
  match statusPollInterval st with
  | Some h => List.filter (fun p => negb (Nat.eqb (fst p) h)) (intervals st)
  | None => intervals st
  end.
Proof. split_state st; reflexivity. Qed.

Lemma handleLoggedOut_errors st :
  errorText (errorView (handleLoggedOut st)) = "" /\
  errorDisplay (errorView (handleLoggedOut st)) = "none".
Proof. split_state st; split; reflexivity. Qed.

Lemma handleLoggedOut_kept st :
  isAnimating (handleLoggedOut st) = isAnimating st /\
  requests (handleLoggedOut st) = requests st /\
  completed (handleLoggedOut st) = completed st /\
  calls (handleLoggedOut st) = calls st /\
  nextTimerId (handleLoggedOut st) = nextTimerId st /\
  form (handleLoggedOut st) = form st.
Proof. split_state st; repeat split; reflexivity. Qed.

Lemma showLoginSection_kept st :
  isLoggedIn (showLoginSection st) = isLoggedIn st /\
  statusPollInterval (showLoginSection st) = statusPollInterval st /\
  intervals (showLoginSection st) = intervals st /\
  errorView (showLoginSection st) = errorView st /\
  statusFields (showLoginSection st) = statusFields st /\
  requests (showLoginSection st) = requests st /\
  calls (showLoginSection st) = calls st /\
  loginDisplay (sections (showLoginSection st)) = "block".
Proof. destruct st; repeat split; reflexivity. Qed.

Lemma not_in_filter_handle h (l : list (nat * nat)) :
  ~ In h (List.map fst (List.filter (fun p => negb (Nat.eqb (fst p) h)) l)).
Proof.
  intros H. apply in_map_iff in H. destruct H as [[a b] [E H]].
  apply filter_In in H. destruct H as [_ H]. simpl in *. subst a.
  now rewrite Nat.eqb_refl in H.
Qed.

End LoggedOut.

(** C6. Idempotence of the logout transition: from any state, running
    [handleLoggedOut] twice in a row leaves the same logged-in flag, the
    same attributes and the same poll timer (its handle and the timers
    registered with the browser) as running it once. *)
Theorem C6_handleLoggedOut_idempotent (st : State) :
  session (handleLoggedOut (handleLoggedOut st)) = session (handleLoggedOut st)
  /\ intervals (handleLoggedOut (handleLoggedOut st)) = intervals (handleLoggedOut st).
Proof.
  split.
  - unfold session, attributes.
    rewrite !handleLoggedOut_isLoggedIn, !handleLoggedOut_poll.
    rewrite (handleLoggedOut_fields (handleLoggedOut st)), handleLoggedOut_fields.
    now rewrite clearAll_idem.
  - rewrite (handleLoggedOut_intervals (handleLoggedOut st)).
    now rewrite handleLoggedOut_poll.
Qed.

(** ** Login, status query and the depth of their mutual calls *)

Section LoggedIn.

Variable pg : Page.

Lemma handleLoggedInWith_unfold sq data st :
  handleLoggedInWith pg sq data st =
  match sq data (enterLoggedIn pg st) with
  | None => None
  | Some c => Some (andThen c (fun st1 => startStatusPolling pg (showStatusSection st1)))
  end.
Proof. reflexivity. Qed.

Lemma enterLoggedIn_vars st :
  isLoggedIn (enterLoggedIn pg st) = true /\
  statusPollInterval (enterLoggedIn pg st) = statusPollInterval st /\
  intervals (enterLoggedIn pg st) = intervals st /\
  statusFields (enterLoggedIn pg st) = statusFields st /\
  requests (enterLoggedIn pg st) = requests st /\
  nextTimerId (enterLoggedIn pg st) = nextTimerId st.
Proof.
  split_state st; unfold enterLoggedIn; unfold_script; simpl;
    destruct (rememberChecked (formDefaults pg) && hasRemember pg);
    destruct (hasResetCounter pg); repeat split; reflexivity.
Qed.

Lemma handleStatusQueryF_loggedIn k data st :
  isLoggedIn st = true ->
  handleStatusQueryF pg (S k) data st =
  Some (if truthy (prop data "logged_in") then updateStatusFields data st
        else Normal (showLoginSection (handleLoggedOut st))).
Proof.
  intros H. cbn [handleStatusQueryF]. rewrite H. cbn [negb andb].
  destruct (truthy (prop data "logged_in")); reflexivity.
Qed.

Lemma handleLoggedInWith_enough k data st :
  handleLoggedInWith pg (handleStatusQueryF pg (S k)) data st
  = Some (handleLoggedIn pg data st).
Proof.
  unfold handleLoggedIn. rewrite !handleLoggedInWith_unfold.
  rewrite !handleStatusQueryF_loggedIn by apply enterLoggedIn_vars.
  reflexivity.
Qed.

(** Any depth of two or more gives the result of [handleStatusQuery]. *)
Lemma handleStatusQueryF_enough k data st :
  handleStatusQueryF pg (S (S k)) data st = Some (handleStatusQuery pg data st).
Proof.
  unfold handleStatusQuery.
  change (handleStatusQueryF pg 2 data st) with
    (if negb (isLoggedIn st) && truthy (prop data "logged_in") then
       handleLoggedInWith pg (handleStatusQueryF pg 1) data (set_isLoggedIn true st)
     else if isLoggedIn st && negb (truthy (prop data "logged_in")) then
       Some (Normal (showLoginSection (handleLoggedOut st)))
     else if isLoggedIn st then Some (updateStatusFields data st)
     else Some (Normal st)).
  change (handleStatusQueryF pg (S (S k)) data st) with
    (if negb (isLoggedIn st) && truthy (prop data "logged_in") then
       handleLoggedInWith pg (handleStatusQueryF pg (S k)) data (set_isLoggedIn true st)
     else if isLoggedIn st && negb (truthy (prop data "logged_in")) then
       Some (Normal (showLoginSection (handleLoggedOut st)))
     else if isLoggedIn st then Some (updateStatusFields data st)
     else Some (Normal st)).
  rewrite !handleLoggedInWith_enough.
  repeat match goal with |- context [if ?b then _ else _] => destruct b end; reflexivity.
Qed.

Lemma handleLoggedIn_eq data st :
  handleLoggedIn pg data st =
  andThen
    (if truthy (prop data "logged_in") then updateStatusFields data (enterLoggedIn pg st)
     else Normal (showLoginSection (handleLoggedOut (enterLoggedIn pg st))))
    (fun st1 => startStatusPolling pg (showStatusSection st1)).
Proof.
  unfold handleLoggedIn. rewrite handleLoggedInWith_unfold.
  rewrite handleStatusQueryF_loggedIn by apply enterLoggedIn_vars.
  reflexivity.
Qed.

Lemma handleStatusQuery_eq data st :
  handleStatusQuery pg data st =
  if negb (isLoggedIn st) && truthy (prop data "logged_in") then
    handleLoggedIn pg data (set_isLoggedIn true st)
  else if isLoggedIn st && negb (truthy (prop data "logged_in")) then
    Normal (showLoginSection (handleLoggedOut st))
  else if isLoggedIn st then updateStatusFields data st
  else Normal st.
Proof.
  unfold handleStatusQuery.
  change (handleStatusQueryF pg 2 data st) with
    (if negb (isLoggedIn st) && truthy (prop data "logged_in") then
       handleLoggedInWith pg (handleStatusQueryF pg 1) data (set_isLoggedIn true st)
     else if isLoggedIn st && negb (truthy (prop data "logged_in")) then
       Some (Normal (showLoginSection (handleLoggedOut st)))
     else if isLoggedIn st then Some (updateStatusFields data st)
     else Some (Normal st)).
  rewrite handleLoggedInWith_enough.
  repeat match goal with |- context [if ?b then _ else _] => destruct b end; reflexivity.
Qed.

Lemma showStatusSection_kept st :
  isLoggedIn (showStatusSection st) = isLoggedIn st /\
  statusPollInterval (showStatusSection st) = statusPollInterval st /\
  intervals (showStatusSection st) = intervals st /\
  statusFields (showStatusSection st) = statusFields st /\
  requests (showStatusSection st) = requests st /\
  nextTimerId (showStatusSection st) = nextTimerId st.
Proof. destruct st; repeat split; reflexivity. Qed.

Lemma startStatusPolling_idle st :
  statusPollInterval st <> None \/ isLoggedIn st = false ->
  startStatusPolling pg st = st.
Proof.
  unfold startStatusPolling. intros [H|H].
  - destruct (statusPollInterval st); [reflexivity | congruence].
  - rewrite H. destruct (statusPollInterval st); reflexivity.
Qed.

Lemma startStatusPolling_starts st :
  fileProtocol pg = false -> statusPollInterval st = None -> isLoggedIn st = true ->
  startStatusPolling pg st =
  set_statusPollInterval (Some (nextTimerId st))
    (set_nextTimerId (S (nextTimerId st))
      (set_intervals (intervals st ++ [(nextTimerId st, STATUS_POLL_INTERVAL)])
        (set_requests (requests st ++ [pollRequest]) st))).
Proof.
  intros Hp Hn Hl. unfold startStatusPolling, getRequest. rewrite Hn, Hl, Hp.
  destruct st; reflexivity.
Qed.

End LoggedIn.

(** C7. An envelope handed to [handleLoggedIn] whose [logged_in] is absent
    or false never leaves the machine logged in: the handler first sets the
    flag, the status reconciliation it calls sees the flag raised and the
    envelope lowered and runs the logout transition at once, and the poller
    is then not started; the handler returns, and in the end the flag is
    down, no timer handle is held, the timer held before is cleared and no
    status request was sent. *)
Theorem C7_loggedIn_envelope_without_flag (pg : Page) (data : Envelope) (st : State) :
  truthy (prop data "logged_in") = false ->
  let st1 := enterLoggedIn pg st in
  let st' := showStatusSection (showLoginSection (handleLoggedOut st1)) in
  isLoggedIn st1 = true
  /\ handleStatusQueryF pg 1 data st1
     = Some (Normal (showLoginSection (handleLoggedOut st1)))
  /\ handleLoggedIn pg data st = Normal st'
  /\ isLoggedIn st' = false
  /\ pollingStopped st st'
  /\ requests st' = requests st.
Proof.
  intros Hf st1 st'.
  assert (E : handleLoggedIn pg data st = Normal st').
  { unfold st'. rewrite handleLoggedIn_eq, Hf. cbn [andThen]. f_equal.
    apply startStatusPolling_idle.
    right. rewrite (proj1 (showStatusSection_kept _)).
    rewrite (proj1 (showLoginSection_kept _)). apply handleLoggedOut_isLoggedIn. }
  destruct (enterLoggedIn_vars pg st) as (H1 & H2 & H3 & _ & H5 & _).
  split; [exact H1|].
  split; [rewrite handleStatusQueryF_loggedIn by exact H1; now rewrite Hf|].
  split; [exact E|].
  unfold st'.
  destruct (showStatusSection_kept (showLoginSection (handleLoggedOut st1)))
    as (S1 & S2 & S3 & _ & S5 & _).
  destruct (showLoginSection_kept (handleLoggedOut st1))
    as (L1 & L2 & L3 & _ & _ & L6 & _).
  split; [rewrite S1, L1; apply handleLoggedOut_isLoggedIn|].
  split.
  - split; [rewrite S2, L2; apply handleLoggedOut_poll|].
    intros h Hh. rewrite S3, L3, handleLoggedOut_intervals.
    fold st1. unfold st1 at 1. rewrite H2, Hh. apply not_in_filter_handle.
  - rewrite S5, L6. rewrite (proj1 (proj2 (handleLoggedOut_kept st1))). exact H5.
Qed.

(** ** The update of the status fields *)

Section StatusFields.

Variable data : Envelope.




Lemma present_update_field key f fields k :
  present (update_field key f fields) k = present fields k.
Proof.
  unfold present. rewrite field_update_field.
  destruct (String.eqb key k); [|reflexivity].
  destruct (field fields k); reflexivity.
Qed.

Lemma present_writeField fields key k :
  present (writeField data key fields) k = present fields k.
Proof.
  unfold writeField.
  repeat match goal with
         | |- context [if ?x then _ else _] => destruct x
         end; rewrite ?present_update_field; reflexivity.
Qed.

Lemma present_plainRound fields key k :
  present (plainRound data fields key) k = present fields k.
Proof.
  unfold plainRound.
  destruct (present fields key && owns data key); [apply present_writeField | reflexivity].
Qed.


Lemma present_fold keys fields k :
  present (fold_left (plainRound data) keys fields) k = present fields k.
Proof.
  revert fields. induction keys as [|key keys IH]; intros fields; simpl;
    [reflexivity|]. now rewrite IH, present_plainRound.
Qed.








(** Raising or not, the update touches nothing but the status fields. *)
Lemma updateStatusFields_fields st :
  exists fields, stateOf (updateStatusFields data st) = set_statusFields fields st.
Proof.
  unfold updateStatusFields.
  destruct (updateFields data (List.map fst (statusFields st)) (statusFields st))
    as [[|] fields]; eexists; reflexivity.
Qed.


End StatusFields.

(** ** Reachable states and the delivery of outcomes *)

Section Reachable.

Variable pg : Page.

Lemma getRequest_file url cb st :
  fileProtocol pg = true ->
  requests (getRequest pg url cb st) = requests st /\
  isLoggedIn (getRequest pg url cb st) = false.
Proof.
  intros H. unfold getRequest. rewrite H.
  split_state st; destruct (hasHotCookie pg); split; reflexivity.
Qed.

Lemma step_file e st :
  fileProtocol pg = true ->
  requests st = [] -> isLoggedIn st = false ->
  requests (step pg e st) = [] /\ isLoggedIn (step pg e st) = false.
Proof.
  intros Hp Hr Hl. destruct e as [| f | | erase | i | h | i o]; simpl.
  - unfold init.
    destruct (getRequest_file LOGIN_STATUS NoCallback st Hp) as [R L].
    destruct (getRequest pg LOGIN_STATUS NoCallback st); simpl in *. now rewrite R.
  - destruct st; simpl in *. now split.
  - unfold onSubmit, doUserLogin.
    destruct (negb (isAnimating st)); [|now split].
    destruct (String.length (trim (usernameValue (form st))) =? 0)%nat.
    + destruct st; simpl in *. now split.
    + match goal with |- context [getRequest pg ?u ?c ?s] =>
        destruct (getRequest_file u c s Hp) as [R L]; rewrite R, L end.
      split; [|reflexivity]. split_state st; simpl in *; exact Hr.
  - unfold onLogoutClick. destruct (negb (isAnimating st)); [|now split].
    destruct st; simpl in *. now split.
  - destruct (nth_error (timeouts st) i) as [t|]; [|now split].
    destruct t; try (destruct st; simpl in *; now split).
    unfold runTimeout, doUserLogout.
    match goal with |- context [getRequest pg ?u ?c ?s] =>
      destruct (getRequest_file u c s Hp) as [R L];
      destruct (getRequest pg u c s) end.
    simpl in *. rewrite R, L. split; [|reflexivity]. destruct st; simpl in *; exact Hr.
  - destruct (existsb (fun p => Nat.eqb (fst p) h) (intervals st)); [|now split].
    unfold pollTick. rewrite Hl. split_state st; simpl in *; now split.
  - rewrite Hr. destruct i; simpl; now split.
Qed.

(** Opened from a file, the page never sends a request and never logs in. *)
Lemma reachable_file st :
  reachable pg st -> fileProtocol pg = true ->
  requests st = [] /\ isLoggedIn st = false.
Proof.
  intros H Hp. induction H as [s v fields f | e st H IH].
  - split; reflexivity.
  - destruct IH as [R L]. now apply step_file.
Qed.


Lemma loggedIn_not_file st :
  reachable pg st -> isLoggedIn st = true -> fileProtocol pg = false.
Proof.
  intros H Hl. destruct (fileProtocol pg) eqn:E; [|reflexivity].
  destruct (reachable_file st H E) as [_ L]. congruence.
Qed.

Lemma reachable_run events s v fields f :
  reachable pg (run pg events (pageState s v fields f)).
Proof.
  unfold run.
  assert (G : forall st, reachable pg st ->
              reachable pg (fold_left (fun st e => step pg e st) events st)).
  { induction events as [|e rest IH]; intros st H; simpl; [exact H|].
    apply IH. now apply reach_step. }
  apply G. apply reach_start.
Qed.

(** The state in which the callbacks of the [i]-th request run. *)
Lemma step_response st i r o :
  awaiting st i r ->
  step pg (Response i o) st = deliver pg r o (set_completed (completed st ++ [i]) st).
Proof.
  intros [Hn Hc]. simpl. rewrite Hn.
  destruct (existsb (Nat.eqb i) (completed st)) eqn:E; [|reflexivity].
  apply existsb_exists in E. destruct E as [j [Hj E]].
  apply Nat.eqb_eq in E. subst j. contradiction.
Qed.

End Reachable.

(** ** The callbacks of a request *)

Section Callbacks.

Variable pg : Page.

Lemma answered_kept c st :
  let st1 := set_isAnimating false (set_completed c st) in
  isLoggedIn st1 = isLoggedIn st /\
  statusPollInterval st1 = statusPollInterval st /\
  intervals st1 = intervals st /\
  statusFields st1 = statusFields st /\
  errorView st1 = errorView st /\
  requests st1 = requests st.
Proof. destruct st; repeat split; reflexivity. Qed.

Lemma set_isAnimating_kept b st :
  isLoggedIn (set_isAnimating b st) = isLoggedIn st /\
  statusPollInterval (set_isAnimating b st) = statusPollInterval st /\
  intervals (set_isAnimating b st) = intervals st /\
  errorView (set_isAnimating b st) = errorView st.
Proof. destruct st; repeat split; reflexivity. Qed.



Lemma ontimeout_poll st :
  ontimeout pollRequest st
  = showLoginSection (handleLoggedOut (set_isAnimating false st)).
Proof. reflexivity. Qed.

Lemma onerror_poll st : onerror pollRequest st = set_isAnimating false st.
Proof. reflexivity. Qed.

Lemma onreadystatechange_poll_error status body st :
  status <> 200%Z ->
  onreadystatechange pg pollRequest status body st
  = showLoginSection (handleLoggedOut (set_isAnimating false st)).
Proof.
  intros H. unfold onreadystatechange.
  destruct (Z.eqb status 200) eqn:E; [apply Z.eqb_eq in E; contradiction|].
  reflexivity.
Qed.

(** The logout transition followed by the login section, as the forced
    logouts, the probe and the file guard run it. *)
Lemma logout_then_login st :
  let st' := showLoginSection (handleLoggedOut st) in
  isLoggedIn st' = false /\ pollingStopped st st'
  /\ requests st' = requests st /\ calls st' = calls st
  /\ isAnimating st' = isAnimating st /\ form st' = form st
  /\ hotspotApiData st' = hotspotApiData st
  /\ sections st' = {| loginDisplay := "block"; loginInactive := true;
                       statusDisplay := "none"; statusCardActive := false |}
  /\ errorView st' = {| errorText := ""; errorDisplay := "none";
                        mikrotikErrorDisplay := "none"; mikrotikInfoDisplay := "none";
                        popupActive := popupActive (errorView st) |}
  /\ intervals st' =
     match statusPollInterval st with
     | Some h => List.filter (fun p => negb (Nat.eqb (fst p) h)) (intervals st)
     | None => intervals st
     end.
Proof.
  split_state st; repeat split; try reflexivity;
    intros h' E; try discriminate E; simpl in E; injection E as <-;
    apply not_in_filter_handle.
Qed.

(** A second forced logout changes nothing of the session or the page. *)
Lemma logout_again st :
  let st1 := showLoginSection (handleLoggedOut st) in
  let st2 := showLoginSection (handleLoggedOut (set_isAnimating false st1)) in
  isLoggedIn st2 = false /\ statusPollInterval st2 = None
  /\ intervals st2 = intervals st1 /\ errorView st2 = errorView st1
  /\ sections st2 = sections st1 /\ requests st2 = requests st1
  /\ calls st2 = calls st1 /\ completed st2 = completed st1
  /\ isAnimating st2 = false.
Proof.
  split_state st; repeat split; reflexivity.
Qed.

(** What a forced logout leaves, whatever was answered before it. *)
Lemma forced_logout c st :
  let st' := showLoginSection
               (handleLoggedOut (set_isAnimating false (set_completed c st))) in
  isLoggedIn st' = false /\ pollingStopped st st'
  /\ errorText (errorView st') = "" /\ errorDisplay (errorView st') = "none"
  /\ loginDisplay (sections st') = "block".
Proof.
  intros st'. unfold st'.
  set (st1 := set_isAnimating false (set_completed c st)).
  destruct (answered_kept c st) as (_ & A2 & A3 & _). fold st1 in A2, A3.
  destruct (logout_then_login st1) as (L1 & [L2 L2'] & _ & _ & _ & _ & _ & L8 & L9 & _).
  split; [exact L1|].
  split; [split; [exact L2 | intros h Hh; apply L2'; now rewrite A2]|].
  rewrite L8, L9. split; [reflexivity|]. split; reflexivity.
Qed.

(** The callbacks of a status poll that ends without a response: the
    logout forced at status 0 comes first. *)
Lemma deliver_poll_timeout st :
  deliver pg pollRequest TimedOut st
  = showLoginSection (handleLoggedOut (set_isAnimating false
      (showLoginSection (handleLoggedOut (set_isAnimating false st))))).
Proof. reflexivity. Qed.

Lemma deliver_poll_network st :
  deliver pg pollRequest NetworkError st
  = set_isAnimating false
      (showLoginSection (handleLoggedOut (set_isAnimating false st))).
Proof. reflexivity. Qed.


End Callbacks.

(** ** The wording of the status fields *)

Section Wording.
Import Rules.



End Wording.


(** C1 (as the script has it). A status poll that ends in a timeout while
    logged in is taken as a logout: after its callbacks the flag is down, the
    poll timer is stopped, the login section is shown, and no error is
    displayed (the error text is empty and its box hidden). *)
Theorem C1_poll_timeout_logs_out (pg : Page) (st : State) (i : nat) :
  isLoggedIn st = true -> awaiting st i pollRequest ->
  let st' := step pg (Response i TimedOut) st in
  isLoggedIn st' = false
  /\ pollingStopped st st'
  /\ errorText (errorView st') = "" /\ errorDisplay (errorView st') = "none"
  /\ loginDisplay (sections st') = "block".
Proof.
  intros _ Haw st'. unfold st'.
  rewrite (step_response pg st i pollRequest _ Haw), deliver_poll_timeout.
  set (st0 := set_isAnimating false (set_completed (completed st ++ [i]) st)).
  destruct (forced_logout (completed st ++ [i]) st) as (_ & [_ F2] & F3 & F4 & F5).
  fold st0 in F2, F3, F4, F5.
  destruct (logout_again st0) as (L1 & L2 & L3 & L4 & L5 & _).
  split; [exact L1|].
  split; [split; [exact L2 | intros h Hh; rewrite L3; now apply F2]|].
  rewrite L4, L5. split; [exact F3|]. split; [exact F4 | exact F5].
Qed.

(** C3 (the script against the rule). While logged in, a status poll
    answered with any status other than 200 forces the logout transition (the
    flag goes down and the poll timer is stopped).  A status poll that ends
    in a network error is logged out as well: [onerror] itself keeps the
    session for the next poll, but the request first reaches
    [onreadystatechange] with status 0, whose branch for a failed status poll
    has already run the logout transition. *)
Theorem C3_poll_http_error_and_network_error (pg : Page) (st : State) (i : nat) :
  isLoggedIn st = true -> awaiting st i pollRequest ->
  (forall status : Z, status <> 200%Z ->
     let st' := step pg (Response i (HttpError status)) st in
     isLoggedIn st' = false /\ pollingStopped st st')
  /\ (forall st0, isLoggedIn st0 = true ->
        isLoggedIn (onerror pollRequest st0) = true
        /\ statusPollInterval (onerror pollRequest st0) = statusPollInterval st0
        /\ intervals (onerror pollRequest st0) = intervals st0)
  /\ (let st' := step pg (Response i NetworkError) st in
      isLoggedIn st' = false /\ pollingStopped st st').
Proof.
  intros Hl Haw. split; [|split].
  - intros status Hs st'. unfold st'.
    rewrite (step_response pg st i pollRequest _ Haw). cbn [deliver].
    rewrite (onreadystatechange_poll_error pg status Malformed _ Hs).
    destruct (forced_logout (completed st ++ [i]) st) as (F1 & F2 & _).
    split; [exact F1 | exact F2].
  - intros st0 H0. rewrite onerror_poll.
    destruct (set_isAnimating_kept false st0) as (K1 & K2 & K3 & _).
    rewrite K1, K2, K3. repeat split; exact H0.
  - intros st'. unfold st'.
    rewrite (step_response pg st i pollRequest _ Haw), deliver_poll_network.
    destruct (forced_logout (completed st ++ [i]) st) as (F1 & [F2 F2'] & _).
    match goal with |- context [set_isAnimating false ?x] =>
      destruct (set_isAnimating_kept false x) as (K1 & K2 & K3 & _) end.
    split; [rewrite K1; exact F1|].
    split; [rewrite K2; exact F2 | intros h Hh; rewrite K3; now apply F2'].
Qed.

(** ** The poller *)

Section Poller.

Variable pg : Page.

Lemma stopStatusPolling_idem st :
  stopStatusPolling (stopStatusPolling st) = stopStatusPolling st.
Proof. destruct st as [? ? [h|] ? ? ? ? ? ? ? ? ? ? ?]; reflexivity. Qed.

Lemma stopStatusPolling_stops st : pollingStopped st (stopStatusPolling st).
Proof.
  destruct st as [? ? [h|] ? ? ? ? ? ? ? ? ? ? ?]; split; try reflexivity.
  - intros h' E. simpl in E. injection E as <-. simpl. apply not_in_filter_handle.
  - intros h' E. discriminate.
Qed.

Lemma tick_after_stop st h :
  statusPollInterval st = Some h ->
  step pg (Tick h) (stopStatusPolling st) = stopStatusPolling st.
Proof.
  intros E. simpl.
  destruct (existsb (fun p => Nat.eqb (fst p) h) (intervals (stopStatusPolling st)))
    eqn:X; [|reflexivity].
  exfalso. apply existsb_exists in X. destruct X as [[a b] [Hin Hab]].
  simpl in Hab. apply Nat.eqb_eq in Hab. subst a.
  destruct (stopStatusPolling_stops st) as [_ N]. apply (N h E).
  apply in_map_iff. exists (h, b). now split.
Qed.

Lemma tick_polls st h :
  fileProtocol pg = false -> isLoggedIn st = true ->
  In h (List.map fst (intervals st)) ->
  step pg (Tick h) st = set_requests (requests st ++ [pollRequest]) st.
Proof.
  intros Hp Hl Hin. simpl.
  assert (X : existsb (fun p => Nat.eqb (fst p) h) (intervals st) = true).
  { apply in_map_iff in Hin. destruct Hin as [[a b] [E Hin]]. simpl in E. subst a.
    apply existsb_exists. exists (h, b). split; [exact Hin|]. apply Nat.eqb_refl. }
  rewrite X. unfold pollTick, getRequest. rewrite Hl, Hp. reflexivity.
Qed.

End Poller.

(** C4. The contract of the poller, on every state in which a held timer
    handle implies the logged-in flag (and, for a page opened from a file,
    the flag is down, as [reachable_file] shows it always is there).
    [startStatusPolling] changes nothing when a handle is held or the flag is
    down; otherwise it sends one status request at once and registers a timer
    of period 1500 ms, whose handle it keeps, and each run of a registered
    timer while logged in sends one more status request.
    [stopStatusPolling] is idempotent, leaves no handle held and clears the
    timer, which then never runs again.  Start, stop and the timer's own
    callback all preserve the invariant. *)
Theorem C4_poller_contract (pg : Page) (st : State) :
  (fileProtocol pg = true -> isLoggedIn st = false) -> pollerInvariant st ->
  (statusPollInterval st <> None \/ isLoggedIn st = false ->
     startStatusPolling pg st = st)
  /\ (statusPollInterval st = None -> isLoggedIn st = true ->
        let st' := startStatusPolling pg st in
        requests st' = (requests st ++ [pollRequest])%list
        /\ statusPollInterval st' = Some (nextTimerId st)
        /\ intervals st' = (intervals st ++ [(nextTimerId st, 1500)])%list
        /\ isLoggedIn st' = true)
  /\ (forall h, In h (List.map fst (intervals st)) -> isLoggedIn st = true ->
        requests (step pg (Tick h) st) = (requests st ++ [pollRequest])%list
        /\ intervals (step pg (Tick h) st) = intervals st)
  /\ (stopStatusPolling (stopStatusPolling st) = stopStatusPolling st
      /\ pollingStopped st (stopStatusPolling st)
      /\ forall h, statusPollInterval st = Some h ->
           step pg (Tick h) (stopStatusPolling st) = stopStatusPolling st)
  /\ (pollerInvariant (startStatusPolling pg st)
      /\ pollerInvariant (stopStatusPolling st)
      /\ pollerInvariant (pollTick pg st)).
Proof.
  intros Hfile Hinv.
  assert (Hp : isLoggedIn st = true -> fileProtocol pg = false).
  { intros Hl. destruct (fileProtocol pg); [|reflexivity].
    rewrite Hfile in Hl by reflexivity. discriminate. }
  split; [apply startStatusPolling_idle|].
  split.
  { intros Hn Hl st'. unfold st'.
    rewrite (startStatusPolling_starts pg st (Hp Hl) Hn Hl).
    destruct st; repeat split; simpl in *; exact Hl. }
  split.
  { intros h Hin Hl. rewrite (tick_polls pg st h (Hp Hl) Hl Hin).
    destruct st; split; reflexivity. }
  split.
  { split; [apply stopStatusPolling_idem|].
    split; [apply stopStatusPolling_stops | apply tick_after_stop]. }
  split; [|split].
  - destruct (statusPollInterval st) as [h|] eqn:E.
    + rewrite startStatusPolling_idle by (left; congruence). exact Hinv.
    + destruct (Bool.bool_dec (isLoggedIn st) true) as [Hl|Hl].
      * rewrite (startStatusPolling_starts pg st (Hp Hl) E Hl).
        intros _. destruct st; simpl in *; exact Hl.
      * apply not_true_is_false in Hl.
        rewrite startStatusPolling_idle by (right; exact Hl). exact Hinv.
  - intros H. destruct (stopStatusPolling_stops st) as [N _]. congruence.
  - unfold pollTick. destruct (Bool.bool_dec (isLoggedIn st) true) as [Hl|Hl].
    + rewrite Hl. unfold getRequest. rewrite (Hp Hl).
      intros _. destruct st; simpl in *; exact Hl.
    + apply not_true_is_false in Hl. rewrite Hl.
      intros H. destruct (stopStatusPolling_stops st) as [N _]. congruence.
Qed.

(** ** Submissions *)

(** A submission made while [isAnimating] is raised is dropped by the
    listener: the state does not change and nothing is sent. *)
Lemma onSubmit_dropped (pg : Page) (st : State) :
  isAnimating st = true -> step pg Submit st = st.
Proof. intros H. simpl. unfold onSubmit. now rewrite H. Qed.

(** A submission that sends a login request raises [isAnimating], so a
    submission that follows it at once is dropped. *)
Lemma submit_twice (pg : Page) (st : State) :
  fileProtocol pg = false -> isAnimating st = false ->
  trim (usernameValue (form st)) <> "" ->
  isAnimating (step pg Submit st) = true
  /\ length (requests (step pg Submit st)) = S (length (requests st))
  /\ step pg Submit (step pg Submit st) = step pg Submit st.
Proof.
  intros Hp A Hu.
  assert (E : isAnimating (step pg Submit st) = true
              /\ length (requests (step pg Submit st)) = S (length (requests st))).
  { simpl. unfold onSubmit, doUserLogin, getRequest. rewrite A, Hp. simpl.
    destruct (trim (usernameValue (form st))) eqn:T; [congruence|]. simpl.
    split_state st; simpl; rewrite ?length_app; simpl; split; (reflexivity || lia). }
  destruct E as [E1 E2]. split; [exact E1|]. split; [exact E2|].
  now apply onSubmit_dropped.
Qed.

(** C5 (the script against the rule). In the sample session the user has
    logged in, logged out and submitted the login form again; that login
    request (number 4) awaits its outcome and [isAnimating] is raised.  The
    status poll of the previous session (number 2) then ends in a network
    error, whose callbacks lower [isAnimating]; the login request is still in
    flight, yet the next submission is accepted and sends a second login
    request. *)
Theorem C5_second_login_request_sent :
  let st := Sample.secondLogin in
  let st1 := step Sample.page (Response 2 NetworkError) st in
  let st2 := step Sample.page Submit st1 in
  reachable Sample.page st1
  /\ awaiting st 4 Sample.loginRequest /\ isAnimating st = true
  /\ awaiting st1 4 Sample.loginRequest /\ isAnimating st1 = false
  /\ loginInFlight st1
  /\ requests st2 = (requests st1 ++ [Sample.loginRequest])%list
  /\ awaiting st2 4 Sample.loginRequest /\ awaiting st2 5 Sample.loginRequest.
Proof.
  assert (N : forall l : list nat, existsb (Nat.eqb 4) l = false -> ~ In 4 l).
  { intros l H Hin. assert (X : existsb (Nat.eqb 4) l = true).
    { apply existsb_exists. exists 4. split; [exact Hin | reflexivity]. }
    congruence. }
  assert (N5 : forall l : list nat, existsb (Nat.eqb 5) l = false -> ~ In 5 l).
  { intros l H Hin. assert (X : existsb (Nat.eqb 5) l = true).
    { apply existsb_exists. exists 5. split; [exact Hin | reflexivity]. }
    congruence. }
  intros st st1 st2.
  assert (A1 : awaiting st1 4 Sample.loginRequest).
  { split; [vm_compute; reflexivity | apply N; vm_compute; reflexivity]. }
  split.
  { unfold st1, st, Sample.secondLogin, Sample.start.
    apply reach_step. apply reachable_run. }
  split; [split; [vm_compute; reflexivity | apply N; vm_compute; reflexivity]|].
  split; [vm_compute; reflexivity|].
  split; [exact A1|].
  split; [vm_compute; reflexivity|].
  split; [exists 4, Sample.loginRequest; split; [exact A1 | reflexivity]|].
  split; [vm_compute; reflexivity|].
  split; split; try (vm_compute; reflexivity);
    [apply N | apply N5]; vm_compute; reflexivity.
Qed.

(** ** The formatting helpers *)

Import Rules.

Section Masking.

Lemma toLowerCase_length s : String.length (toLowerCase s) = String.length s.
Proof. induction s as [|c r IH]; simpl; [reflexivity | now rewrite IH]. Qed.

Lemma toLowerCase_empty s : toLowerCase s = "" -> s = "".
Proof. destruct s; [reflexivity | discriminate]. Qed.

Lemma ceil_half n : Nat.div2 (n + 1) = ((n + 1) / 2)%nat.
Proof. apply Nat.div2_div. Qed.

Lemma floor_half n : (n - Nat.div2 (n + 1) = n / 2)%nat.
Proof.
  rewrite Nat.div2_div.
  pose proof (Nat.div_mod_eq (n + 1) 2) as H1.
  pose proof (Nat.div_mod_eq n 2) as H2.
  pose proof (Nat.mod_upper_bound (n + 1) 2) as H3.
  pose proof (Nat.mod_upper_bound n 2) as H4.
  lia.
Qed.

End Masking.

(** C8 (as the script has it). Identifier masking of an ASCII identifier
    works on the lower-cased identifier.  An identifier that holds the trial
    marker [t-] in any letter case renders as the fixed free-trial label; the
    empty identifier renders as the default subscription label; any other
    identifier shorter than 2 characters is returned lower-cased; otherwise
    the first half of the lower-cased identifier (the floor of half its
    length) is followed by mask characters for the second half (the ceiling
    of half its length).  In particular [ab] gives [a*]. *)
Theorem C8_hideHalfCard_masks (username : string) :
  ascii_text username = true ->
  let lower := toLowerCase username in
  let n := String.length username in
  (includes lower "t-" = true -> hideHalfCard (JStr username) = trial_label)
  /\ (username = "" -> hideHalfCard (JStr username) = default_label)
  /\ (includes lower "t-" = false -> n = 1 -> hideHalfCard (JStr username) = lower)
  /\ (includes lower "t-" = false -> 2 <= n ->
        hideHalfCard (JStr username)
        = substring 0 (n / 2) lower ++ repeat_char "*" ((n + 1) / 2))
  /\ hideHalfCard (JStr "ab") = "a*".
Proof.
  intros _ lower n.
  assert (L : String.length lower = n) by apply toLowerCase_length.
  unfold hideHalfCard. fold lower. cbv zeta. rewrite L.
  split; [|split; [|split; [|split]]].
  - intros H. destruct (String.eqb username "") eqn:E.
    + apply String.eqb_eq in E. subst username. discriminate H.
    + now rewrite H.
  - intros E. subst username. reflexivity.
  - intros H Hn. destruct (String.eqb username "") eqn:E.
    + apply String.eqb_eq in E. subst username. discriminate Hn.
    + rewrite H, Hn. reflexivity.
  - intros H Hn. destruct (String.eqb username "") eqn:E.
    + apply String.eqb_eq in E. subst username. simpl in n. unfold n in Hn. lia.
    + rewrite H. destruct (n <? 2)%nat eqn:L2; [apply Nat.ltb_lt in L2; lia|].
      now rewrite floor_half, ceil_half.
  - reflexivity.
Qed.

Section ErrorTexts.

Lemma scan_errorMap_find lower table :
  forallb (fun kv => negb (includes (fst kv) "|")) table = true ->
  scan_errorMap lower table =
  option_map snd
    (List.find (fun kv => includes lower (fst kv))
               (List.filter (fun kv => negb (includes (fst kv) "&")) table)).
Proof.
  induction table as [|[key text] rest IH]; intros H; [reflexivity|].
  simpl in H. apply andb_true_iff in H. destruct H as [H1 H2].
  apply negb_true_iff in H1.
  cbn [scan_errorMap List.filter fst]. fold (includes key "&").
  destruct (includes key "&") eqn:A; cbn [negb].
  - now apply IH.
  - fold (includes key "|"). rewrite H1. cbn [List.find fst].
    destruct (includes lower key); [reflexivity | now apply IH].
Qed.

Lemma toArabicError_localized raw :
  raw <> "" -> toArabicError (JStr raw) = localized raw.
Proof.
  intros H. unfold toArabicError, localized, all_of.
  destruct (String.eqb raw "") eqn:E; [apply String.eqb_eq in E; contradiction|].
  cbn [forallb]. rewrite !andb_true_r.
  rewrite <- !andb_assoc.
  destruct (includes (toLowerCase raw) "server" &&
            (includes (toLowerCase raw) "is" && includes (toLowerCase raw) "responding"));
    [reflexivity|].
  destruct (includes (toLowerCase raw) "web" &&
            (includes (toLowerCase raw) "browser" &&
             (includes (toLowerCase raw) "did" && includes (toLowerCase raw) "send")));
    [reflexivity|].
  rewrite scan_errorMap_find by (vm_compute; reflexivity).
  fold simple_rules.
  destruct (List.find (fun kv => includes (toLowerCase raw) (fst kv)) simple_rules);
    reflexivity.
Qed.

Lemma simple_rules_eq :
  simple_rules =
  [ ("user not found", "هذا الحساب غير موجود أو قد انتهت صلاحيته، حاول مرة اخرى.");
    ("simultaneous session limit reached", msg_in_use);
    ("no more sessions are allowed", msg_in_use);
    ("invalid password", msg_password);
    ("uptime limit reached", msg_time_over);
    ("no more online time", msg_time_over);
    ("uptime limit", msg_time_over);
    ("traffic limit reached", msg_balance_over);
    ("transfer limit reached", msg_balance_over);
    ("invalid username or password", msg_bad_login);
    ("not found", msg_bad_login);
    ("no valid profile found", "لقد انتهت صلاحية هذا الكرت.");
    ("invalid calling-station-id", "هذا الحساب مقترن بجهاز آخر!");
    ("allowed to log in from this mac",
     "لا يحق لك استخدام هذا الكرت, الكرت محجوز لمستخدم اخر!") ].
Proof. vm_compute. reflexivity. Qed.

End ErrorTexts.

(** C9. Error-text localization of a raw server error text, which
    [handleLoginError] hands over only when it is not empty, works on its
    lower-cased form: the two multi-keyword checks come first and then the
    single-keyword rows in table order, the first row contained in the text
    deciding.  Hence a text that holds
    [invalid password] and triggers no earlier check or row maps to the
    password message; a text that holds [uptime limit] and triggers no
    earlier check or row with another message maps to the time-expired
    message; and a text that triggers no check and no row maps to the
    generic fallback followed by the raw text itself. *)
Theorem C9_toArabicError_localizes (raw : string) :
  raw <> "" ->
  let lower := toLowerCase raw in
  toArabicError (JStr raw) = localized raw
  /\ (all_of ["server"; "is"; "responding"] lower = false ->
      all_of ["web"; "browser"; "did"; "send"] lower = false ->
      (includes lower "user not found" = false ->
       includes lower "simultaneous session limit reached" = false ->
       includes lower "no more sessions are allowed" = false ->
       (includes lower "invalid password" = true ->
          toArabicError (JStr raw) = msg_password)
       /\ (includes lower "invalid password" = false ->
           includes lower "uptime limit" = true ->
             toArabicError (JStr raw) = msg_time_over))
      /\ ((forall kv, In kv simple_rules -> includes lower (fst kv) = false) ->
            toArabicError (JStr raw) = fallback_prefix ++ raw)).
Proof.
  intros Hne lower. rewrite (toArabicError_localized raw Hne).
  split; [reflexivity|]. intros A1 A2.
  unfold localized. fold lower. rewrite A1, A2. split.
  - intros K1 K2 K3. rewrite simple_rules_eq. cbn [List.find fst snd].
    rewrite K1, K2, K3. split.
    + intros K4. now rewrite K4.
    + intros K4 K7. rewrite K4.
      destruct (includes lower "uptime limit reached"); [reflexivity|].
      destruct (includes lower "no more online time"); [reflexivity|].
      now rewrite K7.
  - intros Hnone.
    destruct (List.find (fun kv => includes lower (fst kv)) simple_rules) as [kv|] eqn:F;
      [|reflexivity].
    apply List.find_some in F. destruct F as [Hin Hk].
    rewrite (Hnone kv Hin) in Hk. discriminate.
Qed.

Section ByteCounts.


Lemma Number_NInt_safe v n : Number v = NInt n -> (Z.abs n <= 2 ^ 53)%Z.
Proof.
  assert (S : forall z, int_result z = NInt n -> (Z.abs n <= 2 ^ 53)%Z).
  { intros z. unfold int_result, safe.
    destruct (Z.abs z <=? 2 ^ 53)%Z eqn:E; [|discriminate].
    intros H. injection H as <-. now apply Z.leb_le. }
  destruct v as [| | b | z | s]; simpl.
  - discriminate.
  - intros H. injection H as <-. simpl. lia.
  - intros H. injection H as <-. destruct b; simpl; lia.
  - apply S.
  - unfold Number_of_string.
    destruct (negb (all_numeric_chars (trim s))); [discriminate|].
    destruct (trim s) as [|c r]; [intros H; injection H as <-; simpl; lia|].
    destruct (all_digits (String c r)); [apply S|].
    destruct ((Ascii.eqb c "-" || Ascii.eqb c "+") && all_digits r
              && negb (String.eqb r "")); [apply S | discriminate].
Qed.

End ByteCounts.


(** ** The statements at the sample sessions *)

Section Samples.

Import Sample.

Lemma not_in_by_test (i : nat) (l : list nat) :
  existsb (Nat.eqb i) l = false -> ~ In i l.
Proof.
  intros H Hin. assert (X : existsb (Nat.eqb i) l = true).
  { apply existsb_exists. exists i. split; [exact Hin | apply Nat.eqb_refl]. }
  congruence.
Defined.

Lemma loggedIn_awaits_poll : awaiting loggedIn 2 pollRequest.
Proof.
  split; [vm_compute; reflexivity | apply not_in_by_test; vm_compute; reflexivity].
Defined.


End Samples.

(** C1, the claim as stated fails: in the sample session the user is logged
    in and the first status poll is in flight; when that poll times out the
    flag does not stay raised and the timer does not keep running. *)
Lemma C1_counterexample :
  let st := Sample.loggedIn in
  let st' := step Sample.page (Response 2 TimedOut) st in
  isLoggedIn st = true /\ awaiting st 2 pollRequest
  /\ ~ (isLoggedIn st' = true /\ statusPollInterval st' <> None).
Proof.
  split; [vm_compute; reflexivity|]. split; [apply loggedIn_awaits_poll|].
  intros [H _]. vm_compute in H. discriminate.
Qed.

Lemma C1_witness :
  let st := Sample.loggedIn in
  let st' := step Sample.page (Response 2 TimedOut) st in
  isLoggedIn st = true /\ awaiting st 2 pollRequest
  /\ isLoggedIn st' = false /\ pollingStopped st st'
  /\ errorText (errorView st') = "" /\ errorDisplay (errorView st') = "none"
  /\ loginDisplay (sections st') = "block".
Proof.
  split; [vm_compute; reflexivity|]. split; [apply loggedIn_awaits_poll|].
  apply (C1_poll_timeout_logs_out Sample.page Sample.loggedIn 2).
  - vm_compute; reflexivity.
  - apply loggedIn_awaits_poll.
Defined.



Lemma C3_witness :
  let st := Sample.loggedIn in
  let forbidden := step Sample.page (Response 2 (HttpError 403)) st in
  let unreachable := step Sample.page (Response 2 NetworkError) st in
  isLoggedIn st = true /\ awaiting st 2 pollRequest
  /\ (isLoggedIn forbidden = false /\ pollingStopped st forbidden)
  /\ isLoggedIn (onerror pollRequest st) = true
  /\ (isLoggedIn unreachable = false /\ pollingStopped st unreachable).
Proof.
  assert (L : isLoggedIn Sample.loggedIn = true) by (vm_compute; reflexivity).
  destruct (C3_poll_http_error_and_network_error Sample.page Sample.loggedIn 2 L
              loggedIn_awaits_poll) as (H1 & H2 & H3).
  split; [exact L|]. split; [apply loggedIn_awaits_poll|].
  split; [apply (H1 403%Z); discriminate|].
  split; [apply (H2 Sample.loggedIn L) | exact H3].
Defined.

Lemma C4_witness :
  let st := Sample.beforePolling in
  let st' := startStatusPolling Sample.page st in
  pollerInvariant st
  /\ statusPollInterval st = None /\ isLoggedIn st = true
  /\ requests st' = (requests st ++ [pollRequest])%list
  /\ statusPollInterval st' = Some (nextTimerId st)
  /\ intervals st' = (intervals st ++ [(nextTimerId st, 1500)])%list
  /\ startStatusPolling Sample.page st' = st'
  /\ pollerInvariant st'.
Proof.
  assert (F : fileProtocol Sample.page = true -> isLoggedIn Sample.beforePolling = false)
    by (intros H; discriminate H).
  assert (I : pollerInvariant Sample.beforePolling)
    by (intros H; vm_compute; reflexivity).
  destruct (C4_poller_contract Sample.page Sample.beforePolling F I)
    as (_ & H2 & _ & _ & H5 & _).
  destruct (H2 eq_refl eq_refl) as (R1 & R2 & R3 & R4).
  split; [exact I|]. split; [reflexivity|]. split; [reflexivity|].
  split; [exact R1|]. split; [exact R2|]. split; [exact R3|].
  split; [|exact H5].
  assert (F' : fileProtocol Sample.page = true ->
               isLoggedIn (startStatusPolling Sample.page Sample.beforePolling) = false)
    by (intros H; discriminate H).
  apply (proj1 (C4_poller_contract Sample.page _ F' H5)).
  left. rewrite R2. discriminate.
Defined.

Lemma C7_witness :
  let st' := showStatusSection (showLoginSection (handleLoggedOut
               (enterLoggedIn Sample.page Sample.loggedIn))) in
  truthy (prop Sample.loggedInAnswerWithoutFlag "logged_in") = false
  /\ isLoggedIn Sample.loggedIn = true
  /\ handleLoggedIn Sample.page Sample.loggedInAnswerWithoutFlag Sample.loggedIn
     = Normal st'
  /\ isLoggedIn st' = false /\ pollingStopped Sample.loggedIn st'
  /\ requests st' = requests Sample.loggedIn.
Proof.
  assert (H : truthy (prop Sample.loggedInAnswerWithoutFlag "logged_in") = false)
    by (vm_compute; reflexivity).
  destruct (C7_loggedIn_envelope_without_flag Sample.page
              Sample.loggedInAnswerWithoutFlag Sample.loggedIn H)
    as (_ & _ & H3 & H4 & H5 & H6).
  split; [exact H|]. split; [vm_compute; reflexivity|]. split; [exact H3|].
  split; [exact H4|]. split; [exact H5 | exact H6].
Defined.

(** C8, the claim as stated fails: a one-letter identifier is not returned
    unchanged and the first half of an identifier is not shown verbatim when
    they hold capital letters, and the empty identifier is replaced by the
    default label. *)
Lemma C8_counterexample :
  (includes (toLowerCase "A") "t-" = false /\ String.length "A" < 2
   /\ hideHalfCard (JStr "A") <> "A")
  /\ (includes (toLowerCase "AB") "t-" = false /\ hideHalfCard (JStr "AB") <> "A*")
  /\ hideHalfCard (JStr "") <> "".
Proof.
  split; [|split].
  - split; [reflexivity|]. split; [simpl; lia | discriminate].
  - split; [reflexivity | discriminate].
  - discriminate.
Qed.

Lemma C8_witness :
  hideHalfCard (JStr "xT-12") = trial_label
  /\ hideHalfCard (JStr "A") = "a"
  /\ hideHalfCard (JStr "Abcde") = "ab***".
Proof.
  split; [|split].
  - apply (proj1 (C8_hideHalfCard_masks "xT-12" eq_refl)). reflexivity.
  - apply (proj1 (proj2 (proj2 (C8_hideHalfCard_masks "A" eq_refl)))); reflexivity.
  - apply (proj1 (proj2 (proj2 (proj2 (C8_hideHalfCard_masks "Abcde" eq_refl))))).
    + reflexivity.
    + simpl. lia.
Defined.

Lemma C9_witness :
  toArabicError (JStr "Invalid Password") = msg_password
  /\ toArabicError (JStr "Uptime limit reached") = msg_time_over
  /\ toArabicError (JStr "zzz") = fallback_prefix ++ "zzz".
Proof.
  split; [|split].
  - assert (N : "Invalid Password" <> "") by discriminate.
    apply (proj1 (proj1 (proj2 (C9_toArabicError_localizes "Invalid Password" N)
                           eq_refl eq_refl) eq_refl eq_refl eq_refl)).
    reflexivity.
  - assert (N : "Uptime limit reached" <> "") by discriminate.
    apply (proj2 (proj1 (proj2 (C9_toArabicError_localizes "Uptime limit reached" N)
                           eq_refl eq_refl) eq_refl eq_refl eq_refl));
      reflexivity.
  - assert (N : "zzz" <> "") by discriminate.
    apply (proj2 (proj2 (C9_toArabicError_localizes "zzz" N) eq_refl eq_refl)).
    rewrite simple_rules_eq. intros kv Hin. simpl in Hin.
    repeat (destruct Hin as [Hin|Hin]; [subst kv; reflexivity|]). contradiction.
Defined.


(** * Further properties of the script *)

Import Tokens.

(** ** Texts *)

Section Texts.

Lemma append_cons c r t : String c r ++ t = String c (r ++ t).
Proof. reflexivity. Qed.

Lemma append_nil_l t : "" ++ t = t.
Proof. reflexivity. Qed.

Lemma append_nil_r s : s ++ "" = s.
Proof.
  induction s as [|c r IH]; [reflexivity|]. now rewrite append_cons, IH.
Qed.

Lemma append_assoc s t u : (s ++ t) ++ u = s ++ t ++ u.
Proof.
  induction s as [|c r IH]; [reflexivity|]. now rewrite !append_cons, IH.
Qed.

Lemma length_append s t : String.length (s ++ t) = String.length s + String.length t.
Proof.
  induction s as [|c r IH]; [reflexivity|]. rewrite append_cons. simpl. now rewrite IH.
Qed.

Lemma length_repeat_char c n : String.length (repeat_char c n) = n.
Proof. induction n as [|n IH]; simpl; [reflexivity | now rewrite IH]. Qed.

Lemma length_substring_0 k s :
  k <= String.length s -> String.length (substring 0 k s) = k.
Proof.
  revert s. induction k as [|k IH]; intros s H.
  - destruct s; reflexivity.
  - destruct s as [|c r]; simpl in *; [lia|]. rewrite IH; [reflexivity | lia].
Qed.

Lemma free_of_app c s t : free_of c (s ++ t) = free_of c s && free_of c t.
Proof.
  induction s as [|a r IH]; [reflexivity|].
  rewrite append_cons. simpl. rewrite IH. now rewrite andb_assoc.
Qed.

Lemma prefix_char_free c t s :
  free_of c s = true -> String.prefix (String c t) s = false.
Proof.
  destruct s as [|a r]; simpl; [reflexivity|].
  intros H. apply andb_true_iff in H. destruct H as [H _].
  apply negb_true_iff in H.
  destruct (ascii_dec c a) as [E|E]; [|reflexivity].
  subst a. now rewrite Ascii.eqb_refl in H.
Qed.

(** A text free of a character holds no text that starts with it. *)
Lemma includes_free c t s :
  free_of c s = true -> includes s (String c t) = false.
Proof.
  induction s as [|a r IH]; intros H.
  - reflexivity.
  - cbn [includes]. rewrite (prefix_char_free c t _ H). simpl.
    simpl in H. apply andb_true_iff in H. now apply IH.
Qed.

Lemma includes_at c s r : includes (s ++ String c r) (String c "") = true.
Proof.
  induction s as [|a s IH].
  - rewrite append_nil_l. simpl.
    destruct (ascii_dec c c); [destruct r; reflexivity | contradiction].
  - rewrite append_cons. cbn [includes]. rewrite IH. apply orb_true_r.
Qed.

Lemma split_free c s : free_of c s = true -> split c s = [s].
Proof.
  induction s as [|a r IH]; simpl; [reflexivity|].
  intros H. apply andb_true_iff in H. destruct H as [H1 H2].
  apply negb_true_iff in H1. rewrite H1, (IH H2). reflexivity.
Qed.

Lemma split_at c s r :
  free_of c s = true -> split c (s ++ String c r) = s :: split c r.
Proof.
  induction s as [|a s IH].
  - intros _. rewrite append_nil_l. simpl. now rewrite Ascii.eqb_refl.
  - intros H. simpl in H. apply andb_true_iff in H. destruct H as [H1 H2].
    apply negb_true_iff in H1. rewrite append_cons. simpl.
    rewrite H1, (IH H2). reflexivity.
Qed.

Lemma digits_free c a :
  is_digit c = false -> all_digits a = true -> free_of c a = true.
Proof.
  intros Hc. induction a as [|x r IH]; simpl; [reflexivity|].
  intros H. apply andb_true_iff in H. destruct H as [H1 H2].
  rewrite (IH H2), andb_true_r. apply negb_true_iff.
  destruct (Ascii.eqb x c) eqn:E; [|reflexivity].
  apply Ascii.eqb_eq in E. subst x. congruence.
Qed.

Lemma trimStart_solid c r : is_space c = false -> trimStart (String c r) = String c r.
Proof. intros H. simpl. now rewrite H. Qed.

Lemma trimEnd_nonempty c r : is_space c = false -> trimEnd (String c r) <> "".
Proof.
  intros H. simpl. destruct (trimEnd r); [rewrite H|]; discriminate.
Qed.

Lemma trimEnd_app s t : trimEnd t <> "" -> trimEnd (s ++ t) = s ++ trimEnd t.
Proof.
  intros H. induction s as [|a s IH]; [reflexivity|].
  rewrite !append_cons. simpl.
  rewrite IH. destruct (s ++ trimEnd t) eqn:E; [|reflexivity].
  destruct s; [rewrite append_nil_l in E; contradiction|].
  rewrite append_cons in E. discriminate.
Qed.

Lemma digit_not_space c : is_digit c = true -> is_space c = false.
Proof.
  unfold is_digit, is_space. intros H.
  apply andb_true_iff in H. destruct H as [H1 H2].
  apply Nat.leb_le in H1. apply Nat.leb_le in H2.
  destruct (nat_of_ascii c =? 32)%nat eqn:E1; [apply Nat.eqb_eq in E1; lia|].
  destruct (9 <=? nat_of_ascii c)%nat eqn:E2; [|reflexivity].
  destruct (nat_of_ascii c <=? 13)%nat eqn:E3; [apply Nat.leb_le in E3; lia | reflexivity].
Qed.

Lemma trimEnd_digits a : all_digits a = true -> trimEnd a = a.
Proof.
  induction a as [|c r IH]; simpl; [reflexivity|].
  intros H. apply andb_true_iff in H. destruct H as [H1 H2].
  rewrite (IH H2). destruct r; [now rewrite (digit_not_space c H1) | reflexivity].
Qed.

Lemma trim_count a : count a -> trim a = a.
Proof.
  intros [Hne Hd]. destruct a as [|c r]; [contradiction|].
  unfold trim. simpl in Hd. apply andb_true_iff in Hd. destruct Hd as [H1 H2].
  rewrite (trimStart_solid c r (digit_not_space c H1)).
  apply trimEnd_digits. simpl. now rewrite H1, H2.
Qed.

End Texts.

(** ** Durations *)

Section Durations.

Lemma toArabicTime_stages timeStr :
  toArabicTime timeStr =
  if String.eqb timeStr "" then ""
  else
    let '(days, r1) := take "d" timeStr in
    let '(hours, r2) := take "h" r1 in
    let '(minutes, r3) := take "m" r2 in
    assemble days hours minutes (fst (take "s" r3)) timeStr.
Proof.
  unfold toArabicTime, take, assemble.
  destruct (String.eqb timeStr ""); [reflexivity|].
  destruct (includes timeStr "d"); destruct (split2 "d" timeStr) as [d1 r1];
    match goal with |- context [includes ?r "h"] =>
      destruct (includes r "h"); destruct (split2 "h" r) as [h1 r2] end;
    match goal with |- context [includes ?r "m"] =>
      destruct (includes r "m"); destruct (split2 "m" r) as [m1 r3] end;
    match goal with |- context [includes ?r "s"] =>
      destruct (includes r "s") end; reflexivity.
Qed.

Lemma take_absent c s : free_of c s = true -> take c s = ("", s).
Proof. intros H. unfold take. now rewrite (includes_free c "" s H). Qed.

Lemma take_segment c o rest :
  counts o -> is_digit c = false -> free_of c rest = true ->
  take c (segment o (String c "") ++ rest) = (amount o, rest).
Proof.
  intros Ho Hc Hr. destruct o as [a|]; simpl segment; simpl amount.
  - destruct Ho as [_ Hd].
    rewrite append_assoc, append_cons, append_nil_l.
    unfold take, split2. rewrite includes_at.
    rewrite (split_at c a rest (digits_free c a Hc Hd)), (split_free c rest Hr).
    reflexivity.
  - rewrite append_nil_l. now apply take_absent.
Qed.

Lemma free_of_segment c o u :
  counts o -> is_digit c = false -> free_of c u = true -> free_of c (segment o u) = true.
Proof.
  intros Ho Hc Hu. destruct o as [a|]; [|reflexivity].
  simpl. rewrite free_of_app, Hu, (digits_free c a Hc (proj2 Ho)). reflexivity.
Qed.

Lemma nonempty_app a r : a <> "" -> String.eqb (a ++ r) "" = false.
Proof. destruct a; [contradiction | reflexivity]. Qed.

Lemma trim_shape c s t :
  is_space c = false -> trimEnd t <> "" ->
  trim (String c s ++ t) = String c s ++ trimEnd t.
Proof.
  intros Hc Ht. unfold trim. rewrite append_cons.
  rewrite (trimStart_solid c _ Hc). rewrite <- append_cons. now apply trimEnd_app.
Qed.

End Durations.

(** X1. A text that holds none of the unit letters d, h, m and s is no
    duration: [toArabicTime] returns it unchanged. *)
Theorem X1_toArabicTime_without_units (timeStr : string) :
  free_of "d" timeStr = true -> free_of "h" timeStr = true ->
  free_of "m" timeStr = true -> free_of "s" timeStr = true ->
  toArabicTime timeStr = timeStr.
Proof.
  intros Hd Hh Hm Hs. rewrite toArabicTime_stages.
  rewrite (take_absent "d" _ Hd), (take_absent "h" _ Hh), (take_absent "m" _ Hm),
    (take_absent "s" _ Hs).
  destruct (String.eqb timeStr "") eqn:E; [apply String.eqb_eq in E; now subst|].
  reflexivity.
Qed.

Lemma X1_toArabicTime_without_units_witness : toArabicTime "12:30" = "12:30".
Proof. apply (X1_toArabicTime_without_units "12:30"); reflexivity. Defined.

Lemma token_stages od oh om os :
  counts od -> counts oh -> counts om -> counts os ->
  toArabicTime (token od oh om os) =
  if String.eqb (token od oh om os) "" then ""
  else assemble (amount od) (amount oh) (amount om) (amount os) (token od oh om os).
Proof.
  intros Hd Hh Hm Hs. rewrite toArabicTime_stages.
  destruct (String.eqb (token od oh om os) ""); [reflexivity|].
  unfold token.
  rewrite (take_segment "d" od _ Hd eq_refl).
  2:{ rewrite !free_of_app, !free_of_segment; auto. }
  rewrite (take_segment "h" oh _ Hh eq_refl).
  2:{ rewrite !free_of_app, !free_of_segment; auto. }
  rewrite (take_segment "m" om _ Hm eq_refl).
  2:{ rewrite !free_of_segment; auto. }
  rewrite <- (append_nil_r (segment os "s")).
  rewrite (take_segment "s" os "" Hs eq_refl eq_refl).
  rewrite append_nil_r. reflexivity.
Qed.

Lemma count_test a : count a -> String.eqb (trim a) "" = false.
Proof.
  intros H. rewrite (trim_count a H). apply String.eqb_neq. apply H.
Qed.

Lemma count_cons a : count a -> exists c r, a = String c r /\ is_space c = false.
Proof.
  intros [Hne Hd]. destruct a as [|c r]; [contradiction|].
  exists c, r. split; [reflexivity|]. apply digit_not_space.
  simpl in Hd. now apply andb_true_iff in Hd.
Qed.


Ltac flatten :=
  repeat first [ rewrite append_assoc | rewrite append_cons | rewrite append_nil_l
               | rewrite append_nil_r ].

(** After the first amount has been opened as [String c r]: the phrase of
    one case of a token. *)
Ltac token_case Sc :=
  rewrite ?append_nil_r, ?append_nil_l;
  rewrite <- ?append_assoc; rewrite ?append_cons;
  match goal with
  | |- context [trim (String ?c (?s ++ ?t))] =>
      rewrite <- (append_cons c s t);
      rewrite (trim_shape c s t Sc) by (vm_compute; discriminate)
  end;
  rewrite append_cons;
  cbn [String.eqb]; cbv iota;
  cbn [join]; vm_compute trimEnd; flatten; reflexivity.

Ltac open_count H :=
  let c := fresh "c" in let r := fresh "r" in let E := fresh "E" in
  let S := fresh "S" in
  destruct (count_cons _ H) as (c & r & E & S); subst; token_case S.

(** X2. A duration token, that is counts followed by d, h, m and s in that
    order, any of the four segments being optional, is rendered as its
    counts each followed by a blank and the Arabic word of its unit, the
    segments separated by single blanks and nothing after the last. *)
Theorem X2_toArabicTime_token (od oh om os : option string) :
  counts od -> counts oh -> counts om -> counts os ->
  toArabicTime (token od oh om os) = phrase od oh om os.
Proof.
  intros Hd Hh Hm Hs. rewrite (token_stages od oh om os Hd Hh Hm Hs).
  unfold assemble, token, phrase.
  destruct od as [a|], oh as [b|], om as [c|], os as [d|];
    cbn [amount segment word app counts] in *;
    repeat match goal with
           | H : count ?x |- _ => rewrite !(count_test x H)
           end;
    change (String.eqb (trim "") "") with true;
    cbv beta iota zeta delta [negb].
  all: first [ open_count Hd | open_count Hh | open_count Hm | open_count Hs
             | reflexivity ].
Qed.

Lemma X2_toArabicTime_token_witness :
  toArabicTime (token (Some "1") None (Some "30") None)
  = phrase (Some "1") None (Some "30") None.
Proof.
  apply (X2_toArabicTime_token (Some "1") None (Some "30") None);
    first [exact I | split; [discriminate | reflexivity]].
Defined.

(** ** Addresses *)

Section Addresses.

Lemma hex_digit_unreserved c :
  unreserved (hex_digit (nat_of_ascii c / 16)) = true
  /\ unreserved (hex_digit (nat_of_ascii c mod 16)) = true.
Proof. destruct c as [[] [] [] [] [] [] [] []]; split; reflexivity. Qed.

Lemma encodeURIComponent_chars s : all_chars url_char (encodeURIComponent s) = true.
Proof.
  induction s as [|c r IH]; [reflexivity|].
  cbn [encodeURIComponent]. destruct (unreserved c) eqn:U; cbv zeta; cbn [all_chars].
  - unfold url_char at 1. now rewrite U, IH.
  - destruct (hex_digit_unreserved c) as [H1 H2].
    unfold url_char at 2 3. rewrite H1, H2, IH. reflexivity.
Qed.

Lemma encodeURIComponent_unreserved s :
  all_chars unreserved s = true -> encodeURIComponent s = s.
Proof.
  induction s as [|c r IH]; [reflexivity|]. simpl. intros H.
  apply andb_true_iff in H. destruct H as [H1 H2]. now rewrite H1, (IH H2).
Qed.

Lemma url_chars_free c s :
  url_char c = false -> all_chars url_char s = true -> free_of c s = true.
Proof.
  intros Hc. induction s as [|a r IH]; [reflexivity|]. simpl. intros H.
  apply andb_true_iff in H. destruct H as [H1 H2]. rewrite (IH H2), andb_true_r.
  apply negb_true_iff. destruct (Ascii.eqb a c) eqn:E; [|reflexivity].
  apply Ascii.eqb_eq in E. subst a. congruence.
Qed.

Lemma loginUrl_not_status username password :
  includes (loginUrl username password) "/status" = false.
Proof.
  set (rest := "login?var=callBack" ++ "&username=" ++
               encodeURIComponent (trim username) ++ "&password=" ++
               encodeURIComponent password).
  change (loginUrl username password) with (String "/" rest).
  assert (F : free_of "/" rest = true).
  { unfold rest. rewrite !free_of_app.
    rewrite !(url_chars_free "/" _ eq_refl (encodeURIComponent_chars _)).
    reflexivity. }
  cbn [includes]. rewrite (includes_free "/" "status" rest F).
  rewrite orb_false_r. unfold rest. vm_compute. reflexivity.
Qed.

End Addresses.

(** X3. [encodeURIComponent] yields only unreserved characters and percent
    signs, leaves a text of unreserved characters as it is, and so no
    credentials can make the login address look like a status address. *)
Theorem X3_encodeURIComponent_safe (s password : string) :
  all_chars url_char (encodeURIComponent s) = true
  /\ (all_chars unreserved s = true -> encodeURIComponent s = s)
  /\ free_of "&" (encodeURIComponent s) = true
  /\ free_of "=" (encodeURIComponent s) = true
  /\ free_of "/" (encodeURIComponent s) = true
  /\ includes (loginUrl s password) "/status" = false.
Proof.
  split; [apply encodeURIComponent_chars|].
  split; [apply encodeURIComponent_unreserved|].
  repeat split; try (apply url_chars_free; [reflexivity | apply encodeURIComponent_chars]).
  apply loginUrl_not_status.
Qed.

Lemma X3_encodeURIComponent_safe_witness :
  encodeURIComponent "ab12cd" = "ab12cd"
  /\ includes (loginUrl "a b" "p&w/status") "/status" = false.
Proof.
  split.
  - apply (proj1 (proj2 (X3_encodeURIComponent_safe "ab12cd" "pw"))). reflexivity.
  - apply (X3_encodeURIComponent_safe "a b" "p&w/status").
Defined.

(** X4. Masking keeps the length of an ASCII identifier of two or more
    characters that holds no trial marker, and stars at least half of it: the
    result is a shown part followed by stars only, and the shown part is no
    longer than the starred part. *)
Theorem X4_hideHalfCard_lengths (username : string) :
  ascii_text username = true ->
  includes (toLowerCase username) "t-" = false ->
  2 <= String.length username ->
  exists shown stars,
    hideHalfCard (JStr username) = shown ++ repeat_char "*" stars
    /\ shown = substring 0 (String.length shown) (toLowerCase username)
    /\ String.length shown + stars = String.length username
    /\ String.length shown <= stars
    /\ String.length (hideHalfCard (JStr username)) = String.length username.
Proof.
  intros _ Ht Hn.
  set (n := String.length username) in *.
  assert (L : String.length (toLowerCase username) = n) by apply toLowerCase_length.
  assert (E : String.eqb username "" = false).
  { destruct username; [simpl in n; unfold n in Hn; lia | reflexivity]. }
  exists (substring 0 (n / 2) (toLowerCase username)), ((n + 1) / 2).
  assert (D : n / 2 <= n) by (apply Nat.Div0.div_le_upper_bound; lia).
  assert (LS : String.length (substring 0 (n / 2) (toLowerCase username)) = n / 2)
    by (apply length_substring_0; lia).
  assert (H1 : hideHalfCard (JStr username)
               = substring 0 (n / 2) (toLowerCase username)
                 ++ repeat_char "*" ((n + 1) / 2)).
  { unfold hideHalfCard. rewrite E, Ht. cbv zeta. rewrite L.
    destruct (n <? 2)%nat eqn:T; [apply Nat.ltb_lt in T; lia|].
    now rewrite floor_half, ceil_half. }
  pose proof (Nat.div_mod_eq n 2) as M1.
  pose proof (Nat.div_mod_eq (n + 1) 2) as M2.
  pose proof (Nat.mod_upper_bound n 2) as B1.
  pose proof (Nat.mod_upper_bound (n + 1) 2) as B2.
  split; [exact H1|]. split; [now rewrite LS|].
  split; [rewrite LS; lia|]. split; [rewrite LS; lia|].
  rewrite H1, length_append, LS, length_repeat_char. lia.
Qed.

Lemma X4_hideHalfCard_lengths_witness :
  exists shown stars,
    hideHalfCard (JStr "Ab12cdE") = shown ++ repeat_char "*" stars
    /\ shown = substring 0 (String.length shown) (toLowerCase "Ab12cdE")
    /\ String.length shown + stars = String.length "Ab12cdE"
    /\ String.length shown <= stars
    /\ String.length (hideHalfCard (JStr "Ab12cdE")) = String.length "Ab12cdE".
Proof.
  apply (X4_hideHalfCard_lengths "Ab12cdE"); [reflexivity | reflexivity | simpl; lia].
Defined.

(** X5. No row of the error table is shadowed: a raw text that is a
    single-keyword key of the table, in any letter case, maps to the text of
    that very row. *)
Theorem X5_errorMap_rows_reachable (key text raw : string) :
  In (key, text) simple_rules -> toLowerCase raw = key ->
  toArabicError (JStr raw) = text.
Proof.
  intros Hin Hl.
  assert (Hne : raw <> "").
  { intros ->. simpl in Hl. subst key. rewrite simple_rules_eq in Hin.
    simpl in Hin. repeat (destruct Hin as [Hin|Hin]; [discriminate Hin|]).
    contradiction. }
  rewrite (toArabicError_localized raw Hne). unfold localized. rewrite Hl.
  rewrite simple_rules_eq in Hin. simpl in Hin.
  repeat (destruct Hin as [Hin|Hin];
          [injection Hin as <- <-; vm_compute; reflexivity|]).
  contradiction.
Qed.

Lemma X5_errorMap_rows_reachable_witness :
  toArabicError (JStr "No More Sessions Are Allowed") = msg_in_use.
Proof.
  apply (X5_errorMap_rows_reachable "no more sessions are allowed" msg_in_use).
  - rewrite simple_rules_eq. simpl. right. right. left. reflexivity.
  - reflexivity.
Defined.

(** X6. Amounts near a unit boundary: a byte count in the kilobyte range
    prints an amount between 1 and 1024 kilobytes, and prints 1024 exactly
    when it is within 512 bytes of a megabyte; likewise a count in the
    megabyte range prints between 1 and 1024 megabytes, 1024 exactly when it
    is within half a megabyte of a gigabyte. *)
Theorem X6_toArabicBytes_boundaries (bytes : jvalue) (n : Z) :
  Number bytes = NInt n ->
  ((1024 <= n < 1048576)%Z ->
     toArabicBytes bytes
     = Some (JStr (string_of_Z (round_div n 1024) ++ " كيلوبايت"))
     /\ (1 <= round_div n 1024 <= 1024)%Z
     /\ (round_div n 1024 = 1024 <-> 1048064 <= n)%Z)
  /\ ((1048576 <= n < 1073741824)%Z ->
        toArabicBytes bytes
        = Some (JStr (string_of_Z (round_div n 1048576) ++ " ميغابايت"))
        /\ (1 <= round_div n 1048576 <= 1024)%Z
        /\ (round_div n 1048576 = 1024 <-> 1073217536 <= n)%Z).
Proof.
  intros HN. unfold toArabicBytes. rewrite HN. split; intros [H1 H2].
  - destruct (n <? 1024)%Z eqn:E1; [apply Z.ltb_lt in E1; lia|].
    destruct (n <? 1048576)%Z eqn:E2; [|apply Z.ltb_ge in E2; lia].
    split; [reflexivity|]. unfold round_div.
    pose proof (Z.div_mod (2 * n + 1024) (2 * 1024)) as D.
    pose proof (Z.mod_pos_bound (2 * n + 1024) (2 * 1024)) as B.
    lia.
  - destruct (n <? 1024)%Z eqn:E1; [apply Z.ltb_lt in E1; lia|].
    destruct (n <? 1048576)%Z eqn:E2; [apply Z.ltb_lt in E2; lia|].
    destruct (n <? 1073741824)%Z eqn:E3; [|apply Z.ltb_ge in E3; lia].
    split; [reflexivity|]. unfold round_div.
    pose proof (Z.div_mod (2 * n + 1048576) (2 * 1048576)) as D.
    pose proof (Z.mod_pos_bound (2 * n + 1048576) (2 * 1048576)) as B.
    lia.
Qed.

Lemma X6_toArabicBytes_boundaries_witness :
  toArabicBytes (JNum 1048575) = Some (JStr "1024 كيلوبايت")
  /\ toArabicBytes (JStr "1073741823") = Some (JStr "1024 ميغابايت").
Proof.
  split.
  - refine (proj1 (proj1 (X6_toArabicBytes_boundaries (JNum 1048575) 1048575 eq_refl) _)).
    lia.
  - refine (proj1 (proj2 (X6_toArabicBytes_boundaries (JStr "1073741823") 1073741823
                            eq_refl) _)).
    lia.
Defined.

Lemma all_numeric_blank s :
  Js.trim s = "" -> Number_of_string s = NInt 0.
Proof. intros H. unfold Number_of_string. now rewrite H. Qed.

(** X7. Arguments that JavaScript counts as zero are formatted, not
    returned: blank text (empty or only white space), [null] and [false] all
    give 0 bytes, and [true] gives 1 byte. *)
Theorem X7_toArabicBytes_blank (s : string) :
  trim s = "" ->
  toArabicBytes (JStr s) = Some (JStr "0 بايت")
  /\ toArabicBytes JNull = Some (JStr "0 بايت")
  /\ toArabicBytes (JBool false) = Some (JStr "0 بايت")
  /\ toArabicBytes (JBool true) = Some (JStr "1 بايت")
  /\ toArabicBytes JUndefined = Some JUndefined.
Proof.
  intros H. split; [|repeat split].
  unfold toArabicBytes. simpl Number. rewrite (all_numeric_blank s H). reflexivity.
Qed.

Lemma X7_toArabicBytes_blank_witness :
  toArabicBytes (JStr "   ") = Some (JStr "0 بايت").
Proof. apply (X7_toArabicBytes_blank "   "). reflexivity. Defined.

Import Session Tokens.

(** ** What each step of the script leaves alone *)

Section Frames.

Variable pg : Page.

Lemma showLoginSection_frame st :
  let st' := showLoginSection st in
  isAnimating st' = isAnimating st /\ hotspotApiData st' = hotspotApiData st
  /\ form st' = form st /\ completed st' = completed st
  /\ nextTimerId st' = nextTimerId st /\ sections st' = loginUp.
Proof. destruct st; repeat split; reflexivity. Qed.

Lemma showStatusSection_frame st :
  let st' := showStatusSection st in
  isAnimating st' = isAnimating st /\ hotspotApiData st' = hotspotApiData st
  /\ form st' = form st /\ completed st' = completed st
  /\ calls st' = calls st /\ errorView st' = errorView st
  /\ sections st' = statusUp.
Proof. destruct st; repeat split; reflexivity. Qed.

Lemma displayJsError_frame message st :
  let st' := displayJsError message st in
  isAnimating st' = isAnimating st /\ isLoggedIn st' = isLoggedIn st
  /\ statusPollInterval st' = statusPollInterval st /\ intervals st' = intervals st
  /\ nextTimerId st' = nextTimerId st /\ requests st' = requests st
  /\ completed st' = completed st /\ calls st' = calls st /\ form st' = form st
  /\ sections st' = sections st /\ statusFields st' = statusFields st
  /\ timeouts st' = timeouts st /\ hotspotApiData st' = hotspotApiData st
  /\ errorView st' = shown message (errorView st).
Proof. destruct st; repeat split; reflexivity. Qed.

Lemma handleLoggedOut_frame st :
  let st' := handleLoggedOut st in
  hotspotApiData st' = hotspotApiData st
  /\ sections st' = loginUp /\ errorView st' = cleared (errorView st).
Proof. split_state st; repeat split; reflexivity. Qed.

Lemma enterLoggedIn_frame st :
  let st' := enterLoggedIn pg st in
  isAnimating st' = isAnimating st /\ hotspotApiData st' = hotspotApiData st
  /\ completed st' = completed st /\ sections st' = sections st
  /\ form st' = formDefaults pg /\ errorView st' = cleared (errorView st)
  /\ calls st' = (calls st ++ loginCalls pg)%list.
Proof.
  unfold loginCalls.
  split_state st; unfold enterLoggedIn; unfold_script; simpl;
    destruct (rememberChecked (formDefaults pg) && hasRemember pg);
    destruct (hasResetCounter pg); simpl; rewrite ?app_nil_r, <- ?app_assoc;
    repeat split; reflexivity.
Qed.

Lemma updateStatusFields_frame data st :
  let st' := stateOf (updateStatusFields data st) in
  isAnimating st' = isAnimating st /\ hotspotApiData st' = hotspotApiData st
  /\ completed st' = completed st /\ sections st' = sections st
  /\ form st' = form st /\ errorView st' = errorView st /\ calls st' = calls st
  /\ timeouts st' = timeouts st.
Proof.
  intros st'. unfold st'. destruct (updateStatusFields_fields data st) as [fields ->].
  destruct st; repeat split; reflexivity.
Qed.



Lemma stateOf_andThen c f :
  stateOf (andThen c f) = match c with Normal s => f s | Thrown s => s end.
Proof. destruct c; reflexivity. Qed.

Lemma getRequest_sends u cb st :
  fileProtocol pg = false ->
  getRequest pg u cb st
  = set_requests (requests st ++ [{| url := u; callbackError := cb |}]) st.
Proof. intros H. unfold getRequest. now rewrite H. Qed.

Lemma set_requests_frame l st :
  let st' := set_requests l st in
  isAnimating st' = isAnimating st /\ isLoggedIn st' = isLoggedIn st
  /\ statusPollInterval st' = statusPollInterval st /\ intervals st' = intervals st
  /\ nextTimerId st' = nextTimerId st /\ requests st' = l
  /\ completed st' = completed st /\ calls st' = calls st /\ form st' = form st
  /\ sections st' = sections st /\ statusFields st' = statusFields st
  /\ timeouts st' = timeouts st /\ hotspotApiData st' = hotspotApiData st
  /\ errorView st' = errorView st.
Proof. destruct st; repeat split; reflexivity. Qed.

(** What [startStatusPolling] never touches. *)
Lemma startStatusPolling_frame st :
  fileProtocol pg = false ->
  let st' := startStatusPolling pg st in
  isAnimating st' = isAnimating st /\ isLoggedIn st' = isLoggedIn st
  /\ completed st' = completed st /\ calls st' = calls st /\ form st' = form st
  /\ sections st' = sections st /\ statusFields st' = statusFields st
  /\ timeouts st' = timeouts st /\ hotspotApiData st' = hotspotApiData st
  /\ errorView st' = errorView st.
Proof.
  intros Hp. unfold startStatusPolling, getRequest. rewrite Hp.
  destruct st as [? ? [h|] ? ? ? ? ? ? ? ? ? ? ?]; simpl;
    [repeat split; reflexivity|].
  match goal with |- context [negb ?b] => destruct b end; repeat split; reflexivity.
Qed.

End Frames.

(** ** The login transition and the start of the page *)



(** The statements after a call that may raise leave the helper calls
    alone. *)
Lemma calls_after_update (pg : Page) (c : Completion) :
  fileProtocol pg = false ->
  calls (stateOf (andThen c (fun st1 => startStatusPolling pg (showStatusSection st1))))
  = calls (stateOf c).
Proof.
  intros Hp. destruct c as [s|s]; [|reflexivity]. cbn [andThen stateOf].
  destruct (startStatusPolling_frame pg (showStatusSection s) Hp) as (_ & _ & _ & D & _).
  destruct (showStatusSection_frame s) as (_ & _ & _ & _ & S & _).
  now rewrite D, S.
Qed.

(** X9. Which helper scripts the login transition calls does not depend on
    the state of the form: [remember] is called exactly when the box is
    ticked by default and the script is loaded, because the form is reset
    before the box is read, whatever the user ticked. *)
Theorem X9_remember_by_default (pg : Page) (data : Envelope) (st : State) :
  fileProtocol pg = false ->
  calls (stateOf (handleLoggedIn pg data st)) = (calls st ++ loginCalls pg)%list
  /\ (In Remember (loginCalls pg) <->
      rememberChecked (formDefaults pg) = true /\ hasRemember pg = true).
Proof.
  intros Hp. split.
  - rewrite handleLoggedIn_eq, (calls_after_update pg _ Hp).
    destruct (enterLoggedIn_frame pg st) as (_ & _ & _ & _ & _ & _ & A).
    destruct (truthy (prop data "logged_in")).
    + destruct (updateStatusFields_frame data (enterLoggedIn pg st))
        as (_ & _ & _ & _ & _ & _ & U & _).
      now rewrite U.
    + cbn [stateOf].
      destruct (showLoginSection_kept (handleLoggedOut (enterLoggedIn pg st)))
        as (_ & _ & _ & _ & _ & _ & L & _).
      rewrite L.
      destruct (handleLoggedOut_kept (enterLoggedIn pg st)) as (_ & _ & _ & K & _).
      now rewrite K.
  - unfold loginCalls.
    destruct (rememberChecked (formDefaults pg)), (hasRemember pg),
      (hasResetCounter pg); simpl; intuition congruence.
Qed.

Lemma X9_remember_by_default_witness :
  calls (stateOf (handleLoggedIn Sample.page Sample.loginAnswer
                    (set_form Sample.credentials Sample.loggedOut)))
  = (calls Sample.loggedOut ++ loginCalls Sample.page)%list.
Proof.
  apply (X9_remember_by_default Sample.page Sample.loginAnswer
           (set_form Sample.credentials Sample.loggedOut)).
  reflexivity.
Defined.

Section Starts.

Variable pg : Page.

Lemma not_strictly_true v : v <> JBool true -> jvalue_eqb v (JBool true) = false.
Proof.
  destruct v as [| | [|] | z | s]; try reflexivity. intros H. now contradiction H.
Qed.

End Starts.

(** X10. The probe handler is strict: unless [logged_in] is the boolean
    [true] (a truthy text or number does not count), [handleLoginStart]
    ends logged out with no poll timer and no request sent, keeps the
    envelope, clears the error display, puts the login section up and calls
    the cookie login once when that script is loaded. *)
Theorem X10_handleLoginStart_strict (pg : Page) (data : Envelope) (st : State) :
  prop data "logged_in" <> JBool true ->
  let st' := stateOf (handleLoginStart pg data st) in
  handleLoginStart pg data st = Normal st'
  /\ isLoggedIn st' = false /\ pollingStopped st st'
  /\ requests st' = requests st
  /\ calls st' = (calls st ++ cookieCalls pg)%list
  /\ hotspotApiData st' = Some data
  /\ sections st' = loginUp /\ errorView st' = cleared (errorView st).
Proof.
  intros H st'. unfold st', handleLoginStart.
  set (st2 := set_isLoggedIn _ (set_hotspotApiData (Some data) st)).
  assert (E : isLoggedIn st2 = false).
  { unfold st2. rewrite (not_strictly_true _ H). destruct st; reflexivity. }
  rewrite E. cbn [stateOf]. split; [reflexivity|].
  destruct (logout_then_login st2) as (L1 & L2 & L3 & L4 & _ & _ & L7 & L8 & L9 & _).
  assert (K : statusPollInterval st2 = statusPollInterval st /\ requests st2 = requests st
              /\ calls st2 = calls st /\ hotspotApiData st2 = Some data
              /\ errorView st2 = errorView st)
    by (unfold st2; destruct st; repeat split; reflexivity).
  destruct K as (K1 & K2 & K3 & K4 & K5).
  set (st4 := showLoginSection (handleLoggedOut st2)) in *.
  unfold cookieCalls.
  assert (F : forall s : State,
             let s' := if hasHotCookie pg then call CookieLogin s else s in
             isLoggedIn s' = isLoggedIn s /\ statusPollInterval s' = statusPollInterval s
             /\ intervals s' = intervals s /\ requests s' = requests s
             /\ calls s' = (calls s ++ (if hasHotCookie pg then [CookieLogin] else []))%list
             /\ hotspotApiData s' = hotspotApiData s /\ sections s' = sections s
             /\ errorView s' = errorView s).
  { intros s. destruct (hasHotCookie pg); destruct s; simpl;
      rewrite ?app_nil_r; repeat split; reflexivity. }
  destruct (F st4) as (F1 & F2 & F3 & F4 & F5 & F6 & F7 & F8).
  split; [now rewrite F1|].
  split.
  { destruct L2 as [P1 P2]. split; [now rewrite F2|].
    intros h Hh. rewrite F3. apply P2. now rewrite K1. }
  split; [now rewrite F4, L3|].
  split; [now rewrite F5, L4, K3|].
  split; [now rewrite F6, L7|].
  split; [now rewrite F7|]. now rewrite F8, L9, K5.
Qed.

Lemma X10_handleLoginStart_strict_witness :
  let data := Sample.envelope [("action", JStr "onLoginStart");
                               ("logged_in", JStr "true")] in
  let st' := stateOf (handleLoginStart Sample.page data Sample.start) in
  truthy (prop data "logged_in") = true
  /\ handleLoginStart Sample.page data Sample.start = Normal st'
  /\ isLoggedIn st' = false /\ requests st' = requests Sample.start.
Proof.
  intros data st'. split; [vm_compute; reflexivity|].
  assert (N : prop data "logged_in" <> JBool true) by (vm_compute; discriminate).
  destruct (X10_handleLoginStart_strict Sample.page data Sample.start N)
    as (H0 & H1 & _ & H3 & _).
  split; [exact H0|]. split; [exact H1 | exact H3].
Defined.

(** X11. [init] always ends with every section hidden.  Over HTTP it sends
    the probe and changes nothing else of the session; opened from a file it
    sends nothing, runs the logout transition and the cookie login, and the
    login section that the file guard put up is hidden again. *)
Theorem X11_init_hides_sections (pg : Page) (st : State) :
  let st' := init pg st in
  sections st' = allHidden
  /\ (fileProtocol pg = false ->
        requests st' = (requests st ++ [probeRequest])%list
        /\ isLoggedIn st' = isLoggedIn st
        /\ statusPollInterval st' = statusPollInterval st
        /\ calls st' = calls st /\ errorView st' = errorView st)
  /\ (fileProtocol pg = true ->
        requests st' = requests st /\ isLoggedIn st' = false
        /\ statusPollInterval st' = None
        /\ calls st' = (calls st ++ cookieCalls pg)%list).
Proof.
  intros st'. unfold st', init.
  split; [destruct (getRequest pg LOGIN_STATUS NoCallback st); reflexivity|].
  split; intros Hp; unfold getRequest; rewrite Hp.
  - destruct st; repeat split; reflexivity.
  - unfold cookieCalls.
    split_state st; destruct (hasHotCookie pg); simpl; rewrite ?app_nil_r;
      repeat split; reflexivity.
Qed.

Lemma X11_init_hides_sections_witness :
  requests (init Sample.page Sample.start)
  = (requests Sample.start ++ [probeRequest])%list.
Proof.
  apply (proj1 (proj2 (X11_init_hides_sections Sample.page Sample.start))).
  reflexivity.
Defined.

(** X12. [doUserLogin].  With a blank user name (empty or only white space)
    nothing is sent: the missing-name message is put up and [isAnimating] is
    lowered.  With any other ASCII user name, over HTTP, the error display
    is cleared, [isAnimating] is raised and exactly one request is sent, to
    the login address with the trimmed user name and the untrimmed password
    encoded, carrying the login error callback; the session flags do not
    change. *)
Theorem X12_doUserLogin (pg : Page) (st : State) :
  let st' := doUserLogin pg st in
  let username := usernameValue (form st) in
  let password := passwordValue (form st) in
  (trim username = "" ->
     requests st' = requests st /\ isAnimating st' = false
     /\ errorView st' = shown msg_no_username (errorView st)
     /\ isLoggedIn st' = isLoggedIn st)
  /\ (ascii_text username = true -> trim username <> "" -> fileProtocol pg = false ->
        requests st' =
        (requests st ++ [{| url := loginUrl username password;
                            callbackError := LoginFailed |}])%list
        /\ isAnimating st' = true
        /\ errorView st' = cleared (errorView st)
        /\ isLoggedIn st' = isLoggedIn st
        /\ statusPollInterval st' = statusPollInterval st
        /\ form st' = form st).
Proof.
  intros st' username password. unfold st', doUserLogin. fold username password.
  split.
  - intros E. rewrite E. simpl. destruct st; repeat split; reflexivity.
  - intros _ E Hp. destruct (trim username) eqn:T; [contradiction|].
    simpl. unfold getRequest. rewrite Hp. unfold loginUrl. rewrite T.
    split_state st; repeat split; reflexivity.
Qed.

Lemma X12_doUserLogin_witness :
  (let st := set_form {| usernameValue := "   "; passwordValue := "pw";
                         rememberChecked := false |} Sample.loggedOut in
   requests (doUserLogin Sample.page st) = requests st)
  /\ (let st := set_form Sample.credentials Sample.loggedOut in
      requests (doUserLogin Sample.page st)
      = (requests st ++ [{| url := loginUrl "ab12cd" "pw";
                            callbackError := LoginFailed |}])%list).
Proof.
  split.
  - intros st.
    apply (proj1 (X12_doUserLogin Sample.page st)). reflexivity.
  - intros st.
    apply (proj2 (X12_doUserLogin Sample.page st));
      [reflexivity | discriminate | reflexivity].
Defined.

(** X13. [doUserLogout] over HTTP is not optimistic: it raises
    [isAnimating], sends exactly one request, to the logout address chosen
    by the erase-cookie flag, with the logout error callback, and leaves the
    logged-in flag, the poll timer and the page as they were until the answer
    arrives. *)
Theorem X13_doUserLogout (pg : Page) (eraseCookie : bool) (st : State) :
  fileProtocol pg = false ->
  let st' := doUserLogout pg eraseCookie st in
  requests st' = (requests st ++ [logoutRequest eraseCookie])%list
  /\ isAnimating st' = true
  /\ isLoggedIn st' = isLoggedIn st
  /\ statusPollInterval st' = statusPollInterval st
  /\ intervals st' = intervals st
  /\ sections st' = sections st /\ errorView st' = errorView st
  /\ statusFields st' = statusFields st
  /\ timeouts st' = (timeouts st ++ [LogoutFallback])%list.
Proof.
  intros Hp st'. unfold st', doUserLogout, getRequest. rewrite Hp.
  destruct st; repeat split; reflexivity.
Qed.

Lemma X13_doUserLogout_witness :
  let st' := doUserLogout Sample.page true Sample.loggedIn in
  requests st' = (requests Sample.loggedIn ++ [logoutRequest true])%list
  /\ isLoggedIn st' = isLoggedIn Sample.loggedIn.
Proof.
  destruct (X13_doUserLogout Sample.page true Sample.loggedIn eq_refl)
    as (H1 & _ & H3 & _).
  split; [exact H1 | exact H3].
Defined.

(** ** Login errors *)

(** X14. [handleLoginError].  Whatever the envelope, both flags end lowered
    and the form, the requests, the poll timer and the sections are left
    alone.  Without an error text nothing is displayed.  An error text that
    holds the retry marker (in any letter case) puts up the retry prompt and
    calls no helper script; any other text puts up its localized message,
    then calls the blocker (increment, then check) when it is enabled and
    loaded, and the cookie clearing when loaded.  A truthy error that is not
    a text makes the handler raise after lowering the flags. *)
Theorem X14_handleLoginError (pg : Page) (data : Envelope) (st : State) :
  let error := prop data "error" in
  let st' := stateOf (handleLoginError pg data st) in
  (isLoggedIn st' = false /\ isAnimating st' = false /\ form st' = form st
   /\ requests st' = requests st /\ statusPollInterval st' = statusPollInterval st
   /\ intervals st' = intervals st /\ sections st' = sections st)
  /\ (truthy error = false ->
        handleLoginError pg data st = Normal st'
        /\ errorView st' = errorView st /\ calls st' = calls st)
  /\ (forall text, error = JStr text -> text <> "" ->
        handleLoginError pg data st = Normal st'
        /\ (includes (toLowerCase text) retry_marker = true ->
              errorView st' = shown msg_retry (errorView st) /\ calls st' = calls st)
        /\ (includes (toLowerCase text) retry_marker = false ->
              errorView st' = shown (toArabicError (JStr text)) (errorView st)
              /\ calls st' = (calls st ++ failureCalls pg)%list))
  /\ (truthy error = true -> (forall text, error <> JStr text) ->
        handleLoginError pg data st = Thrown st'
        /\ errorView st' = errorView st /\ calls st' = calls st).
Proof.
  intros error st'. unfold st', handleLoginError. fold error.
  split; [|split; [|split]].
  - set (m := toArabicError error). clearbody m.
    destruct (truthy error); [|destruct st; repeat split; reflexivity].
    destruct error as [| | b | z | text]; try (destruct st; repeat split; reflexivity).
    destruct (negb (includes (toLowerCase text) retry_marker));
      [|destruct st; repeat split; reflexivity].
    destruct (blockerEnabled pg), (hasBlockerFns pg), (hasClearCookies pg);
      destruct st; repeat split; reflexivity.
  - intros H. rewrite H. destruct st; repeat split; reflexivity.
  - intros text E Hne. rewrite E.
    assert (T : truthy (JStr text) = true).
    { cbn [truthy]. apply negb_true_iff. now apply String.eqb_neq. }
    rewrite T.
    set (m := toArabicError (JStr text)). clearbody m.
    destruct (includes (toLowerCase text) retry_marker) eqn:R; cbn [negb].
    + split; [reflexivity|]. split; [|discriminate].
      intros _. destruct st; split; reflexivity.
    + split; [reflexivity|]. split; [discriminate|]. intros _.
      unfold failureCalls.
      destruct (blockerEnabled pg), (hasBlockerFns pg), (hasClearCookies pg);
        destruct st; cbn; rewrite ?app_nil_r, <- ?app_assoc; split; reflexivity.
  - intros T N. rewrite T.
    set (m := toArabicError error). clearbody m.
    destruct error as [| | b | z | text]; try (destruct st; repeat split; reflexivity).
    now contradiction (N text).
Qed.

Lemma X14_handleLoginError_witness :
  let data := Sample.envelope [("action", JStr "onLoginError");
                               ("error", JStr "invalid password")] in
  let st' := stateOf (handleLoginError Sample.page data Sample.loggedOut) in
  handleLoginError Sample.page data Sample.loggedOut = Normal st'
  /\ calls st' = (calls Sample.loggedOut ++ failureCalls Sample.page)%list.
Proof.
  intros data st'.
  assert (E : prop data "error" = JStr "invalid password") by (vm_compute; reflexivity).
  assert (N : "invalid password" <> "") by discriminate.
  destruct (proj1 (proj2 (proj2 (X14_handleLoginError Sample.page data Sample.loggedOut)))
              "invalid password" E N) as (H1 & _ & H3).
  split; [exact H1|]. apply H3. reflexivity.
Defined.

(** X15. A login error does not stop the poller, so a held timer then
    contradicts the lowered flag; the next run of that timer finds the flag
    down, sends nothing and clears itself, which restores the invariant. *)
Theorem X15_login_error_then_tick (pg : Page) (data : Envelope) (st : State) (h : nat) :
  statusPollInterval st = Some h -> In h (List.map fst (intervals st)) ->
  let st1 := stateOf (handleLoginError pg data st) in
  let st2 := step pg (Tick h) st1 in
  (statusPollInterval st1 = Some h /\ isLoggedIn st1 = false /\ ~ pollerInvariant st1)
  /\ statusPollInterval st2 = None
  /\ ~ In h (List.map fst (intervals st2))
  /\ requests st2 = requests st
  /\ pollerInvariant st2.
Proof.
  intros Hh Hin st1 st2.
  assert (F : isLoggedIn st1 = false /\ statusPollInterval st1 = Some h
              /\ intervals st1 = intervals st /\ requests st1 = requests st).
  { unfold st1, handleLoginError.
    rewrite <- Hh.
    set (m := toArabicError (prop data "error")). clearbody m.
    destruct (truthy (prop data "error"));
      [|destruct st; repeat split; reflexivity].
    destruct (prop data "error") as [| | b | z | text];
      try (destruct st; repeat split; reflexivity).
    destruct (negb (includes (toLowerCase text) retry_marker));
      [|destruct st; repeat split; reflexivity].
    destruct (blockerEnabled pg), (hasBlockerFns pg), (hasClearCookies pg);
      destruct st; repeat split; reflexivity. }
  destruct F as (F1 & F2 & F3 & F4).
  assert (E : st2 = stopStatusPolling st1).
  { unfold st2. simpl.
    assert (X : existsb (fun p => Nat.eqb (fst p) h) (intervals st1) = true).
    { rewrite F3. apply in_map_iff in Hin. destruct Hin as [[a b] [Ea Hin]].
      simpl in Ea. subst a. apply existsb_exists. exists (h, b).
      split; [exact Hin | apply Nat.eqb_refl]. }
    rewrite X. unfold pollTick. now rewrite F1. }
  split.
  { split; [exact F2|]. split; [exact F1|].
    intros I. unfold pollerInvariant in I. rewrite F1, F2 in I.
    assert (C : false = true) by (apply I; discriminate). discriminate C. }
  destruct (stopStatusPolling_stops st1) as [S1 S2].
  rewrite E. split; [exact S1|]. split; [apply (S2 h F2)|].
  split.
  - rewrite <- F4. destruct st1 as [? ? [x|] ? ? ? ? ? ? ? ? ? ? ?]; reflexivity.
  - intros N. congruence.
Qed.

Lemma X15_login_error_then_tick_witness :
  let data := Sample.envelope [("action", JStr "onLoginError")] in
  let st1 := stateOf (handleLoginError Sample.page data Sample.loggedIn) in
  let st2 := step Sample.page (Tick 1) st1 in
  statusPollInterval st1 = Some 1 /\ isLoggedIn st1 = false
  /\ statusPollInterval st2 = None /\ pollerInvariant st2.
Proof.
  intros data st1 st2.
  assert (P : statusPollInterval Sample.loggedIn = Some 1) by (vm_compute; reflexivity).
  assert (I : In 1 (List.map fst (intervals Sample.loggedIn)))
    by (vm_compute; left; reflexivity).
  destruct (X15_login_error_then_tick Sample.page data Sample.loggedIn 1 P I)
    as ((H1 & H2 & _) & H3 & _ & _ & H5).
  split; [exact H1|]. split; [exact H2|]. split; [exact H3 | exact H5].
Defined.

(** ** Failed requests, by the kind of request *)

Section Failures.

Variable pg : Page.

Lemma unrecognized_dispatch data :
  recognized data = false ->
  (if truthy (prop data "action") then apiActionHandlers (prop data "action") else None)
  = None.
Proof.
  unfold recognized. destruct (truthy (prop data "action")); [|reflexivity].
  destruct (apiActionHandlers (prop data "action")); [discriminate | reflexivity].
Qed.

(** The callbacks of a failed outcome, for a request that is no status
    poll: one report, or two when the request ended without a response. *)
Lemma deliver_failed r o st :
  includes (url r) "/status" = false -> failed o ->
  deliver pg r o st =
  match o with
  | Success _ =>
      runCallbackError (callbackError r) (failureMessage o) (set_isAnimating false st)
  | NetworkError | TimedOut =>
      report r (failureMessage o) (report r (firstMessage o) st)
  | _ => report r (failureMessage o) st
  end.
Proof.
  intros Hu Hf. destruct o as [data | | status | |]; cbn [deliver failed] in *.
  - unfold onreadystatechange. change (Z.eqb 200 200) with true. cbv iota.
    rewrite (unrecognized_dispatch data Hf), Hu. reflexivity.
  - unfold onreadystatechange, parseFailed, report. change (Z.eqb 200 200) with true.
    cbv iota. rewrite Hu. reflexivity.
  - unfold onreadystatechange, report.
    destruct (Z.eqb status 200) eqn:E; [apply Z.eqb_eq in E; contradiction|].
    rewrite Hu. reflexivity.
  - unfold onerror, onreadystatechange, report.
    change (Z.eqb 0 200) with false. cbv iota. rewrite Hu. reflexivity.
  - unfold ontimeout, onreadystatechange, report.
    change (Z.eqb 0 200) with false. cbv iota. rewrite Hu. reflexivity.
Qed.

(** The callbacks of a failed outcome of a status poll. *)
Lemma deliver_failed_poll o st :
  failed o ->
  deliver pg pollRequest o st =
  match o with
  | NetworkError =>
      set_isAnimating false
        (showLoginSection (handleLoggedOut (set_isAnimating false st)))
  | TimedOut =>
      showLoginSection (handleLoggedOut (set_isAnimating false
        (showLoginSection (handleLoggedOut (set_isAnimating false st)))))
  | _ => showLoginSection (handleLoggedOut (set_isAnimating false st))
  end.
Proof.
  intros Hf. destruct o as [data | | status | |]; cbn [failed] in *.
  - cbn [deliver]. unfold onreadystatechange. change (Z.eqb 200 200) with true.
    cbv iota. rewrite (unrecognized_dispatch data Hf). reflexivity.
  - reflexivity.
  - cbn [deliver]. now apply onreadystatechange_poll_error.
  - apply deliver_poll_network.
  - apply deliver_poll_timeout.
Qed.

Lemma lowered_frame st :
  let st' := set_isAnimating false st in
  isLoggedIn st' = isLoggedIn st /\ statusPollInterval st' = statusPollInterval st
  /\ intervals st' = intervals st /\ requests st' = requests st
  /\ form st' = form st /\ statusFields st' = statusFields st
  /\ calls st' = calls st /\ sections st' = sections st
  /\ errorView st' = errorView st /\ isAnimating st' = false.
Proof. destruct st; repeat split; reflexivity. Qed.

(** One report to the closure of [doUserLogin]. *)
Lemma loginFailed_effect m st :
  let st' := loginFailed m (set_isAnimating false st) in
  isLoggedIn st' = isLoggedIn st /\ statusPollInterval st' = statusPollInterval st
  /\ intervals st' = intervals st /\ requests st' = requests st
  /\ form st' = form st /\ statusFields st' = statusFields st
  /\ isAnimating st' = false /\ sections st' = loginUp
  /\ errorView st' =
     if String.eqb (errorText (errorView st)) "" then shown m (errorView st)
     else errorView st.
Proof.
  unfold loginFailed.
  destruct st as [? ? ? ? ? v ? ? ? ? ? ? ? ?]; simpl.
  destruct (String.eqb (errorText v) ""); repeat split; reflexivity.
Qed.

(** One report to the closure of [doUserLogout]. *)
Lemma logoutFailed_effect m st :
  let st' := logoutFailed m (set_isAnimating false st) in
  isLoggedIn st' = false /\ pollingStopped st st'
  /\ requests st' = requests st /\ isAnimating st' = false
  /\ sections st' = loginUp
  /\ errorText (errorView st') = "" /\ errorDisplay (errorView st') = "none"
  /\ intervals st' =
     match statusPollInterval st with
     | Some h => List.filter (fun p => negb (Nat.eqb (fst p) h)) (intervals st)
     | None => intervals st
     end.
Proof.
  unfold logoutFailed.
  match goal with |- context [handleLoggedOut ?x] => set (s1 := x) end.
  assert (K : statusPollInterval s1 = statusPollInterval st
              /\ requests s1 = requests st /\ isAnimating s1 = false
              /\ intervals s1 = intervals st)
    by (unfold s1; destruct st; repeat split; reflexivity).
  destruct K as (K1 & K2 & K3 & K4).
  destruct (logout_then_login s1)
    as (L1 & [L2 L2'] & L3 & _ & L5 & _ & _ & L8 & L9 & L10).
  cbv zeta.
  split; [exact L1|].
  split; [split; [exact L2 | intros h Hh; apply L2'; now rewrite K1]|].
  split; [now rewrite L3|].
  split; [now rewrite L5|].
  split; [exact L8|].
  rewrite L9. split; [reflexivity|]. split; [reflexivity|].
  now rewrite L10, K1, K4.
Qed.

End Failures.

(** X16. No failure of a status poll is ever shown to the user, and every one
    of them logs the user out: an unreadable body, an envelope that names no
    handler, a status other than 200, a timeout, and a network error as well
    (the request reaches [onreadystatechange] with status 0 before [onerror]
    runs) all leave the flag down, the poll timer stopped, the error display
    cleared and the login section up, with nothing sent and no helper
    called. *)
Theorem X16_poll_failures_silent (pg : Page) (o : Outcome) (st : State) :
  failed o ->
  let st' := deliver pg pollRequest o st in
  isLoggedIn st' = false /\ pollingStopped st st'
  /\ errorView st' = cleared (errorView st) /\ sections st' = loginUp
  /\ requests st' = requests st /\ calls st' = calls st.
Proof.
  intros Hf st'. unfold st'. rewrite (deliver_failed_poll pg o st Hf).
  set (st0 := set_isAnimating false st).
  destruct (lowered_frame st) as (A1 & A2 & A3 & A4 & _ & _ & A7 & A8 & A9 & _).
  fold st0 in A1, A2, A3, A4, A7, A8, A9.
  destruct (logout_then_login st0)
    as (L1 & [L2 L2'] & L3 & L4 & _ & _ & _ & L8 & L9 & _).
  set (s1 := showLoginSection (handleLoggedOut st0)) in *.
  assert (P : pollingStopped st s1).
  { split; [exact L2|]. intros h Hh. apply L2'. now rewrite A2. }
  assert (V : errorView s1 = cleared (errorView st))
    by (rewrite L9, A9; reflexivity).
  assert (One : isLoggedIn s1 = false /\ pollingStopped st s1
                /\ errorView s1 = cleared (errorView st) /\ sections s1 = loginUp
                /\ requests s1 = requests st /\ calls s1 = calls st).
  { split; [exact L1|]. split; [exact P|]. split; [exact V|].
    split; [exact L8|]. split; congruence. }
  destruct o; try exact One.
  - destruct One as (O1 & [O2 O2'] & O3 & O4 & O5 & O6).
    destruct (lowered_frame s1) as (B1 & B2 & B3 & B4 & _ & _ & B7 & B8 & B9 & _).
    split; [congruence|].
    split; [split; [congruence | intros h Hh; rewrite B3; now apply O2']|].
    split; [congruence|]. split; [congruence|]. split; congruence.
  - destruct One as (O1 & [O2 O2'] & O3 & O4 & O5 & O6).
    destruct (logout_again st0) as (G1 & G2 & G3 & G4 & G5 & G6 & G7 & _).
    fold s1 in G1, G2, G3, G4, G5, G6, G7.
    split; [exact G1|].
    split; [split; [exact G2 | intros h Hh; rewrite G3; now apply O2']|].
    split; [congruence|]. split; [congruence|]. split; congruence.
Qed.

Lemma X16_poll_failures_silent_witness :
  let st' := deliver Sample.page pollRequest NetworkError Sample.loggedIn in
  isLoggedIn st' = false
  /\ errorView st' = cleared (errorView Sample.loggedIn)
  /\ requests st' = requests Sample.loggedIn.
Proof.
  destruct (X16_poll_failures_silent Sample.page NetworkError Sample.loggedIn I)
    as (L & _ & V & _ & R & _).
  split; [exact L|]. split; [exact V | exact R].
Defined.

(** X17. A failed login request never changes the session: the logged-in
    flag, the poll timer, the requests, the form and the status fields are as
    before, [isAnimating] is lowered and the login section is up.  A message
    is put up only when the error text is empty at that moment, and it is
    the message of the callback that runs first (for a network error or a
    timeout, the one of status 0); otherwise the error display is left
    exactly as it was. *)
Theorem X17_login_request_failures (pg : Page) (r : Request) (o : Outcome) (st : State) :
  callbackError r = LoginFailed -> includes (url r) "/status" = false -> failed o ->
  let st' := deliver pg r o st in
  isLoggedIn st' = isLoggedIn st /\ statusPollInterval st' = statusPollInterval st
  /\ intervals st' = intervals st /\ requests st' = requests st
  /\ form st' = form st /\ statusFields st' = statusFields st
  /\ isAnimating st' = false /\ sections st' = loginUp
  /\ (errorText (errorView st) = "" ->
        errorView st' = shown (firstMessage o) (errorView st))
  /\ (errorText (errorView st) <> "" -> errorView st' = errorView st).
Proof.
  intros Hc Hu Hf st'.
  assert (R : forall m s, report r m s = loginFailed m (set_isAnimating false s)).
  { intros m s. unfold report. rewrite Hc. reflexivity. }
  assert (Once : forall m,
            let s := loginFailed m (set_isAnimating false st) in
            isLoggedIn s = isLoggedIn st /\ statusPollInterval s = statusPollInterval st
            /\ intervals s = intervals st /\ requests s = requests st
            /\ form s = form st /\ statusFields s = statusFields st
            /\ isAnimating s = false /\ sections s = loginUp
            /\ (errorText (errorView st) = "" -> errorView s = shown m (errorView st))
            /\ (errorText (errorView st) <> "" -> errorView s = errorView st)).
  { intros m s. unfold s.
    destruct (loginFailed_effect m st) as (E1 & E2 & E3 & E4 & E5 & E6 & E7 & E8 & E9).
    repeat (split; [assumption|]).
    rewrite E9. split.
    - intros T. now rewrite T.
    - intros T. apply String.eqb_neq in T. now rewrite T. }
  assert (Twice : forall m1 m2, m1 <> "" ->
            let s := loginFailed m2 (set_isAnimating false
                       (loginFailed m1 (set_isAnimating false st))) in
            isLoggedIn s = isLoggedIn st /\ statusPollInterval s = statusPollInterval st
            /\ intervals s = intervals st /\ requests s = requests st
            /\ form s = form st /\ statusFields s = statusFields st
            /\ isAnimating s = false /\ sections s = loginUp
            /\ (errorText (errorView st) = "" -> errorView s = shown m1 (errorView st))
            /\ (errorText (errorView st) <> "" -> errorView s = errorView st)).
  { intros m1 m2 Hm s. unfold s.
    destruct (Once m1) as (E1 & E2 & E3 & E4 & E5 & E6 & _ & _ & E9 & E10).
    set (s1 := loginFailed m1 (set_isAnimating false st)) in *.
    destruct (loginFailed_effect m2 s1)
      as (F1 & F2 & F3 & F4 & F5 & F6 & F7 & F8 & F9).
    split; [congruence|]. split; [congruence|]. split; [congruence|].
    split; [congruence|]. split; [congruence|]. split; [congruence|].
    split; [exact F7|]. split; [exact F8|].
    rewrite F9. split.
    - intros T. rewrite (E9 T). cbn [shown errorText].
      apply String.eqb_neq in Hm. now rewrite Hm.
    - intros T. rewrite (E10 T). apply String.eqb_neq in T. now rewrite T. }
  unfold st'. rewrite (deliver_failed pg r o st Hu Hf).
  destruct o as [data | | status | |]; rewrite ?R, ?Hc; cbn [runCallbackError].
  - apply Once.
  - apply Once.
  - apply Once.
  - apply Twice. discriminate.
  - apply Twice. discriminate.
Qed.

Lemma X17_login_request_failures_witness :
  let st' := deliver Sample.page Sample.loginRequest TimedOut Sample.loggedOut in
  isLoggedIn st' = isLoggedIn Sample.loggedOut /\ isAnimating st' = false
  /\ sections st' = loginUp
  /\ errorText (errorView st') = "Server error (0). Please try again later.".
Proof.
  destruct (X17_login_request_failures Sample.page Sample.loginRequest TimedOut
              Sample.loggedOut eq_refl eq_refl I)
    as (H1 & _ & _ & _ & _ & _ & H7 & H8 & H9 & _).
  split; [exact H1|]. split; [exact H7|]. split; [exact H8|].
  rewrite H9 by (vm_compute; reflexivity). reflexivity.
Defined.

(** X18. A failed logout request logs out all the same: the flag goes down,
    the poll timer is stopped and the login section is up.  The failure
    message is put up and cleared within the same callback, so it is never
    left on display. *)
Theorem X18_logout_request_failures (pg : Page) (r : Request) (o : Outcome) (st : State) :
  callbackError r = LogoutFailed -> includes (url r) "/status" = false -> failed o ->
  let st' := deliver pg r o st in
  isLoggedIn st' = false /\ pollingStopped st st'
  /\ requests st' = requests st /\ isAnimating st' = false
  /\ sections st' = loginUp
  /\ errorText (errorView st') = "" /\ errorDisplay (errorView st') = "none".
Proof.
  intros Hc Hu Hf st'.
  assert (R : forall m s, report r m s = logoutFailed m (set_isAnimating false s)).
  { intros m s. unfold report. rewrite Hc. reflexivity. }
  assert (Once : forall m,
            let s := logoutFailed m (set_isAnimating false st) in
            isLoggedIn s = false /\ pollingStopped st s
            /\ requests s = requests st /\ isAnimating s = false
            /\ sections s = loginUp
            /\ errorText (errorView s) = "" /\ errorDisplay (errorView s) = "none").
  { intros m s. unfold s.
    destruct (logoutFailed_effect m st) as (E1 & E2 & E3 & E4 & E5 & E6 & E7 & _).
    repeat split; try assumption; apply E2. }
  assert (Twice : forall m1 m2,
            let s := logoutFailed m2 (set_isAnimating false
                       (logoutFailed m1 (set_isAnimating false st))) in
            isLoggedIn s = false /\ pollingStopped st s
            /\ requests s = requests st /\ isAnimating s = false
            /\ sections s = loginUp
            /\ errorText (errorView s) = "" /\ errorDisplay (errorView s) = "none").
  { intros m1 m2 s. unfold s.
    destruct (logoutFailed_effect m1 st) as (E1 & [E2 E2'] & E3 & _).
    set (s1 := logoutFailed m1 (set_isAnimating false st)) in *.
    destruct (logoutFailed_effect m2 s1)
      as (F1 & [F2 _] & F3 & F4 & F5 & F6 & F7 & F8).
    split; [exact F1|].
    split; [split; [exact F2 | intros h Hh; rewrite F8, E2; now apply E2']|].
    split; [congruence|]. repeat split; assumption. }
  unfold st'. rewrite (deliver_failed pg r o st Hu Hf).
  destruct o as [data | | status | |]; rewrite ?R, ?Hc; cbn [runCallbackError].
  - apply Once.
  - apply Once.
  - apply Once.
  - apply Twice.
  - apply Twice.
Qed.

Lemma X18_logout_request_failures_witness :
  let st' := deliver Sample.page (logoutRequest false) NetworkError Sample.loggedIn in
  isLoggedIn st' = false /\ errorText (errorView st') = "".
Proof.
  destruct (X18_logout_request_failures Sample.page (logoutRequest false) NetworkError
              Sample.loggedIn eq_refl eq_refl I)
    as (H1 & _ & _ & _ & _ & H6 & _).
  split; [exact H1 | exact H6].
Defined.

(** X19. A request sent without an error callback that is no status poll
    (the probe of [init]) never changes the session when it fails.  An answer
    whose envelope names no handler changes nothing at all on the page, so
    after [init] every section stays hidden; the other failures put up their
    message. *)
Theorem X19_probe_failures (pg : Page) (r : Request) (o : Outcome) (st : State) :
  callbackError r = NoCallback -> includes (url r) "/status" = false -> failed o ->
  let st' := deliver pg r o st in
  isLoggedIn st' = isLoggedIn st /\ statusPollInterval st' = statusPollInterval st
  /\ intervals st' = intervals st /\ requests st' = requests st
  /\ sections st' = sections st /\ calls st' = calls st
  /\ ((exists data, o = Success data) -> st' = set_isAnimating false st)
  /\ ((forall data, o <> Success data) ->
        errorView st' = shown (failureMessage o) (errorView st)).
Proof.
  intros Hc Hu Hf st'. unfold st'.
  rewrite (deliver_failed pg r o st Hu Hf).
  assert (R : forall m s, report r m s = displayJsError m (set_isAnimating false s)).
  { intros m s. unfold report. rewrite Hc. reflexivity. }
  rewrite ?R, Hc.
  destruct (lowered_frame st) as (A1 & A2 & A3 & A4 & _ & _ & A7 & A8 & A9 & _).
  assert (Once : forall m,
            let s := displayJsError m (set_isAnimating false st) in
            isLoggedIn s = isLoggedIn st /\ statusPollInterval s = statusPollInterval st
            /\ intervals s = intervals st /\ requests s = requests st
            /\ sections s = sections st /\ calls s = calls st
            /\ errorView s = shown m (errorView st))
    by (intros m; destruct st; repeat split; reflexivity).
  assert (Twice : forall m1 m2,
            let s := displayJsError m2 (set_isAnimating false
                       (displayJsError m1 (set_isAnimating false st))) in
            isLoggedIn s = isLoggedIn st /\ statusPollInterval s = statusPollInterval st
            /\ intervals s = intervals st /\ requests s = requests st
            /\ sections s = sections st /\ calls s = calls st
            /\ errorView s = shown m2 (errorView st))
    by (intros m1 m2; destruct st; repeat split; reflexivity).
  destruct o as [data | | status | |]; cbn [hasCallback runCallbackError].
  - repeat (split; [assumption|]). split; [reflexivity|].
    intros N. now contradiction (N data).
  - destruct (Once (failureMessage ParseFailure)) as (O1 & O2 & O3 & O4 & O5 & O6 & O7).
    repeat (split; [assumption|]). split; [intros [d Ed]; discriminate Ed|].
    intros _. exact O7.
  - destruct (Once (failureMessage (HttpError status)))
      as (O1 & O2 & O3 & O4 & O5 & O6 & O7).
    repeat (split; [assumption|]). split; [intros [d Ed]; discriminate Ed|].
    intros _. exact O7.
  - destruct (Twice (firstMessage NetworkError) (failureMessage NetworkError))
      as (O1 & O2 & O3 & O4 & O5 & O6 & O7).
    repeat (split; [assumption|]). split; [intros [d Ed]; discriminate Ed|].
    intros _. exact O7.
  - destruct (Twice (firstMessage TimedOut) (failureMessage TimedOut))
      as (O1 & O2 & O3 & O4 & O5 & O6 & O7).
    repeat (split; [assumption|]). split; [intros [d Ed]; discriminate Ed|].
    intros _. exact O7.
Qed.

Lemma X19_probe_failures_witness :
  let o := Success (Sample.envelope [("action", JStr "onSomethingElse")]) in
  deliver Sample.page probeRequest o (init Sample.page Sample.start)
  = set_isAnimating false (init Sample.page Sample.start).
Proof.
  intros o.
  assert (F : failed o) by (vm_compute; reflexivity).
  destruct (X19_probe_failures Sample.page probeRequest o (init Sample.page Sample.start)
              eq_refl eq_refl F) as (_ & _ & _ & _ & _ & _ & H & _).
  apply H. eexists. reflexivity.
Defined.



(** ** What the callbacks and the events respect *)

Section Tame.

Variable pg : Page.

Lemma tame_refl st : tame st st.
Proof.
  repeat split; auto. exists []. split; [now rewrite app_nil_r | constructor].
Qed.

Lemma tame_trans a b c : tame a b -> tame b c -> tame a c.
Proof.
  intros (A1 & A2 & (l1 & A3 & A4) & A5) (B1 & B2 & (l2 & B3 & B4) & B5).
  split; [auto|]. split; [congruence|]. split; [|auto].
  exists (l1 ++ l2)%list. split; [rewrite B3, A3; now rewrite app_assoc|].
  apply Forall_app. now split.
Qed.

(** A step that leaves the four projections alone is tame. *)
Lemma tame_same st st' :
  isAnimating st' = isAnimating st -> completed st' = completed st ->
  requests st' = requests st -> sameSession st st' -> tame st st'.
Proof.
  intros H1 H2 H3 (H4 & H5 & H6). split; [congruence|]. split; [exact H2|].
  split; [exists []; split; [now rewrite app_nil_r | constructor]|].
  unfold timersAgree. now rewrite H5, H6.
Qed.

Ltac same_state st :=
  apply tame_same; [| | |repeat split]; destruct st; reflexivity.

Lemma tame_showLoginSection st : tame st (showLoginSection st).
Proof. same_state st. Qed.

Lemma tame_showStatusSection st : tame st (showStatusSection st).
Proof. same_state st. Qed.

Lemma tame_displayJsError m st : tame st (displayJsError m st).
Proof. same_state st. Qed.

Lemma tame_updateStatusFields data st :
  tame st (stateOf (updateStatusFields data st)).
Proof.
  destruct (updateStatusFields_fields data st) as [fields ->]. same_state st.
Qed.

Lemma tame_call c st : tame st (call c st).
Proof. same_state st. Qed.

Lemma tame_set_hotspotApiData d st : tame st (set_hotspotApiData d st).
Proof. same_state st. Qed.

Lemma tame_set_isLoggedIn b st : tame st (set_isLoggedIn b st).
Proof.
  split; [destruct st; intros A; exact A|]. split; [destruct st; reflexivity|].
  split; [exists []; split; [destruct st; simpl; now rewrite app_nil_r | constructor]|].
  destruct st; intros T; exact T.
Qed.

Lemma tame_lower st : tame st (set_isAnimating false st).
Proof.
  split; [destruct st; reflexivity|]. split; [destruct st; reflexivity|].
  split; [exists []; split; [destruct st; simpl; now rewrite app_nil_r | constructor]|].
  destruct st; intros T; exact T.
Qed.

Lemma tame_handleLoggedOut st : tame st (handleLoggedOut st).
Proof.
  destruct (handleLoggedOut_kept st) as (K1 & K2 & K3 & _).
  split; [congruence|]. split; [exact K3|].
  split; [exists []; split; [now rewrite app_nil_r | constructor]|].
  unfold timersAgree. rewrite handleLoggedOut_poll, handleLoggedOut_intervals.
  intros T. rewrite T. destruct (statusPollInterval st); [|reflexivity].
  simpl. now rewrite Nat.eqb_refl.
Qed.

Lemma tame_enterLoggedIn st : tame st (enterLoggedIn pg st).
Proof.
  destruct (enterLoggedIn_vars pg st) as (_ & V2 & V3 & _ & V5 & _).
  destruct (enterLoggedIn_frame pg st) as (F1 & _ & F3 & _).
  split; [congruence|]. split; [exact F3|].
  split; [exists []; split; [now rewrite app_nil_r | constructor]|].
  unfold timersAgree. now rewrite V2, V3.
Qed.

Lemma tame_logout_then_login st : tame st (showLoginSection (handleLoggedOut st)).
Proof.
  eapply tame_trans; [apply tame_handleLoggedOut | apply tame_showLoginSection].
Qed.

Lemma tame_cookie st :
  tame st (if hasHotCookie pg then call CookieLogin st else st).
Proof. destruct (hasHotCookie pg); [apply tame_call | apply tame_refl]. Qed.

(** A status request, whatever the protocol. *)
Lemma tame_getRequest_poll st : tame st (getRequest pg STATUS NoCallback st).
Proof.
  unfold getRequest. destruct (fileProtocol pg).
  - eapply tame_trans; [apply tame_logout_then_login | apply tame_cookie].
  - split; [destruct st; auto|]. split; [destruct st; reflexivity|].
    split; [|destruct st; auto].
    exists [pollRequest]. split; [destruct st; reflexivity|].
    constructor; [reflexivity | constructor].
Qed.

Lemma timersAgree_none st :
  timersAgree st -> statusPollInterval st = None -> intervals st = [].
Proof. unfold timersAgree. intros T E. now rewrite E in T. Qed.

Lemma tame_startStatusPolling st : tame st (startStatusPolling pg st).
Proof.
  unfold startStatusPolling.
  destruct (statusPollInterval st) eqn:E; [apply tame_refl|].
  destruct (negb (isLoggedIn st)); [apply tame_refl|].
  pose proof (tame_getRequest_poll st) as (G1 & G2 & G3 & G4).
  assert (P : statusPollInterval (getRequest pg STATUS NoCallback st) = None).
  { unfold getRequest. destruct (fileProtocol pg).
    - destruct (hasHotCookie pg).
      + destruct (logout_then_login st) as (_ & [L _] & _).
        destruct (showLoginSection (handleLoggedOut st)); exact L.
      + destruct (logout_then_login st) as (_ & [L _] & _). exact L.
    - destruct st; exact E. }
  set (s := getRequest pg STATUS NoCallback st) in *.
  split; [intros A; specialize (G1 A); destruct s; exact G1|].
  split; [destruct s; exact G2|].
  split; [destruct G3 as (l & G3 & G3'); exists l; split; [destruct s; exact G3 | exact G3']|].
  intros T. specialize (G4 T).
  pose proof (timersAgree_none s G4 P) as I.
  destruct s; simpl in *. unfold timersAgree. simpl. now rewrite I.
Qed.

Lemma tame_handleLoggedIn data st : tame st (stateOf (handleLoggedIn pg data st)).
Proof.
  rewrite handleLoggedIn_eq, stateOf_andThen.
  eapply tame_trans; [apply tame_enterLoggedIn|].
  destruct (truthy (prop data "logged_in")).
  - pose proof (tame_updateStatusFields data (enterLoggedIn pg st)) as T.
    destruct (updateStatusFields data (enterLoggedIn pg st)) as [s|s];
      cbn [stateOf] in T; [|exact T].
    eapply tame_trans; [exact T|].
    eapply tame_trans; [apply tame_showStatusSection | apply tame_startStatusPolling].
  - eapply tame_trans; [apply tame_logout_then_login|].
    eapply tame_trans; [apply tame_showStatusSection | apply tame_startStatusPolling].
Qed.

Lemma tame_handleStatusQuery data st :
  tame st (stateOf (handleStatusQuery pg data st)).
Proof.
  rewrite handleStatusQuery_eq.
  destruct (negb (isLoggedIn st) && truthy (prop data "logged_in")).
  - eapply tame_trans; [apply tame_set_isLoggedIn | apply tame_handleLoggedIn].
  - destruct (isLoggedIn st && negb (truthy (prop data "logged_in")));
      [apply tame_logout_then_login|].
    destruct (isLoggedIn st); [apply tame_updateStatusFields | apply tame_refl].
Qed.

Lemma tame_handleLoginStart data st :
  tame st (stateOf (handleLoginStart pg data st)).
Proof.
  unfold handleLoginStart.
  set (s := set_isLoggedIn _ (set_hotspotApiData (Some data) st)).
  assert (S : tame st s).
  { eapply tame_trans; [apply tame_set_hotspotApiData | apply tame_set_isLoggedIn]. }
  destruct (isLoggedIn s).
  - eapply tame_trans; [exact S | apply tame_handleLoggedIn].
  - cbn [stateOf]. eapply tame_trans; [exact S|].
    eapply tame_trans; [apply tame_logout_then_login | apply tame_cookie].
Qed.

Ltac tame_direct st :=
  split; [destruct st; intros A; first [reflexivity | exact A]|];
  split; [destruct st; reflexivity|];
  split; [exists []; split; [destruct st; simpl; now rewrite app_nil_r | constructor]|];
  destruct st; intros T; exact T.

Lemma tame_handleLoginError data st : tame st (stateOf (handleLoginError pg data st)).
Proof.
  unfold handleLoginError.
  set (m := toArabicError (prop data "error")). clearbody m.
  destruct (truthy (prop data "error")); [|tame_direct st].
  destruct (prop data "error") as [| | b | z | text]; try (tame_direct st).
  destruct (negb (includes (toLowerCase text) retry_marker)); [|tame_direct st].
  destruct (blockerEnabled pg), (hasBlockerFns pg), (hasClearCookies pg);
    tame_direct st.
Qed.

Lemma tame_runHandler h data st : tame st (stateOf (runHandler pg h data st)).
Proof.
  destruct h; cbn [runHandler stateOf].
  - apply tame_handleLoginStart.
  - apply tame_handleLoginError.
  - apply tame_handleLoggedIn.
  - apply tame_handleLoggedOut.
  - apply tame_handleStatusQuery.
  - apply tame_refl.
  - destruct (owns data "toString"); apply tame_refl.
  - apply tame_refl.
Qed.

Lemma tame_loginFailed m st : tame st (loginFailed m st).
Proof.
  unfold loginFailed.
  eapply tame_trans; [apply tame_lower|].
  eapply tame_trans; [|apply tame_showLoginSection].
  match goal with |- context [if ?b then _ else _] => destruct b end;
    [apply tame_displayJsError | apply tame_refl].
Qed.

Lemma tame_logoutFailed m st : tame st (logoutFailed m st).
Proof.
  unfold logoutFailed.
  eapply tame_trans; [apply tame_lower|].
  eapply tame_trans; [apply tame_displayJsError|].
  apply tame_logout_then_login.
Qed.

Lemma tame_runCallbackError cb m st : tame st (runCallbackError cb m st).
Proof.
  destruct cb; [apply tame_refl | apply tame_loginFailed | apply tame_logoutFailed].
Qed.

Lemma tame_parseFailed r st : tame st (parseFailed r st).
Proof.
  unfold parseFailed. destruct (includes (url r) "/status");
    [apply tame_logout_then_login|].
  destruct (hasCallback (callbackError r));
    [apply tame_runCallbackError | apply tame_displayJsError].
Qed.

Lemma tame_tail r m st :
  tame st (if hasCallback (callbackError r) then runCallbackError (callbackError r) m st
           else if includes (url r) "/status" then showLoginSection (handleLoggedOut st)
           else displayJsError m st).
Proof.
  destruct (hasCallback (callbackError r)); [apply tame_runCallbackError|].
  destruct (includes (url r) "/status");
    [apply tame_logout_then_login | apply tame_displayJsError].
Qed.

Lemma tame_onreadystatechange r status body st :
  tame st (onreadystatechange pg r status body st).
Proof.
  unfold onreadystatechange.
  eapply tame_trans; [apply tame_lower|].
  set (s := set_isAnimating false st).
  destruct (Z.eqb status 200); [|apply tame_tail].
  destruct body as [data|]; [|apply tame_parseFailed].
  destruct (if truthy (prop data "action") then apiActionHandlers (prop data "action")
            else None) as [h|].
  - pose proof (tame_runHandler h data s) as T.
    destruct (runHandler pg h data s) as [s'|s']; cbn [stateOf] in T; [exact T|].
    eapply tame_trans; [exact T | apply tame_parseFailed].
  - eapply tame_trans; [apply tame_runCallbackError|].
    destruct (includes (url r) "/status");
      [apply tame_logout_then_login | apply tame_refl].
Qed.

Lemma tame_onerror r st : tame st (onerror r st).
Proof.
  unfold onerror. eapply tame_trans; [apply tame_lower|].
  destruct (hasCallback (callbackError r)); [apply tame_runCallbackError|].
  destruct (includes (url r) "/status"); [apply tame_refl | apply tame_displayJsError].
Qed.

Lemma tame_ontimeout r st : tame st (ontimeout r st).
Proof.
  unfold ontimeout. eapply tame_trans; [apply tame_lower | apply tame_tail].
Qed.

Lemma tame_deliver r o st : tame st (deliver pg r o st).
Proof.
  destruct o; cbn [deliver]; try apply tame_onreadystatechange.
  - eapply tame_trans; [apply tame_onreadystatechange | apply tame_onerror].
  - eapply tame_trans; [apply tame_onreadystatechange | apply tame_ontimeout].
Qed.

(** Each callback lowers [isAnimating] first, and nothing it runs raises
    it again. *)
Lemma lowered_stays st s : tame (set_isAnimating false st) s -> isAnimating s = false.
Proof. intros (T & _). apply T. destruct st; reflexivity. Qed.

Lemma onreadystatechange_lowers r status body st :
  isAnimating (onreadystatechange pg r status body st) = false.
Proof.
  unfold onreadystatechange. apply (lowered_stays st).
  set (s := set_isAnimating false st).
  destruct (Z.eqb status 200); [|apply tame_tail].
  destruct body as [data|]; [|apply tame_parseFailed].
  destruct (if truthy (prop data "action") then apiActionHandlers (prop data "action")
            else None) as [h|].
  - pose proof (tame_runHandler h data s) as T.
    destruct (runHandler pg h data s) as [s'|s']; cbn [stateOf] in T; [exact T|].
    eapply tame_trans; [exact T | apply tame_parseFailed].
  - eapply tame_trans; [apply tame_runCallbackError|].
    destruct (includes (url r) "/status");
      [apply tame_logout_then_login | apply tame_refl].
Qed.

Lemma deliver_lowers r o st : isAnimating (deliver pg r o st) = false.
Proof.
  destruct o; cbn [deliver]; try apply onreadystatechange_lowers.
  - unfold onerror. match goal with |- context [set_isAnimating false ?x] =>
      apply (lowered_stays x) end.
    destruct (hasCallback (callbackError r)); [apply tame_runCallbackError|].
    destruct (includes (url r) "/status"); [apply tame_refl | apply tame_displayJsError].
  - unfold ontimeout. match goal with |- context [set_isAnimating false ?x] =>
      apply (lowered_stays x) end.
    apply tame_tail.
Qed.

End Tame.

(** X21. Whatever request ends and however it ends, its callbacks leave
    [isAnimating] lowered, send nothing but status polls (never a login or a
    logout request), mark no request answered, and keep the registered timers
    in agreement with the held handle. *)
Theorem X21_deliver_settles (pg : Page) (r : Request) (o : Outcome) (st : State) :
  let st' := deliver pg r o st in
  isAnimating st' = false
  /\ completed st' = completed st
  /\ (exists l, requests st' = (requests st ++ l)%list /\ onlyPolls l)
  /\ (timersAgree st -> timersAgree st').
Proof.
  intros st'. split; [apply deliver_lowers|].
  destruct (tame_deliver pg r o st) as (_ & T2 & T3 & T4).
  split; [exact T2|]. split; [exact T3 | exact T4].
Qed.

Lemma X21_deliver_settles_witness :
  let st' := deliver Sample.page pollRequest (Success (Sample.statusAnswer false))
               Sample.loggedIn in
  isAnimating st' = false /\ timersAgree st'.
Proof.
  assert (T : timersAgree Sample.loggedIn) by (vm_compute; reflexivity).
  destruct (X21_deliver_settles Sample.page pollRequest
              (Success (Sample.statusAnswer false)) Sample.loggedIn)
    as (H1 & _ & _ & H4).
  split; [exact H1 | exact (H4 T)].
Defined.

Section Sound.

Variable pg : Page.

Lemma polls_wellFormed l : onlyPolls l -> Forall wellFormed l.
Proof.
  intros H. induction H as [|r l E _ IH]; constructor; [|exact IH].
  right. left. exact E.
Qed.



















(** A request of any kind, whatever the protocol. *)
Lemma getRequest_sound u cb st :
  wellFormed {| url := u; callbackError := cb |} ->
  sound st (getRequest pg u cb st).
Proof.
  intros W. unfold getRequest. destruct (fileProtocol pg).
  - pose proof (tame_trans _ _ _ (tame_logout_then_login st)
                  (tame_cookie pg (showLoginSection (handleLoggedOut st))))
      as (_ & _ & (l & R & P) & T).
    split; [exists l; split; [exact R | now apply polls_wellFormed]|]. exact T.
  - split; [exists [{| url := u; callbackError := cb |}]; split;
            [destruct st; reflexivity | constructor; [exact W | constructor]]|].
    destruct st; intros T; exact T.
Qed.


Lemma sound_refl st : sound st st.
Proof.
  split; [exists []; split; [now rewrite app_nil_r | constructor]|]. auto.
Qed.

Lemma sound_trans a b c : sound a b -> sound b c -> sound a c.
Proof.
  intros ((l1 & A1 & A2) & A3) ((l2 & B1 & B2) & B3).
  split; [exists (l1 ++ l2)%list; split;
          [rewrite B1, A1; now rewrite app_assoc | apply Forall_app; now split]|].
  auto.
Qed.

(** A step that leaves the requests and the session alone. *)
Lemma sound_same st st' :
  requests st' = requests st -> sameSession st st' -> sound st st'.
Proof.
  intros R (S1 & S2 & S3).
  split; [exists []; split; [now rewrite app_nil_r | constructor]|].
  unfold timersAgree; now rewrite S2, S3.
Qed.

Lemma step_sound e st : sound st (step pg e st).
Proof.
  destruct e as [| f | | erase | i | h | i o]; cbn [step].
  - unfold init. eapply sound_trans.
    + apply getRequest_sound. left. reflexivity.
    + apply sound_same; [|repeat split];
        destruct (getRequest pg LOGIN_STATUS NoCallback st); reflexivity.
  - apply sound_same; [|repeat split]; destruct st; reflexivity.
  - unfold onSubmit. destruct (negb (isAnimating st)); [|apply sound_refl].
    unfold doUserLogin.
    destruct (String.length (trim (usernameValue (form st))) =? 0)%nat.
    + apply sound_same; [|repeat split]; destruct st; reflexivity.
    + eapply sound_trans.
      * apply (sound_same st (set_isAnimating true (clearErrors st)));
          [|repeat split]; split_state st; reflexivity.
      * apply getRequest_sound. right. right. left.
        exists (usernameValue (form st)), (passwordValue (form st)). reflexivity.
  - unfold onLogoutClick. destruct (negb (isAnimating st)); [|apply sound_refl].
    apply sound_same; [|repeat split]; destruct st; reflexivity.
  - destruct (nth_error (timeouts st) i) as [t|]; [|apply sound_refl].
    eapply sound_trans.
    + apply (sound_same st (set_timeouts (remove_nth i (timeouts st)) st));
        [|repeat split]; destruct st; reflexivity.
    + set (s := set_timeouts (remove_nth i (timeouts st)) st).
      destruct t; cbn [runTimeout];
        try (apply sound_same; [|repeat split]; destruct s; reflexivity).
      unfold doUserLogout. eapply sound_trans.
      * apply (sound_same s (set_isAnimating true s)); [|repeat split];
          destruct s; reflexivity.
      * eapply sound_trans.
        -- apply (getRequest_sound (if eraseCookie then LOGOUT_ERASE else LOGOUT)
                    LogoutFailed). right. right. right. exists eraseCookie. reflexivity.
        -- apply sound_same; [|repeat split];
             match goal with |- context [setTimeout _ ?x] => destruct x end; reflexivity.
  - destruct (existsb (fun p => Nat.eqb (fst p) h) (intervals st)); [|apply sound_refl].
    unfold pollTick. destruct (isLoggedIn st) eqn:L.
    + apply getRequest_sound. right. left. reflexivity.
    + split; [exists []; split;
              [destruct st as [? ? [x|] ? ? ? ? ? ? ? ? ? ? ?]; simpl; now rewrite app_nil_r
              | constructor]|].
      unfold timersAgree. intros T.
      destruct st as [? ? [x|] ? ? ? ? ? ? ? ? ? ? ?]; simpl in *; [|exact T].
      rewrite T. simpl. now rewrite Nat.eqb_refl.
  - destruct (nth_error (requests st) i) as [r|]; [|apply sound_refl].
    destruct (existsb (Nat.eqb i) (completed st)); [apply sound_refl|].
    eapply sound_trans.
    + apply (sound_same st (set_completed (completed st ++ [i]) st));
        [|repeat split]; destruct st; reflexivity.
    + set (s := set_completed (completed st ++ [i]) st).
      destruct (tame_deliver pg r o s) as (_ & _ & (l & R & P) & T).
      split; [exists l; split; [exact R | now apply polls_wellFormed]|]. exact T.
Qed.



End Sound.



(** X23. Every request the page ever sends is the probe, a status poll, a
    login to the login address with encoded credentials, or a logout, each
    with the error callback of its caller. *)
Theorem X23_reachable_requests (pg : Page) (st : State) :
  reachable pg st -> Forall wellFormed (requests st).
Proof.
  intros R. induction R as [s v fields f | e st R IH].
  - constructor.
  - destruct (step_sound pg e st) as ((l & E & W) & _).
    rewrite E. apply Forall_app. now split.
Qed.

Lemma X23_reachable_requests_witness : Forall wellFormed (requests Sample.secondLogin).
Proof.
  apply (X23_reachable_requests Sample.page Sample.secondLogin). apply reachable_run.
Defined.

(** ** Pending timers *)

Section Timers.

Variable pg : Page.

Lemma nth_error_end {A : Type} (l : list A) (x : A) (r : list A) :
  nth_error (l ++ x :: r) (length l) = Some x.
Proof. induction l as [|a l IH]; [reflexivity | exact IH]. Qed.

Lemma remove_nth_end {A : Type} (l : list A) (x : A) (r : list A) :
  remove_nth (length l) (l ++ x :: r) = (l ++ r)%list.
Proof. induction l as [|a l IH]; [reflexivity | simpl; now rewrite IH]. Qed.

Lemma fire_at l t rest st :
  timeouts st = (l ++ t :: rest)%list ->
  step pg (Fire (length l)) st = runTimeout pg t (set_timeouts (l ++ rest) st).
Proof.
  intros E. cbn [step]. now rewrite E, nth_error_end, remove_nth_end.
Qed.

End Timers.

(** X24. The logout button is guarded by [isAnimating] but does not raise it:
    a click while it is raised does nothing, a click while it is lowered only
    arms a 100 ms timer.  So two clicks made before the first timer runs arm
    two timers, and as [doUserLogout] itself tests nothing, each sends its
    own logout request. *)
Theorem X24_logout_clicks (pg : Page) (e1 e2 : bool) (st : State) :
  (isAnimating st = true -> step pg (LogoutClick e1) st = st)
  /\ (isAnimating st = false -> fileProtocol pg = false ->
        let i := length (timeouts st) in
        let st1 := run pg [LogoutClick e1; LogoutClick e2] st in
        let st2 := run pg [Fire i; Fire i] st1 in
        (requests st1 = requests st /\ isAnimating st1 = false
         /\ timeouts st1 = (timeouts st ++ [RunLogout e1; RunLogout e2])%list)
        /\ requests st2 = (requests st ++ [logoutRequest e1; logoutRequest e2])%list
        /\ isAnimating st2 = true
        /\ isLoggedIn st2 = isLoggedIn st
        /\ statusPollInterval st2 = statusPollInterval st
        /\ timeouts st2 = (timeouts st ++ [LogoutFallback; LogoutFallback])%list).
Proof.
  split.
  - intros H. cbn [step]. unfold onLogoutClick. now rewrite H.
  - intros Ha Hp i st1 st2.
    assert (E1 : st1 = set_timeouts (timeouts st ++ [RunLogout e1; RunLogout e2]) st).
    { unfold st1, run. cbn [fold_left step]. unfold onLogoutClick, setTimeout.
      rewrite Ha. cbn [negb].
      destruct st; simpl in *; subst. simpl. now rewrite <- app_assoc. }
    split; [rewrite E1; destruct st; repeat split; exact Ha|].
    unfold st2, run. cbn [fold_left]. unfold i.
    rewrite (fire_at pg (timeouts st) (RunLogout e1) [RunLogout e2] st1)
      by (rewrite E1; destruct st; reflexivity).
    cbn [runTimeout].
    set (s1 := doUserLogout pg e1 _).
    assert (T : timeouts s1 = (timeouts st ++ [RunLogout e2; LogoutFallback])%list).
    { unfold s1, doUserLogout, getRequest, setTimeout. rewrite Hp, E1.
      destruct st; simpl. now rewrite <- app_assoc. }
    rewrite (fire_at pg (timeouts st) (RunLogout e2) [LogoutFallback] s1 T).
    cbn [runTimeout]. unfold s1, doUserLogout, getRequest, setTimeout.
    rewrite Hp, E1. destruct st; simpl. rewrite <- !app_assoc.
    repeat split; reflexivity.
Qed.

Lemma X24_logout_clicks_witness :
  let st := Sample.loggedIn in
  let st1 := run Sample.page [LogoutClick false; LogoutClick true] st in
  let st2 := run Sample.page [Fire (length (timeouts st)); Fire (length (timeouts st))]
               st1 in
  isAnimating st = false
  /\ requests st2 = (requests st ++ [logoutRequest false; logoutRequest true])%list.
Proof.
  intros st st1 st2.
  assert (A : isAnimating st = false) by (vm_compute; reflexivity).
  split; [exact A|].
  destruct (proj2 (X24_logout_clicks Sample.page false true st) A eq_refl) as (_ & H & _).
  exact H.
Defined.

(** X25. A pending popup timer hides a later error.  [clearErrors] on a page
    whose popup is up arms the 300 ms timer of [hideErrorPopup] (with the
    popup down it arms nothing); a message put up by [displayJsError] before
    that timer runs is hidden when it does: the text stays, its box is no
    longer displayed and the popup is down. *)
Theorem X25_stale_popup_timer (pg : Page) (message : string) (st : State) :
  (popupActive (errorView st) = false -> timeouts (clearErrors st) = timeouts st)
  /\ (popupActive (errorView st) = true ->
        let i := length (timeouts st) in
        let st1 := clearErrors st in
        let st2 := displayJsError message st1 in
        let st3 := step pg (Fire i) st2 in
        timeouts st1 = (timeouts st ++ [HidePopup])%list
        /\ (errorText (errorView st2) = message
            /\ errorDisplay (errorView st2) = "block")
        /\ errorText (errorView st3) = message
        /\ errorDisplay (errorView st3) = "none"
        /\ popupActive (errorView st3) = false
        /\ timeouts st3 = timeouts st).
Proof.
  split.
  - intros H. destruct st as [? ? ? ? ? v ? ? ? ? l ? ? ?]; simpl in H.
    unfold clearErrors, hideErrorPopup. simpl. now rewrite H.
  - intros H i st1 st2 st3.
    assert (T : timeouts st2 = (timeouts st ++ [HidePopup])%list).
    { unfold st2, st1, clearErrors, hideErrorPopup, displayJsError, showErrorPopup,
        setTimeout.
      destruct st as [? ? ? ? ? v ? ? ? ? l ? ? ?]; simpl in *. now rewrite H. }
    unfold st3, i. rewrite (fire_at pg (timeouts st) HidePopup [] st2 T).
    cbn [runTimeout]. rewrite app_nil_r.
    unfold st2, st1, clearErrors, hideErrorPopup, displayJsError, showErrorPopup,
      setTimeout.
    destruct st as [? ? ? ? ? v ? ? ? ? l ? ? ?]; simpl in *. rewrite H. simpl.
    repeat split; reflexivity.
Qed.

Lemma X25_stale_popup_timer_witness :
  let st := displayJsError "first" Sample.loggedOut in
  let st3 := step Sample.page (Fire (length (timeouts st)))
               (displayJsError "second" (clearErrors st)) in
  errorText (errorView st3) = "second" /\ errorDisplay (errorView st3) = "none".
Proof.
  intros st st3.
  assert (P : popupActive (errorView st) = true) by (vm_compute; reflexivity).
  destruct (proj2 (X25_stale_popup_timer Sample.page "second" st) P)
    as (_ & _ & H1 & H2 & _).
  split; [exact H1 | exact H2].
Defined.

(** ** The status fields: visibility of the remaining amounts, and logout *)

Section Items.
Import Fields.

Variable data : Envelope.









Lemma field_clearAll fields key :
  key <> "status_title" ->
  field (clearAll fields) key = clearField (field fields key).
Proof.
  intros Hk. unfold clearAll. rewrite field_update_field.
  assert (E : String.eqb "status_title" key = false)
    by (apply String.eqb_neq; congruence).
  rewrite E. clear E Hk.
  induction fields as [|[k0 e] rest IH]; simpl; [reflexivity|].
  destruct (String.eqb k0 key); [reflexivity | exact IH].
Qed.

End Items.



(** X27. What the logout transition does to a status field other than the
    title.  An element that is neither a DIV nor a SPAN (and has not the
    title's id) gets the text N/A and keeps its display, also when it is the
    item of a remaining amount; only an item that is a DIV or a SPAN is
    hidden, and every other DIV or SPAN is left as it was. *)
Theorem X27_handleLoggedOut_fields (st : State) (key : string) (e : Element) :
  key <> "status_title" ->
  field (statusFields st) key = Some e ->
  let item := String.eqb (elemId e) "status-time-left-item"
              || String.eqb (elemId e) "status-remain-item" in
  let e' := field (statusFields (handleLoggedOut st)) key in
  (tagName e <> "DIV" -> tagName e <> "SPAN" -> elemId e <> "status-title" ->
     e' = Some (set_inner (Text "N/A") e))
  /\ (tagName e = "DIV" \/ tagName e = "SPAN" ->
        e' = Some (if item then set_display "none" e else e)).
Proof.
  intros Hk F item e'. unfold e'.
  rewrite handleLoggedOut_fields, (field_clearAll _ _ Hk), F. unfold clearField.
  fold item. split.
  - intros H1 H2 H3.
    apply String.eqb_neq in H1, H2, H3. now rewrite H1, H2, H3.
  - intros [H|H]; rewrite H; simpl; rewrite ?andb_false_r; simpl;
      destruct item; reflexivity.
Qed.

Lemma X27_handleLoggedOut_fields_witness :
  let e := {| tagName := "LI"; elemId := "status-time-left-item";
              inner := Html ""; display := "" |} in
  field (statusFields Sample.start) "session_time_left_item" = Some e
  /\ field (statusFields (handleLoggedOut Sample.start)) "session_time_left_item"
     = Some (set_inner (Text "N/A") e).
Proof.
  intros e.
  assert (F : field (statusFields Sample.start) "session_time_left_item" = Some e)
    by (vm_compute; reflexivity).
  assert (K : "session_time_left_item" <> "status_title") by discriminate.
  split; [exact F|].
  apply (proj1 (X27_handleLoggedOut_fields Sample.start "session_time_left_item" e K F));
    discriminate.
Defined.
